(** * network-monitor: connection sampling and rate attribution

    A shallow embedding of the two programs of the repository,
    [network-monitor.py] (terminal) and [network-monitor-gtk.py] (GTK
    window), and the properties of their sampling engine.

    Conventions of the embedding:
    - a Python [str] is a [string]; a character is a code point below 256;
    - a Python [int] is a [Z];
    - a [dict] keyed by strings is a [gmap string _], a [set] of strings is
      a [gset string];
    - code that raises inside [try: ... except:] is written in the option
      monad, [None] standing for "an exception was raised";
    - the outside world (the [ss] command, the files under [/proc], the
      GLib main loop, started threads) is explicit: what the program reads
      is an argument, what it schedules is recorded in the state. *)

From stdpp Require Import base option list sorting gmap strings pretty.
From Stdlib Require Import Ascii ZArith Lia.

Local Open Scope Z_scope.

(** ** Python primitives on [str] and [int] *)
Module Py.

(** [c.isspace()] for the code points below 256. *)
Definition isspace (c : ascii) : bool :=
  Ascii.is_space c
  || bool_decide (nat_of_ascii c ∈ [28; 29; 30; 31; 133; 160]%nat).

(** [s.startswith(p)] *)
Definition startswith (s p : string) : bool := String.prefix p s.

(** [s.endswith(p)] *)
Definition endswith (s p : string) : bool :=
  String.prefix (String.rev p) (String.rev s).

(** [c in s] for a one-character [c] *)
Fixpoint contains (c : ascii) (s : string) : bool :=
  match s with
  | EmptyString => false
  | String a s' => Ascii.eqb a c || contains c s'
  end.

(** [s.split(sep)] for a one-character separator: never empty. *)
Fixpoint split (sep : ascii) (s : string) : list string :=
  match s with
  | EmptyString => [EmptyString]
  | String c s' =>
      if Ascii.eqb c sep then EmptyString :: split sep s'
      else match split sep s' with
           | w :: ws => String c w :: ws
           | [] => [String c EmptyString]
           end
  end.

(** [s.split()]: runs of whitespace separate, no empty field. *)
Fixpoint split_ws (s : string) : list string :=
  match s with
  | EmptyString => []
  | String c s' =>
      if isspace c then split_ws s'
      else match s' with
           | EmptyString => [String c EmptyString]
           | String c' _ =>
               if isspace c' then String c EmptyString :: split_ws s'
               else match split_ws s' with
                    | w :: ws => String c w :: ws
                    | [] => [String c EmptyString]
                    end
           end
  end.

(** The cut of [s.rsplit(sep, 1)]: the text before and after the last
    [sep], when there is one. *)
Fixpoint rcut (sep : ascii) (s : string) : option (string * string) :=
  match s with
  | EmptyString => None
  | String c s' =>
      match rcut sep s' with
      | Some (a, b) => Some (String c a, b)
      | None => if Ascii.eqb c sep then Some (EmptyString, s') else None
      end
  end.

(** [s.rsplit(sep, 1)] *)
Definition rsplit1 (sep : ascii) (s : string) : list string :=
  match rcut sep s with
  | Some (a, b) => [a; b]
  | None => [s]
  end.

(** [s.lstrip()], [s.rstrip()], [s.strip()] *)
Fixpoint lstrip (s : string) : string :=
  match s with
  | EmptyString => EmptyString
  | String c s' => if isspace c then lstrip s' else s
  end.

Definition rstrip (s : string) : string :=
  String.rev (lstrip (String.rev s)).

Definition strip (s : string) : string := rstrip (lstrip s).

(** [s[1:-1]] *)
Definition slice_1_m1 (s : string) : string :=
  match s with
  | EmptyString => EmptyString
  | String _ s' => String.rev (match String.rev s' with
                               | EmptyString => EmptyString
                               | String _ r => r
                               end)
  end.

(** [s[:n] if len(s) > n else s] *)
Definition truncate (n : nat) (s : string) : string :=
  if (n <? String.length s)%nat then String.substring 0 n s else s.

(** [s.replace(a, b)] for one-character [a] and [b] *)
Fixpoint replace (a b : ascii) (s : string) : string :=
  match s with
  | EmptyString => EmptyString
  | String c s' => String (if Ascii.eqb c a then b else c) (replace a b s')
  end.

(** [c.lower()] below 256: A-Z, and the Latin-1 capitals but the
    multiplication sign. *)
Definition lower_char (c : ascii) : ascii :=
  let n := nat_of_ascii c in
  if ((65 <=? n) && (n <=? 90)
      || (192 <=? n) && (n <=? 222) && negb (n =? 215))%nat
  then ascii_of_nat (n + 32) else c.

Fixpoint lower (s : string) : string :=
  match s with
  | EmptyString => EmptyString
  | String c s' => String (lower_char c) (lower s')
  end.

Definition digit (c : ascii) : option Z := Z.of_nat <$> Ascii.is_nat c.

(** The digits of a decimal literal: at least one digit, single
    underscores allowed between digits only.  [after_digit] tells
    whether the previous character was a digit. *)
Fixpoint digits (acc : Z) (after_digit : bool) (s : string) : option Z :=
  match s with
  | EmptyString => if after_digit then Some acc else None
  | String c s' =>
      if Ascii.eqb c "_" then
        if after_digit then digits acc false s' else None
      else
        match digit c with
        | Some d => digits (10 * acc + d) true s'
        | None => None
        end
  end.

(** [int(s)]: surrounding whitespace, an optional sign, then the
    digits; [None] is [ValueError].  Two things of the interpreter are
    not modelled.  Its cap on the number of digits (4300 unless it is
    configured otherwise) makes [int] raise on longer literals, so what
    is stated about numbers read is stated for literals below the cap.
    And [int] does not take off the separators U+001C to U+001F, which
    [strip] does; the programs only hand fields of [split()] to [int],
    which hold none of them. *)
Definition int (s : string) : option Z :=
  match strip s with
  | EmptyString => None
  | String c s' =>
      if Ascii.eqb c "-" then Z.opp <$> digits 0 false s'
      else if Ascii.eqb c "+" then digits 0 false s'
      else digits 0 false (String c s')
  end.

(** What a [key=] function of the programs returns: an [int] or a
    [str]. *)
Inductive key :=
| KInt (n : Z)
| KStr (s : string).

Global Instance key_eq_dec : EqDecision key.
Proof. solve_decision. Defined.

(** [a < b] on keys: numbers by value, strings by code points.  (An
    [int] against a [str] raises [TypeError]; no call of the programs
    mixes them.) *)
Definition key_lt (a b : key) : bool :=
  match a, b with
  | KInt m, KInt n => m <? n
  | KStr s, KStr t => String.ltb s t
  | _, _ => false
  end.

(** The builtin [sorted(items, key=..., reverse=...)], which is not code
    of the repository: the keys are computed first, one per item and in
    order; the items are then arranged by [<] on their keys alone, items
    of equal keys keeping their order, with [reverse] or without.  The
    arrangement is written as an insertion from the right. *)
Section Sorted.
Context {A : Type} (before : key → key → bool).

Fixpoint insert_keyed (x : key * A) (l : list (key * A)) : list (key * A) :=
  match l with
  | [] => [x]
  | y :: l' =>
      if before y.1 x.1 then y :: insert_keyed x l' else x :: y :: l'
  end.

Definition sort_keyed (l : list (key * A)) : list (key * A) :=
  foldr insert_keyed [] l.
End Sorted.

Definition sorted {A} (keys : list key) (items : list A) (reverse : bool) : list A :=
  (sort_keyed (if reverse then flip key_lt else key_lt) (zip keys items)).*2.

End Py.

(** ** The per-process I/O counters ([get_process_io], the same text in
    both programs) *)
Module ProcIO.

(** What [open(path).read()] gives: the text of the file, or [None]
    when [open] or [read] raises (no such process, permission denied,
    undecodable bytes). *)
Definition files := string → option string.

Definition io_path (pid : string) : string := "/proc/" +:+ pid +:+ "/io".

(** The body of the [for line in io_data.split('\n')] loop, with the
    two accumulators; [None] when [line.split()[1]] or [int] raises. *)
Fixpoint scan (lines : list string) (rx_bytes tx_bytes : Z) : option (Z * Z) :=
  match lines with
  | [] => Some (rx_bytes, tx_bytes)
  | line :: rest =>
      if Py.startswith line "rchar:" then
        v ← Py.split_ws line !! 1%nat ≫= Py.int; scan rest v tx_bytes
      else if Py.startswith line "wchar:" then
        v ← Py.split_ws line !! 1%nat ≫= Py.int; scan rest rx_bytes v
      else scan rest rx_bytes tx_bytes
  end.

Definition get_process_io (fs : files) (pid : string) : Z * Z :=
  match fs (io_path pid) ≫= (λ io_data, scan (Py.split "010" io_data) 0 0) with
  | Some r => r
  | None => (0, 0)
  end.

End ProcIO.

(** ** What both programs share: connection records and the world *)
Module Net.

(** One entry of the list returned by [get_connections]: the dict with
    keys ['protocol'], ['state'], ['local'], ['remote'], ['program'],
    ['pid'].  The GTK program later attaches ['rx_rate'] and
    ['tx_rate'] to the same dict; the keys are absent until then. *)
Record connection := {
  protocol : string;
  state : string;
  local : string;
  remote : string;
  program : string;
  pid : string;
  rx_rate : option Z;
  tx_rate : option Z;
}.

(** A value of [prev_io] / [current_io]: the dict [{'rx': _, 'tx': _}]. *)
Record io_sample := { rx : Z; tx : Z }.

(** The outside world, as two oracles indexed by call number: what the
    n-th call of [get_connections] returns (the parsed output of [ss],
    [[]] when the command fails), and what the files under [/proc]
    hold at the n-th [open]. *)
Record world := {
  ss : nat → list connection;
  proc : nat → ProcIO.files;
}.

End Net.

(** ** network-monitor.py *)
Module Cli.
Import Net.

Definition resolve_address (addr : string) : string :=
  if String.eqb addr "0.0.0.0:*" || String.eqb addr "*:*"
     || String.eqb addr "[::]:*" then "ANY"
  else if Py.startswith addr "127.0.0.1:" || Py.startswith addr "[::1]:"
  then "LOCALHOST"
  else if Py.startswith addr "224.0.0.251:" then "MDNS"
  else addr.

(** The arguments of one [print_table_row(conn, rx_rate, tx_rate)]. *)
Record row := { row_conn : connection; row_rx : Z; row_tx : Z }.

(** The variables of [main] that live across the iterations of the
    [for conn in connections] loop, the rows printed so far, and the
    clocks of the world. *)
Record state := {
  prev_io : gmap string io_sample;
  active_connections : nat;
  printed : list row;
  ss_calls : nat;
  opened : nat;
}.

(** One iteration of [for conn in connections]. *)
Definition visit (w : world) (st : state) (conn : connection) : state :=
  if String.eqb (resolve_address (remote conn)) "LOCALHOST" then st
  else
    let '(rx_rate, tx_rate, st) :=
      if negb (String.eqb (pid conn) "N/A") then
        let '(current_read, current_write) :=
          ProcIO.get_process_io (proc w (opened st)) (pid conn) in
        let pid_key := pid conn in
        let '(rx_rate, tx_rate) :=
          match prev_io st !! pid_key with
          | Some p => (current_read - rx p, current_write - tx p)
          | None => (0, 0)
          end in
        (rx_rate, tx_rate,
         {| prev_io := <[pid_key := {| rx := current_read; tx := current_write |}]> (prev_io st);
            active_connections := active_connections st;
            printed := printed st;
            ss_calls := ss_calls st;
            opened := S (opened st) |})
      else (0, 0, st) in
    {| prev_io := prev_io st;
       active_connections :=
         if (0 <? rx_rate) || (0 <? tx_rate)
         then S (active_connections st) else active_connections st;
       printed := printed st ++ [{| row_conn := conn; row_rx := rx_rate; row_tx := tx_rate |}];
       ss_calls := ss_calls st;
       opened := opened st |}.

(** What one pass of the [while True] body shows: the table rows and the
    summary line [(len(connections), active_connections)]; no table and
    no summary when [connections] is empty. *)
Record screen := {
  rows : list row;
  summary : option (nat * nat);
}.

(** One pass of the [while True] body of [main]; only [prev_io] and the
    clocks survive to the next pass. *)
Definition cycle (w : world) (st : state) : screen * state :=
  let connections := ss w (ss_calls st) in
  let st := {| prev_io := prev_io st; active_connections := 0; printed := [];
               ss_calls := S (ss_calls st); opened := opened st |} in
  match connections with
  | [] => ({| rows := []; summary := None |}, st)
  | _ =>
      let st := foldl (visit w) st connections in
      ({| rows := printed st;
          summary := Some (length connections, active_connections st) |}, st)
  end.

(** [main] starts with [prev_io = {}]. *)
Definition start : state :=
  {| prev_io := ∅; active_connections := 0; printed := [];
     ss_calls := 0; opened := 0 |}.

End Cli.

(** ** network-monitor-gtk.py *)
Module Gtk.
Import Net.

(** The attributes of [NetworkMonitorWindow] that the sampling engine
    reads and writes. *)
Record window := {
  prev_io : gmap string io_sample;
  sort_column : nat;
  sort_ascending : bool;
  resolve_hosts : bool;
  resolution_cache : gmap string string;
  resolution_pending : gset string;
}.

(** What the window hands to GLib to be called later on the main loop. *)
Inductive callback :=
| update_resolution_cache_cb (addr resolved : string)
| delayed_refresh_cb
| update_connections_cb.

(** The description of the status bar set by [update_status]. *)
Inductive description :=
| Monitoring
| Summary (total active : nat).

(** The window together with what it did to its surroundings: the
    clocks of the world, the threads started (with the arguments of
    [async_resolve_host]), the callbacks given to [GLib.idle_add] and
    [GLib.timeout_add], the rows of labels in the grid, the status. *)
Record sys := {
  win : window;
  ss_calls : nat;
  opened : nat;
  started : list (string * string);
  idle : list callback;
  timeouts : list callback;
  row_widgets : list (list string);
  status : description;
}.

(** [__init__] before [setup_ui] and [start_monitoring]. *)
Definition init_window : window :=
  {| prev_io := ∅; sort_column := 0; sort_ascending := true;
     resolve_hosts := true; resolution_cache := ∅;
     resolution_pending := ∅ |}.

Definition init : sys :=
  {| win := init_window; ss_calls := 0; opened := 0; started := [];
     idle := []; timeouts := []; row_widgets := []; status := Monitoring |}.

(** *** State passing *)
Definition M (A : Type) : Type := sys → A * sys.

Global Instance M_ret : MRet M := λ A a s, (a, s).

Global Instance M_bind : MBind M :=
  λ A B k m s, let '(a, s') := m s in k a s'.

Definition get_win : M window := λ s, (win s, s).

Definition modify_win (f : window → window) : M unit :=
  λ s, (tt, {| win := f (win s); ss_calls := ss_calls s; opened := opened s;
              started := started s; idle := idle s; timeouts := timeouts s;
              row_widgets := row_widgets s; status := status s |}).

Definition set_prev_io (m : gmap string io_sample) (w : window) : window :=
  {| prev_io := m; sort_column := sort_column w;
     sort_ascending := sort_ascending w; resolve_hosts := resolve_hosts w;
     resolution_cache := resolution_cache w;
     resolution_pending := resolution_pending w |}.

Definition set_sort (column : nat) (ascending : bool) (w : window) : window :=
  {| prev_io := prev_io w; sort_column := column;
     sort_ascending := ascending; resolve_hosts := resolve_hosts w;
     resolution_cache := resolution_cache w;
     resolution_pending := resolution_pending w |}.

Definition set_resolve_hosts (b : bool) (w : window) : window :=
  {| prev_io := prev_io w; sort_column := sort_column w;
     sort_ascending := sort_ascending w; resolve_hosts := b;
     resolution_cache := resolution_cache w;
     resolution_pending := resolution_pending w |}.

Definition set_cache (c : gmap string string) (w : window) : window :=
  {| prev_io := prev_io w; sort_column := sort_column w;
     sort_ascending := sort_ascending w; resolve_hosts := resolve_hosts w;
     resolution_cache := c;
     resolution_pending := resolution_pending w |}.

Definition set_pending (p : gset string) (w : window) : window :=
  {| prev_io := prev_io w; sort_column := sort_column w;
     sort_ascending := sort_ascending w; resolve_hosts := resolve_hosts w;
     resolution_cache := resolution_cache w;
     resolution_pending := p |}.

(** [threading.Thread(target=self.async_resolve_host, args=(ip_part, addr)).start()] *)
Definition start_thread (ip_part addr : string) : M unit :=
  λ s, (tt, {| win := win s; ss_calls := ss_calls s; opened := opened s;
              started := started s ++ [(ip_part, addr)]; idle := idle s;
              timeouts := timeouts s; row_widgets := row_widgets s;
              status := status s |}).

(** [GLib.idle_add(cb)] *)
Definition idle_add (cb : callback) : M unit :=
  λ s, (tt, {| win := win s; ss_calls := ss_calls s; opened := opened s;
              started := started s; idle := idle s ++ [cb];
              timeouts := timeouts s; row_widgets := row_widgets s;
              status := status s |}).

(** [GLib.timeout_add(self.update_interval, cb)] *)
Definition timeout_add (cb : callback) : M unit :=
  λ s, (tt, {| win := win s; ss_calls := ss_calls s; opened := opened s;
              started := started s; idle := idle s;
              timeouts := timeouts s ++ [cb]; row_widgets := row_widgets s;
              status := status s |}).

(** The loop [for widget in self.row_widgets: self.grid.remove(widget)]
    and [self.row_widgets.clear()]. *)
Definition clear_rows : M unit :=
  λ s, (tt, {| win := win s; ss_calls := ss_calls s; opened := opened s;
              started := started s; idle := idle s; timeouts := timeouts s;
              row_widgets := []; status := status s |}).

(** The labels of one row attached to the grid. *)
Definition attach_row (row_data : list string) : M unit :=
  λ s, (tt, {| win := win s; ss_calls := ss_calls s; opened := opened s;
              started := started s; idle := idle s; timeouts := timeouts s;
              row_widgets := row_widgets s ++ [row_data]; status := status s |}).

Definition update_status (total active : nat) : M unit :=
  λ s, (tt, {| win := win s; ss_calls := ss_calls s; opened := opened s;
              started := started s; idle := idle s; timeouts := timeouts s;
              row_widgets := row_widgets s;
              status := if (0 <? total)%nat then Summary total active
                        else Monitoring |}).

(** [open(path).read()] against the world: one more file opened. *)
Definition read_file (w : world) (path : string) : M (option string) :=
  λ s, (proc w (opened s) path,
        {| win := win s; ss_calls := ss_calls s; opened := S (opened s);
           started := started s; idle := idle s; timeouts := timeouts s;
           row_widgets := row_widgets s; status := status s |}).

(** [self.get_connections()] against the world. *)
Definition get_connections (w : world) : M (list connection) :=
  λ s, (ss w (ss_calls s),
        {| win := win s; ss_calls := S (ss_calls s); opened := opened s;
           started := started s; idle := idle s; timeouts := timeouts s;
           row_widgets := row_widgets s; status := status s |}).

Definition get_process_io (w : world) (pid : string) : M (Z * Z) :=
  λ s, (ProcIO.get_process_io (proc w (opened s)) pid,
        {| win := win s; ss_calls := ss_calls s; opened := S (opened s);
           started := started s; idle := idle s; timeouts := timeouts s;
           row_widgets := row_widgets s; status := status s |}).

Definition get_process_path (w : world) (pid : string) : M string :=
  r ← read_file w ("/proc/" +:+ pid +:+ "/cmdline");
  mret match r with
      | Some text =>
          let cmdline := Py.strip text in
          if String.eqb cmdline "" then "[" +:+ pid +:+ "]"
          else Py.replace "000" " " cmdline
      | None => "N/A"
      end.

(** The IP component that [resolve_address] extracts from an address
    holding a colon: [addr.rsplit(':', 1)[0]], without its brackets. *)
Definition ip_part_of (addr : string) : string :=
  let ip_part := default addr (head (Py.rsplit1 ":" addr)) in
  if Py.startswith ip_part "[" && Py.endswith ip_part "]"
  then Py.slice_1_m1 ip_part else ip_part.

Definition resolve_address (addr : string) : M string :=
  if String.eqb addr "0.0.0.0:*" || String.eqb addr "*:*"
     || String.eqb addr "[::]:*" then mret "ANY"
  else if Py.startswith addr "127.0.0.1:" || Py.startswith addr "[::1]:"
  then mret "LOCALHOST"
  else if Py.startswith addr "224.0.0.251:" then mret "MDNS"
  else
    w ← get_win;
    if negb (resolve_hosts w) then mret addr
    else
      match resolution_cache w !! addr with
      | Some resolved => mret resolved
      | None =>
          if Py.contains ":" addr then
            let ip_part := ip_part_of addr in
            (if bool_decide (ip_part ∈ resolution_pending w) then mret tt
                  else
                    modify_win (set_pending ({[ip_part]} ∪ resolution_pending w));;
                    start_thread ip_part addr);;
            mret addr
          else mret addr
      end.

(** [conn['rx_rate'] = rx; conn['tx_rate'] = tx] *)
Definition with_rates (rx_diff tx_diff : Z) (conn : connection) : connection :=
  {| protocol := protocol conn; state := state conn; local := local conn;
     remote := remote conn; program := program conn; pid := pid conn;
     rx_rate := Some rx_diff; tx_rate := Some tx_diff |}.

(** The loop [for conn in connections] of [update_connections] that
    samples the counters, fills [current_io] and attaches the rates. *)
Fixpoint sample_io (w : world) (connections : list connection)
    (current_io : gmap string io_sample)
    : M (list connection * gmap string io_sample) :=
  match connections with
  | [] => mret ([], current_io)
  | conn :: rest =>
      '(conn, current_io) ←
        (if negb (String.eqb (pid conn) "N/A") then
           '(current_read, current_write) ← get_process_io w (pid conn);
           let pid_key := pid conn in
           let current_io :=
             <[pid_key := {| rx := current_read; tx := current_write |}]> current_io in
           self ← get_win;
           mret (match prev_io self !! pid_key with
                 | Some p =>
                     let rx_diff := Z.max 0 (current_read - rx p) in
                     let tx_diff := Z.max 0 (current_write - tx p) in
                     with_rates rx_diff tx_diff conn
                 | None => with_rates 0 0 conn
                 end, current_io)
         else mret (with_rates 0 0 conn, current_io));
      '(rest, current_io) ← sample_io w rest current_io;
      mret (conn :: rest, current_io)
  end.

(** [[conn for conn in connections
      if self.resolve_address(conn['remote']) != "LOCALHOST"]] *)
Fixpoint filter_localhost (connections : list connection) : M (list connection) :=
  match connections with
  | [] => mret []
  | conn :: rest =>
      resolved ← resolve_address (remote conn);
      rest ← filter_localhost rest;
      mret (if negb (String.eqb resolved "LOCALHOST") then conn :: rest else rest)
  end.

(** [conn.get('rx_rate', 0)], [conn.get('tx_rate', 0)]; also the reading
    of [conn['rx_rate']] where the key is known to be there. *)
Definition get_rx_rate (conn : connection) : Z := default 0 (rx_rate conn).
Definition get_tx_rate (conn : connection) : Z := default 0 (tx_rate conn).

Section Presentation.
(** [format_bytes] formats through floating point numbers and is left
    to the presentation layer. *)
Variable format_bytes : Z → string.
Variable w : world.

Definition get_row_data (conn : connection) : M (list string) :=
  let rx_rate := get_rx_rate conn in
  let tx_rate := get_tx_rate conn in
  let prog_pid :=
    if negb (String.eqb (pid conn) "N/A")
    then program conn +:+ "(" +:+ pid conn +:+ ")" else program conn in
  local_resolved ← resolve_address (local conn);
  remote_resolved ← resolve_address (remote conn);
  let prog_pid := Py.truncate 30 prog_pid in
  let local_resolved := Py.truncate 30 local_resolved in
  let remote_resolved := Py.truncate 30 remote_resolved in
  process_path ←
    (if negb (String.eqb (pid conn) "N/A")
     then get_process_path w (pid conn) else mret "N/A");
  mret [prog_pid; protocol conn; local_resolved; remote_resolved;
        state conn; format_bytes tx_rate; format_bytes rx_rate;
        process_path].

(** The inner function [get_sort_key] of [sort_connections]. *)
Definition get_sort_key (conn : connection) : M Py.key :=
  self ← get_win;
  if (sort_column self =? 5)%nat then mret (Py.KInt (get_tx_rate conn))
  else if (sort_column self =? 6)%nat then mret (Py.KInt (get_rx_rate conn))
  else
    row_data ← get_row_data conn;
    mret match row_data !! sort_column self with
         | None => Py.KStr ""
         | Some value => Py.KStr (Py.lower value)
         end.

(** The keys of [sorted], computed once per item and in order. *)
Fixpoint sort_keys (connections : list connection) : M (list Py.key) :=
  match connections with
  | [] => mret []
  | conn :: rest =>
      k ← get_sort_key conn;
      ks ← sort_keys rest;
      mret (k :: ks)
  end.

Definition sort_connections (connections : list connection) : M (list connection) :=
  match connections with
  | [] => mret connections
  | _ =>
      keys ← sort_keys connections;
      self ← get_win;
      mret (Py.sorted keys connections (negb (sort_ascending self)))
  end.

(** The loop [for conn in sorted_connections] that fills the grid and
    counts the active rows. *)
Fixpoint render (sorted_connections : list connection) (active_connections : nat)
    : M nat :=
  match sorted_connections with
  | [] => mret active_connections
  | conn :: rest =>
      row_data ← get_row_data conn;
      attach_row row_data;;
      render rest
        (if (0 <? get_rx_rate conn) || (0 <? get_tx_rate conn)
         then S active_connections else active_connections)
  end.

Definition update_connections : M unit :=
  clear_rows;;
  connections ← get_connections w;
  '(connections, current_io) ← sample_io w connections ∅;
  modify_win (set_prev_io current_io);;
  filtered_connections ← filter_localhost connections;
  sorted_connections ← sort_connections filtered_connections;
  active_connections ← render sorted_connections 0%nat;
  update_status (length connections) active_connections;;
  timeout_add update_connections_cb.

Definition on_header_clicked (column_index : nat) : M unit :=
  self ← get_win;
  (if (sort_column self =? column_index)%nat
   then modify_win (set_sort (sort_column self) (negb (sort_ascending self)))
   else modify_win (set_sort column_index true));;
  update_connections.

Definition update_resolution_cache (addr resolved : string) : M unit :=
  modify_win (λ self, set_cache (<[addr := resolved]> (resolution_cache self)) self);;
  self ← get_win;
  (if bool_decide (addr ∈ resolution_pending self)
   then modify_win
          (set_pending (resolution_pending self ∖ {[hd "" (Py.split ":" addr)]}))
   else mret tt);;
  update_connections.

(** [on_resolve_toggled], given what [button.get_active()] returns. *)
Definition on_resolve_toggled (active : bool) : M unit :=
  modify_win (set_resolve_hosts active);;
  (if negb active
   then modify_win (set_cache ∅);; modify_win (set_pending ∅)
   else mret tt);;
  idle_add delayed_refresh_cb.

Definition delayed_refresh : M bool :=
  modify_win (set_prev_io ∅);;
  update_connections;;
  mret false.

(** The main loop calling back. *)
Definition run (cb : callback) : M unit :=
  match cb with
  | update_resolution_cache_cb addr resolved => update_resolution_cache addr resolved
  | delayed_refresh_cb => delayed_refresh;; mret tt
  | update_connections_cb => update_connections
  end.
End Presentation.

Definition get_row_color (rx_rate tx_rate : Z) : option string :=
  if (0 <? rx_rate) && (0 <? tx_rate) then Some "#00AA00"
  else if 0 <? rx_rate then Some "#0066CC"
  else if 0 <? tx_rate then Some "#CC0000"
  else None.

Section MainLoop.
Variable format_bytes : Z → string.
Variable w : world.

(** [NetworkMonitorApp.on_refresh], on [self.window]: nothing happens
    while there is no window. *)
Definition on_refresh (window : option sys) : option sys :=
  match window with
  | Some s =>
      Some ((modify_win (set_prev_io ∅);;
             update_connections format_bytes w) s).2
  | None => None
  end.

(** The main loop when the oldest timer comes due: the callbacks given
    to [GLib.timeout_add] return [None], so GLib drops the timer once it
    has called it. *)
Definition timeout_fires : M unit :=
  λ s, match timeouts s with
       | [] => (tt, s)
       | cb :: rest =>
           run format_bytes w cb
             {| win := win s; ss_calls := ss_calls s; opened := opened s;
                started := started s; idle := idle s; timeouts := rest;
                row_widgets := row_widgets s; status := status s |}
       end.

(** The main loop when it is idle and a callback waits: [delayed_refresh]
    returns [False] and the completion handler returns [None], so GLib
    drops the callback once it has called it. *)
Definition idle_runs : M unit :=
  λ s, match idle s with
       | [] => (tt, s)
       | cb :: rest =>
           run format_bytes w cb
             {| win := win s; ss_calls := ss_calls s; opened := opened s;
                started := started s; idle := rest; timeouts := timeouts s;
                row_widgets := row_widgets s; status := status s |}
       end.
End MainLoop.

(** *** The lookup threads *)

(** What [async_resolve_host(ip_part, full_addr)] computes inside its
    [try], given the host name returned by [socket.gethostbyaddr],
    [None] when the lookup raises. *)
Definition resolved_name (hostname : option string) (full_addr : string) : string :=
  default full_addr
    (h ← hostname; port ← Py.rsplit1 ":" full_addr !! 1%nat; Some (h +:+ ":" +:+ port)).

(** Where a thread running [async_resolve_host] stands: before
    [with self.resolution_semaphore], inside [socket.gethostbyaddr],
    past the [try] with [resolved] in hand, or out of the [with]. *)
Inductive phase :=
| Waiting
| Looking
| Posting (resolved : string)
| Finished.

Record worker := { ip_part : string; full_addr : string; at_phase : phase }.

(** The counter of [threading.Semaphore(5)], the threads, and the
    callbacks they gave to [GLib.idle_add]. *)
Record pool := {
  permits : nat;
  workers : list worker;
  posted : list callback;
}.

Definition init_pool : pool := {| permits := 5; workers := []; posted := [] |}.

Definition holds_permit (wk : worker) : bool :=
  match at_phase wk with
  | Looking | Posting _ => true
  | _ => false
  end.

Definition is_looking (wk : worker) : bool :=
  match at_phase wk with
  | Looking => true
  | _ => false
  end.

(** The lookups executing the blocking call. *)
Definition in_flight (p : pool) : nat := length (filter (λ wk, is_looking wk = true) (workers p)).

(** The threads between acquire and release. *)
Definition holders (p : pool) : nat := length (filter (λ wk, holds_permit wk = true) (workers p)).

Definition move (i : nat) (wk : worker) (ph : phase) (ws : list worker) : list worker :=
  <[i := {| ip_part := ip_part wk; full_addr := full_addr wk; at_phase := ph |}]> ws.

(** One step of one thread, or the start of a new one. *)
Inductive step : pool → pool → Prop :=
| step_start p ip addr :
    step p {| permits := permits p;
              workers := workers p ++ [{| ip_part := ip; full_addr := addr; at_phase := Waiting |}];
              posted := posted p |}
| step_acquire p i wk n :
    workers p !! i = Some wk → at_phase wk = Waiting → permits p = S n →
    step p {| permits := n; workers := move i wk Looking (workers p);
              posted := posted p |}
| step_lookup p i wk hostname :
    workers p !! i = Some wk → at_phase wk = Looking →
    step p {| permits := permits p;
              workers := move i wk (Posting (resolved_name hostname (full_addr wk))) (workers p);
              posted := posted p |}
| step_release p i wk resolved :
    workers p !! i = Some wk → at_phase wk = Posting resolved →
    step p {| permits := S (permits p);
              workers := move i wk Finished (workers p);
              posted := posted p ++ [update_resolution_cache_cb (full_addr wk) resolved] |}.

Definition reachable (p : pool) : Prop := rtc step init_pool p.

End Gtk.

(** ** [get_connections]: the output of [ss] read into connections

    Both programs carry the same function.  The two commands and the
    files under [/proc] are the outside world: the text [ss] printed
    ([None] when [subprocess.run] raises), the text the n-th run of
    [ps] printed, and the files as they are at the n-th [open]. *)

Module Ss.
Import Net.

(** The double quote, which the second pattern searches for. *)
Definition dquote : ascii := "034".

(** What is left of [s] behind the literal [p], when [s] starts with it. *)
Fixpoint after (p s : string) : option string :=
  match p, s with
  | EmptyString, _ => Some s
  | String a p', String b s' => if Ascii.eqb a b then after p' s' else None
  | String _ _, EmptyString => None
  end.

(** The decimal digits [s] starts with: what a greedy [\d+] takes there. *)
Fixpoint digit_run (s : string) : string :=
  match s with
  | EmptyString => EmptyString
  | String c s' =>
      if bool_decide (is_Some (Py.digit c)) then String c (digit_run s')
      else EmptyString
  end.

(** [re.search(r'pid=(\d+)', part)]: group 1 at the leftmost place where
    [pid=] stands before a digit; [None] when there is no such place. *)
Fixpoint search_pid (part : string) : option string :=
  match part with
  | EmptyString => None
  | String _ rest =>
      match digit_run <$> after "pid=" part with
      | Some (String d ds) => Some (String d ds)
      | _ => search_pid rest
      end
  end.

(** The text up to the next double quote, when there is one. *)
Fixpoint quoted_run (s : string) : option string :=
  match s with
  | EmptyString => None
  | String c s' =>
      if Ascii.eqb c dquote then Some EmptyString
      else String c <$> quoted_run s'
  end.

(** [re.search] of the second pattern, a double quote, [([^q]+)] with
    [q] the double quote, and a double quote: group 1 at the leftmost
    double quote that is followed by at least one other character and
    then a double quote. *)
Fixpoint search_quoted (part : string) : option string :=
  match part with
  | EmptyString => None
  | String c rest =>
      if Ascii.eqb c dquote then
        match quoted_run rest with
        | Some (String a name) => Some (String a name)
        | _ => search_quoted rest
        end
      else search_quoted rest
  end.

(** [sub in s] *)
Fixpoint has (sub s : string) : bool :=
  Py.startswith s sub
  || match s with
     | EmptyString => false
     | String _ s' => has sub s'
     end.

(** The loop [for part in parts] with its [break]: the first part that
    starts with [users:((] gives the program and the pid, each staying
    ['N/A'] when its pattern is not found. *)
Definition owner (parts : list string) : string * string :=
  match List.find (λ part, Py.startswith part "users:((") parts with
  | Some part =>
      (default "N/A" (search_quoted part), default "N/A" (search_pid part))
  | None => ("N/A", "N/A")
  end.

(** The loop over the lines of [/proc/<possible_pid>/io]: [Some true]
    at the first [read_bytes:] line with a positive number, [Some false]
    when the lines run out, [None] when [io_line.split()[1]] or [int]
    raises. *)
Fixpoint has_read_bytes (io_lines : list string) : option bool :=
  match io_lines with
  | [] => Some false
  | io_line :: rest =>
      if Py.startswith io_line "read_bytes:" then
        read_bytes ← Py.split_ws io_line !! 1%nat ≫= Py.int;
        if 0 <? read_bytes then Some true else has_read_bytes rest
      else has_read_bytes rest
  end.

Record host := {
  ps : nat → option string;
  files : nat → ProcIO.files;
}.

(** How often [ps] was run and how many files were opened. *)
Record calls := { ps_runs : nat; opened : nat }.

(** The inner [try]: the file of [possible_pid] opened, read and
    searched; [None] when any of it raises. *)
Definition read_activity (h : host) (n : nat) (possible_pid : string)
    : option bool :=
  io_data ← files h n (ProcIO.io_path possible_pid);
  has_read_bytes (Py.split "010" io_data).

(** The loop over the lines of [ps aux], with the variables [pid] and
    [program] it assigns.  An exception inside the inner [try] goes on
    with the next line; otherwise the loop is left once [pid] differs
    from ['N/A']. *)
Fixpoint guess_ssh (h : host) (ps_lines : list string) (pid program : string)
    (n : nat) : string * string * nat :=
  match ps_lines with
  | [] => (pid, program, n)
  | line :: rest =>
      if has "ssh" line && negb (Py.startswith line "root") then
        match Py.split_ws line with
        | _ :: possible_pid :: _ =>
            match read_activity h n possible_pid with
            | None => guess_ssh h rest pid program (S n)
            | Some found =>
                let pid' := if found then possible_pid else pid in
                let program' := if found then "ssh" else program in
                if bool_decide (pid' ≠ "N/A") then (pid', program', S n)
                else guess_ssh h rest pid' program' (S n)
            end
        | _ => guess_ssh h rest pid program n
        end
      else guess_ssh h rest pid program n
  end.

(** The body of [for line in lines]: [None] for a line that is skipped. *)
Definition parse_line (h : host) (line : string) (st : calls)
    : option connection * calls :=
  if String.eqb (Py.strip line) "" then (None, st)
  else
    let parts := Py.split_ws line in
    match parts with
    | protocol :: state :: _ :: _ :: local_addr :: remote_addr :: _ =>
        let '(program, pid) := owner parts in
        let '(pid, program, st) :=
          if String.eqb pid "N/A" && Py.endswith remote_addr ":22" then
            match ps h (ps_runs st) with
            | Some stdout =>
                let '(pid, program, n) :=
                  guess_ssh h (Py.split "010" stdout) pid program (opened st) in
                (pid, program, {| ps_runs := S (ps_runs st); opened := n |})
            | None =>
                (pid, program, {| ps_runs := S (ps_runs st); opened := opened st |})
            end
          else (pid, program, st) in
        (Some {| Net.protocol := protocol; Net.state := state;
                 Net.local := local_addr; Net.remote := remote_addr;
                 Net.program := program; Net.pid := pid;
                 Net.rx_rate := None; Net.tx_rate := None |}, st)
    | _ => (None, st)
    end.

Fixpoint parse_lines (h : host) (lines : list string) (st : calls)
    : list connection * calls :=
  match lines with
  | [] => ([], st)
  | line :: rest =>
      let '(conn, st) := parse_line h line st in
      let '(connections, st) := parse_lines h rest st in
      (option_list conn ++ connections, st)
  end.

(** [get_connections()]: the lines of the output but the first, which
    holds the headers; [[]] when [ss] cannot be run. *)
Definition get_connections (stdout : option string) (h : host) (st : calls)
    : list connection * calls :=
  match stdout with
  | Some text => parse_lines h (tail (Py.split "010" (Py.strip text))) st
  | None => ([], st)
  end.

End Ss.

(** ** The texts of a rate and of a row

    [bytes_val] enters [format_bytes] as an [int] and is divided by
    [1024.0] up to four times.  For an [int] of less than 2^53 in size
    the conversion to a float and every division are exact, so the
    float of the loop is held as the fraction [num / den], with [den] a
    power of 1024. *)

Module PyFloat.

(** The number of tenths nearest to [num / den], the even one of two
    that are as near; [0 ≤ num] and [0 < den]. *)
Definition tenths (num den : Z) : Z :=
  let q := (10 * num) / den in
  let r := (10 * num) mod den in
  if 2 * r <? den then q
  else if den <? 2 * r then q + 1
  else if Z.even q then q else q + 1.

(** [f"{x:.1f}"] for [x = num / den]: the sign, then the tenths of
    [|x|] with the point before the last digit. *)
Definition format_1f (num den : Z) : string :=
  let t := tenths (Z.abs num) den in
  (if num <? 0 then "-" else "")
  +:+ pretty (t / 10) +:+ "." +:+ pretty (t mod 10).

End PyFloat.

Module CliOut.
Import Net.

(** [format_bytes]: the loop [for unit in ['B', 'KB', 'MB', 'GB']]. *)
Fixpoint format_loop (units : list string) (num den : Z) : string :=
  match units with
  | unit :: rest =>
      if num <? 1024 * den then PyFloat.format_1f num den +:+ unit
      else format_loop rest num (1024 * den)
  | [] => PyFloat.format_1f num den +:+ "TB"
  end.

Definition format_bytes (bytes_val : Z) : string :=
  format_loop ["B"; "KB"; "MB"; "GB"] bytes_val 1.

Fixpoint blanks (n : nat) : string :=
  match n with
  | O => EmptyString
  | S n' => String " " (blanks n')
  end.

(** [f"{s:<width}"] for a string [s] *)
Definition ljust (width : nat) (s : string) : string :=
  s +:+ blanks (width - String.length s).

(** [s[:keep] if len(s) > limit else s] *)
Definition shorten (keep limit : nat) (s : string) : string :=
  if (limit <? String.length s)%nat then String.substring 0 keep s else s.

(** The cells that [print_table_row] puts between the borders of a row,
    without the color codes around them. *)
Definition print_table_row (conn : connection) (rx_rate tx_rate : Z)
    : list string :=
  let prog_pid :=
    if negb (String.eqb (pid conn) "N/A")
    then program conn +:+ "(" +:+ pid conn +:+ ")" else program conn in
  let local_resolved := Cli.resolve_address (local conn) in
  let remote_resolved := Cli.resolve_address (remote conn) in
  let prog_pid := shorten 19 20 prog_pid in
  let local_resolved := shorten 19 20 local_resolved in
  let remote_resolved := shorten 24 25 remote_resolved in
  let rx_text := format_bytes rx_rate +:+ "/s" in
  let tx_text := format_bytes tx_rate +:+ "/s" in
  [ljust 8 (protocol conn); ljust 12 (state conn); ljust 20 local_resolved;
   ljust 25 remote_resolved; ljust 20 prog_pid; ljust 11 rx_text;
   ljust 11 tx_text].

(** The cells of the header row of [print_table_header]. *)
Definition print_table_header : list string :=
  [ljust 8 "Protocol"; ljust 12 "State"; ljust 20 "Local Address";
   ljust 25 "Remote Address"; ljust 20 "Program(PID)"; ljust 12 "RX Rate";
   ljust 12 "TX Rate"].

End CliOut.

Module GtkOut.

(** [format_bytes] of the window: the same loop, the unit followed by
    [/s]. *)
Fixpoint format_loop (units : list string) (num den : Z) : string :=
  match units with
  | unit :: rest =>
      if num <? 1024 * den then PyFloat.format_1f num den +:+ unit +:+ "/s"
      else format_loop rest num (1024 * den)
  | [] => PyFloat.format_1f num den +:+ "TB/s"
  end.

Definition format_bytes (bytes_val : Z) : string :=
  format_loop ["B"; "KB"; "MB"; "GB"] bytes_val 1.

End GtkOut.

(** ** Notions used to state the properties *)

(** A line of [/proc/<pid>/io] that [get_process_io] reads a number from. *)
Definition counter_line (line : string) : bool :=
  Py.startswith line "rchar:" || Py.startswith line "wchar:".

(** The test [rx_rate > 0 or tx_rate > 0] of both programs. *)
Definition positive_rate (rx_rate tx_rate : Z) : bool :=
  (0 <? rx_rate) || (0 <? tx_rate).

Definition cli_active (r : Cli.row) : Prop :=
  positive_rate (Cli.row_rx r) (Cli.row_tx r) = true.

Definition cli_shown (conn : Net.connection) : Prop :=
  Cli.resolve_address (Net.remote conn) ≠ "LOCALHOST".

(** What [Gtk.resolve_address] returns, as a function of the window: it
    depends on the toggle and on the cache only. *)
Definition resolved_text (self : Gtk.window) (addr : string) : string :=
  if String.eqb addr "0.0.0.0:*" || String.eqb addr "*:*"
     || String.eqb addr "[::]:*" then "ANY"
  else if Py.startswith addr "127.0.0.1:" || Py.startswith addr "[::1]:"
  then "LOCALHOST"
  else if Py.startswith addr "224.0.0.251:" then "MDNS"
  else if negb (Gtk.resolve_hosts self) then addr
  else default addr (Gtk.resolution_cache self !! addr).

(** The addresses that [resolve_address] answers without looking at the
    window: any-address, loopback and multicast DNS. *)
Definition special_address (addr : string) : bool :=
  String.eqb addr "0.0.0.0:*" || String.eqb addr "*:*"
  || String.eqb addr "[::]:*"
  || Py.startswith addr "127.0.0.1:" || Py.startswith addr "[::1]:"
  || Py.startswith addr "224.0.0.251:".

Definition gtk_shown (self : Gtk.window) (conn : Net.connection) : Prop :=
  resolved_text self (Net.remote conn) ≠ "LOCALHOST".

Definition gtk_active (conn : Net.connection) : Prop :=
  positive_rate (Gtk.get_rx_rate conn) (Gtk.get_tx_rate conn) = true.

(** The attributes of the window, besides the counters map, that
    resolving, sorting and rendering read and leave alone. *)
Definition settings (s : Gtk.sys) :=
  (Gtk.sort_column (Gtk.win s), Gtk.sort_ascending (Gtk.win s),
   Gtk.resolve_hosts (Gtk.win s), Gtk.resolution_cache (Gtk.win s)).

(** [s'] comes after [s] in a stretch where only lookups were started:
    same counters map, same settings, no pending address dropped. *)
Definition extends (s s' : Gtk.sys) : Prop :=
  Gtk.prev_io (Gtk.win s') = Gtk.prev_io (Gtk.win s)
  ∧ settings s' = settings s
  ∧ Gtk.resolution_pending (Gtk.win s) ⊆ Gtk.resolution_pending (Gtk.win s').

(** A stretch where the window only opened files and started lookups:
    nothing scheduled, nothing sampled from [ss], status untouched. *)
Definition calm (s s' : Gtk.sys) : Prop :=
  extends s s'
  ∧ Gtk.ss_calls s' = Gtk.ss_calls s
  ∧ Gtk.status s' = Gtk.status s
  ∧ Gtk.idle s' = Gtk.idle s
  ∧ Gtk.timeouts s' = Gtk.timeouts s.

(** A calm stretch that also left the grid alone. *)
Definition quiet (s s' : Gtk.sys) : Prop :=
  calm s s' ∧ Gtk.row_widgets s' = Gtk.row_widgets s.

(** How the sampling loop derives the connection [c'] it hands on from
    the connection [c] it was given, reading [/proc] at some moment
    between the clock values [lo] and [hi]. *)
Definition attached (w : Net.world) (prev : gmap string Net.io_sample)
    (lo hi : nat) (c c' : Net.connection) : Prop :=
  if String.eqb (Net.pid c) "N/A" then c' = Gtk.with_rates 0 0 c
  else
    ∃ n, (lo ≤ n < hi)%nat ∧
      let io := ProcIO.get_process_io (Net.proc w n) (Net.pid c) in
      c' = match prev !! Net.pid c with
           | Some p => Gtk.with_rates (Z.max 0 (io.1 - Net.rx p))
                         (Z.max 0 (io.2 - Net.tx p)) c
           | None => Gtk.with_rates 0 0 c
           end.

(** The pids that the sampling loop enters into [current_io]. *)
Definition sampled_pids (connections : list Net.connection) : gset string :=
  list_to_set (filter (λ p, p ≠ "N/A") (Net.pid <$> connections)).

(** The state in which [update_connections] starts its sampling loop. *)
Definition cycle_start (w : Net.world) (s : Gtk.sys) : Gtk.sys :=
  (Gtk.get_connections w (Gtk.clear_rows s).2).2.

(** The connections with their rates attached, and [current_io], as the
    sampling loop of [update_connections] leaves them. *)
Definition sampled (w : Net.world) (s : Gtk.sys)
    : list Net.connection * gmap string Net.io_sample :=
  (Gtk.sample_io w (Net.ss w (Gtk.ss_calls s)) ∅ (cycle_start w s)).1.

(** Whether [resolve_address] reaches [thread.start()]. *)
Definition starts_lookup (self : Gtk.window) (addr : string) : bool :=
  negb (special_address addr) && Gtk.resolve_hosts self
  && bool_decide (Gtk.resolution_cache self !! addr = None)
  && Py.contains ":" addr
  && negb (bool_decide (Gtk.ip_part_of addr ∈ Gtk.resolution_pending self)).

(** The state once [resolve_address] has started a lookup. *)
Definition with_lookup (addr : string) (s : Gtk.sys) : Gtk.sys :=
  {| Gtk.win :=
       Gtk.set_pending
         ({[Gtk.ip_part_of addr]} ∪ Gtk.resolution_pending (Gtk.win s)) (Gtk.win s);
     Gtk.ss_calls := Gtk.ss_calls s; Gtk.opened := Gtk.opened s;
     Gtk.started := Gtk.started s ++ [(Gtk.ip_part_of addr, addr)];
     Gtk.idle := Gtk.idle s; Gtk.timeouts := Gtk.timeouts s;
     Gtk.row_widgets := Gtk.row_widgets s; Gtk.status := Gtk.status s |}.

(** The number that a connection holds under ['tx_rate'] (column 5) or
    under ['rx_rate'] (column 6), and 0 when the key is not there: read
    off the fields of the connection, not through the window. *)
Definition rate_of (column : nat) (conn : Net.connection) : Z :=
  default 0 (if (column =? 5)%nat then Net.tx_rate conn else Net.rx_rate conn).

(** What the path cell of a row shows for the process [pid], given what
    its [cmdline] file holds; [None] is a file that cannot be read. *)
Definition cmdline_text (pid : string) (file : option string) : string :=
  match file with
  | None => "N/A"
  | Some text =>
      if String.eqb (Py.strip text) "" then "[" +:+ pid +:+ "]"
      else Py.replace "000" " " (Py.strip text)
  end.

(** The threads that are out of the [with]. *)
Definition is_finished (wk : Gtk.worker) : bool :=
  match Gtk.at_phase wk with
  | Gtk.Finished => true
  | _ => false
  end.


(** The pids that a pass of the terminal program samples: those of the
    connections it shows. *)
Definition cli_sampled_pids (connections : list Net.connection) : gset string :=
  list_to_set (filter (λ p, p ≠ "N/A") (Net.pid <$> filter cli_shown connections)).

(** A text without whitespace, and a text of decimal digits. *)
Fixpoint spaceless (s : string) : bool :=
  match s with
  | EmptyString => true
  | String c s' => negb (Py.isspace c) && spaceless s'
  end.

Fixpoint all_digits (s : string) : bool :=
  match s with
  | EmptyString => true
  | String c s' => bool_decide (is_Some (Py.digit c)) && all_digits s'
  end.

(** The text of [/proc/<pid>/io] as the kernel prints it: the two
    counters in decimal, then the other lines. *)
Definition kernel_io (rchar wchar : N) (rest : string) : string :=
  "rchar: " +:+ pretty rchar +:+ String "010"
    ("wchar: " +:+ pretty wchar +:+ String "010" rest).

(** A field as [split()] returns them: not empty and without whitespace. *)
Definition token (s : string) : bool :=
  spaceless s && bool_decide (s ≠ "").

(** The process field of a line of [ss]: the name in double quotes, the
    pid in decimal, then whatever follows. *)
Definition users_field (name : string) (pid : N) (more : string) : string :=
  "users:((" +:+ String Ss.dquote
    (name +:+ String Ss.dquote (",pid=" +:+ pretty pid +:+ more)).

(** The six texts of a connection are fields; its remote port is 22;
    what [get_connections] can leave in its ['pid']. *)
Definition all_tokens (c : Net.connection) : bool :=
  token (Net.protocol c) && token (Net.state c) && token (Net.local c)
  && token (Net.remote c) && token (Net.program c) && token (Net.pid c).

Definition port_22 (c : Net.connection) : bool :=
  Py.endswith (Net.remote c) ":22".

Definition parsed (c : Net.connection) : Prop :=
  all_tokens c = true
  ∧ Net.rx_rate c = None ∧ Net.tx_rate c = None
  ∧ (Net.pid c = "N/A"
     ∨ all_digits (Net.pid c) = true
     ∨ Net.program c = "ssh" ∧ port_22 c = true).

(** Fields written on one line, a blank between two of them. *)
Definition spaced (fields : list string) : string := String.concat " " fields.

(** [resolve_address] called on each address of a list, in order. *)
Fixpoint resolve_each (addrs : list string) : Gtk.M (list string) :=
  match addrs with
  | [] => mret []
  | addr :: rest =>
      r ← Gtk.resolve_address addr;
      rs ← resolve_each rest;
      mret (r :: rs)
  end.

(** ** Concrete worlds used by the examples *)
Module Sample.
Import Net.

Definition at_path (path text : string) : ProcIO.files :=
  λ p, if String.eqb p path then Some text else None.

Definition proc_gone : ProcIO.files := λ _, None.

Definition proc_other : ProcIO.files :=
  at_path "/proc/100/io" "syscr: 12
syscw: 7".

Definition proc_malformed : ProcIO.files :=
  at_path "/proc/100/io" "rchar: 4096
wchar: n/a".

Definition proc_kernel : ProcIO.files :=
  at_path "/proc/100/io" "rchar: 4096
wchar: 512
syscr: 12
syscw: 7
read_bytes: 0
write_bytes: 0
cancelled_write_bytes: 0
".

Definition proc_negative : ProcIO.files :=
  at_path "/proc/100/io" "rchar: -5
wchar: 3".

Definition conn (remote_addr pid_text : string) : connection :=
  {| protocol := "tcp"; state := "ESTAB"; local := "10.0.0.2:50000";
     remote := remote_addr; program := "curl"; pid := pid_text;
     rx_rate := None; tx_rate := None |}.

Definition io_text (rchar wchar : string) : string :=
  "rchar: " +:+ rchar +:+ "
wchar: " +:+ wchar +:+ "
".

(** Process 100 holds one connection; between the first and the second
    sample its counters restart (the pid was reused). *)
Definition world_reset : world :=
  {| ss := λ _, [conn "93.184.216.34:443" "100"];
     proc := λ n, at_path "/proc/100/io"
                    (if (n =? 0)%nat then io_text "1000" "1000"
                     else io_text "5" "7") |}.

(** Process 100 is there at the first sample and gone at the second,
    when only process 200 holds a connection. *)
Definition world_vanish : world :=
  {| ss := λ n, if (n =? 0)%nat then [conn "93.184.216.34:443" "100"]
                else [conn "93.184.216.34:443" "200"];
     proc := λ _ path,
       if String.eqb path "/proc/100/io" then Some (io_text "1000" "1000")
       else if String.eqb path "/proc/200/io" then Some (io_text "30" "40")
       else None |}.

(** Process 100 read nothing before the first sample and 1024 bytes
    before the second. *)
Definition world_download : world :=
  {| ss := λ _, [conn "93.184.216.34:443" "100"];
     proc := λ n, at_path "/proc/100/io"
                    (if (n =? 0)%nat then io_text "0" "0"
                     else io_text "1024" "0") |}.

(** The read counter of process 100 wraps between the two samples. *)
Definition world_wrap : world :=
  {| ss := λ _, [conn "93.184.216.34:443" "100"];
     proc := λ n, at_path "/proc/100/io"
                    (if (n =? 0)%nat then io_text "4294967286" "0"
                     else io_text "5" "0") |}.

(** A busy process talking to the loopback address only. *)
Definition world_loopback : world :=
  {| ss := λ _, [conn "127.0.0.1:5432" "100"];
     proc := λ n, at_path "/proc/100/io"
                    (if (n =? 0)%nat then io_text "0" "0"
                     else io_text "4096" "512") |}.

(** Three connections of three processes with the rates 1024, 900 and
    1024 on both sides, the window sorting on the TX column, and a
    formatting in which the larger rate is the smaller string. *)
Definition rated (pid_text : string) (rate : Z) : connection :=
  Gtk.with_rates rate rate (conn "93.184.216.34:443" pid_text).

Definition three_rated : list connection :=
  [rated "1" 1024; rated "2" 900; rated "3" 1024].

(** Three connections of three processes whose two rates differ: TX
    1024, 900 and 1024, RX 10, 30 and 10. *)
Definition mixed_rated : list connection :=
  [Gtk.with_rates 10 1024 (conn "93.184.216.34:443" "1");
   Gtk.with_rates 30 900 (conn "93.184.216.34:443" "2");
   Gtk.with_rates 10 1024 (conn "93.184.216.34:443" "3")].

Definition sorting_on (column : nat) (ascending : bool) : Gtk.sys :=
  {| Gtk.win := Gtk.set_sort column ascending Gtk.init_window;
     Gtk.ss_calls := 0; Gtk.opened := 0; Gtk.started := []; Gtk.idle := [];
     Gtk.timeouts := []; Gtk.row_widgets := []; Gtk.status := Gtk.Monitoring |}.

Definition short_format (rate : Z) : string :=
  if rate <? 1024 then "900.0B/s" else "1.0KB/s".

(** Six lookups started at once: five got a permit and sit in the
    blocking call, the sixth waits at the semaphore. *)
Definition lookup (ip : string) (ph : Gtk.phase) : Gtk.worker :=
  {| Gtk.ip_part := ip; Gtk.full_addr := ip +:+ ":443"; Gtk.at_phase := ph |}.

Definition burst : Gtk.pool :=
  {| Gtk.permits := 0;
     Gtk.workers :=
       [lookup "10.0.0.1" Gtk.Looking; lookup "10.0.0.2" Gtk.Looking;
        lookup "10.0.0.3" Gtk.Looking; lookup "10.0.0.4" Gtk.Looking;
        lookup "10.0.0.5" Gtk.Looking; lookup "10.0.0.6" Gtk.Waiting];
     Gtk.posted := [] |}.

(** A fresh window on which resolution was switched off. *)
Definition disabled : Gtk.sys := (Gtk.on_resolve_toggled false Gtk.init).2.

(** Process 100 holds two connections; its counters read 1000, then
    1500 a moment later in the same pass. *)
Definition world_two_sockets : world :=
  {| ss := λ _, [conn "93.184.216.34:443" "100"; conn "93.184.216.34:80" "100"];
     proc := λ n, at_path "/proc/100/io"
                    (if (n =? 0)%nat then io_text "1000" "1000"
                     else io_text "1500" "1200") |}.

Definition no_format : Z → string := λ _, "".

End Sample.

(** * Properties *)

(** ** Strings *)

Lemma contains_rev_app c s t :
  Py.contains c (String.rev_app s t) = Py.contains c s || Py.contains c t.
Proof.
  revert t. induction s as [|a s IH]; intros t; simpl; [done|].
  rewrite IH. simpl. destruct (Ascii.eqb a c), (Py.contains c s); done.
Qed.

Lemma contains_rev c s : Py.contains c (String.rev s) = Py.contains c s.
Proof.
  unfold String.rev. rewrite contains_rev_app. simpl.
  by rewrite orb_false_r.
Qed.

Lemma contains_lstrip c s :
  Py.contains c s = false → Py.contains c (Py.lstrip s) = false.
Proof.
  induction s as [|a s IH]; simpl; [done|].
  intros [? ?]%orb_false_elim. destruct (Py.isspace a); simpl; [auto|].
  apply orb_false_intro; done.
Qed.

Lemma contains_strip c s :
  Py.contains c s = false → Py.contains c (Py.strip s) = false.
Proof.
  intros H. unfold Py.strip, Py.rstrip.
  rewrite contains_rev. apply contains_lstrip.
  rewrite contains_rev. by apply contains_lstrip.
Qed.

Lemma contains_split c sep s :
  Py.contains c s = false →
  Forall (λ l, Py.contains c l = false) (Py.split sep s).
Proof.
  induction s as [|a s IH]; simpl.
  - intros _. by constructor.
  - intros [Ha Hs]%orb_false_elim. specialize (IH Hs).
    destruct (Ascii.eqb a sep).
    + by constructor.
    + destruct (Py.split sep s) as [|l ls].
      * constructor; [simpl; by rewrite Ha|done].
      * inversion IH; subst. constructor; [simpl; by rewrite Ha|done].
Qed.

Lemma contains_split_ws c s :
  Py.contains c s = false →
  Forall (λ l, Py.contains c l = false) (Py.split_ws s).
Proof.
  induction s as [|a s IH]; [by constructor|].
  intros H. pose proof H as [Ha Hs]%orb_false_elim. specialize (IH Hs).
  cbn [Py.split_ws]. destruct (Py.isspace a); [done|].
  assert (Py.contains c (String a EmptyString) = false) as Ha1
    by (simpl; by rewrite Ha).
  destruct s as [|b s']; [by repeat constructor|].
  destruct (Py.isspace b); [by constructor|].
  destruct (Py.split_ws (String b s')) as [|l ls]; [by repeat constructor|].
  inversion IH; subst. constructor; [simpl; by rewrite Ha|done].
Qed.

Lemma digit_nonneg c d : Py.digit c = Some d → 0 ≤ d.
Proof. unfold Py.digit. intros (n & _ & ->)%fmap_Some. lia. Qed.

Lemma digits_nonneg s : ∀ acc b z,
  0 ≤ acc → Py.digits acc b s = Some z → 0 ≤ z.
Proof.
  induction s as [|c s IH]; intros acc b z Hacc; simpl.
  - destruct b; intros; simplify_eq; done.
  - destruct (Ascii.eqb c "_").
    + destruct b; [eauto|done].
    + destruct (Py.digit c) as [d|] eqn:Hd; [|done].
      apply digit_nonneg in Hd. apply IH. lia.
Qed.

Lemma int_nonneg s z :
  Py.contains "-" s = false → Py.int s = Some z → 0 ≤ z.
Proof.
  intros H%contains_strip. unfold Py.int.
  destruct (Py.strip s) as [|c t]; [done|].
  simpl in H. apply orb_false_elim in H as [Hc _]. rewrite Hc.
  destruct (Ascii.eqb c "+"); apply digits_nonneg; lia.
Qed.

(** ** The I/O counters *)

Lemma scan_no_counter_line lines rx tx :
  Forall (λ line, counter_line line = false) lines →
  ProcIO.scan lines rx tx = Some (rx, tx).
Proof.
  induction 1 as [|line lines H _ IH]; simpl; [done|].
  apply orb_false_elim in H as [-> ->]. done.
Qed.

Lemma scan_bad_field lines : ∀ rx tx,
  Exists (λ line, counter_line line = true
                  ∧ Py.split_ws line !! 1%nat ≫= Py.int = None) lines →
  ProcIO.scan lines rx tx = None.
Proof.
  induction lines as [|line lines IH]; intros rx tx H; [by inversion H|].
  simpl. apply Exists_cons in H as [[Hc Hbad]|H].
  - rewrite Hbad. apply orb_true_iff in Hc as [-> | ->]; [done|].
    by destruct (Py.startswith line "rchar:").
  - destruct (Py.startswith line "rchar:").
    { destruct (Py.split_ws line !! 1%nat ≫= Py.int); simpl; auto. }
    destruct (Py.startswith line "wchar:"); [|auto].
    destruct (Py.split_ws line !! 1%nat ≫= Py.int); simpl; auto.
Qed.

Lemma field_nonneg line v :
  Py.contains "-" line = false →
  Py.split_ws line !! 1%nat ≫= Py.int = Some v → 0 ≤ v.
Proof.
  intros Hl Hv. apply bind_Some in Hv as (tok & Htok & Hv).
  apply (int_nonneg tok); [|done].
  apply contains_split_ws in Hl. rewrite Forall_lookup in Hl. eauto.
Qed.

Lemma scan_nonneg lines : ∀ rx tx r,
  Forall (λ line, Py.contains "-" line = false) lines →
  0 ≤ rx → 0 ≤ tx → ProcIO.scan lines rx tx = Some r → 0 ≤ r.1 ∧ 0 ≤ r.2.
Proof.
  induction lines as [|line lines IH]; intros rx tx r Hl Hrx Htx; simpl.
  - intros; simplify_eq; done.
  - apply Forall_cons in Hl as [Hline Hl].
    destruct (Py.startswith line "rchar:").
    { intros (v & Hv & Hs)%bind_Some.
      apply (IH v tx); eauto using field_nonneg. }
    destruct (Py.startswith line "wchar:"); [|by apply IH].
    intros (v & Hv & Hs)%bind_Some.
    apply (IH rx v); eauto using field_nonneg.
Qed.

(** C9, as amended.  [get_process_io] always returns a pair (it is a
    function: nothing escapes its [try]).  It returns (0, 0) when the
    file cannot be opened or read, when no line starts with [rchar:] or
    [wchar:], and when some such line has no second field or a second
    field that [int] rejects.  Both numbers are at least 0 when the file
    holds no minus sign. *)
Theorem get_process_io_total (fs : ProcIO.files) (pid : string) :
  (fs (ProcIO.io_path pid) = None → ProcIO.get_process_io fs pid = (0, 0)) ∧
  (∀ io_data, fs (ProcIO.io_path pid) = Some io_data →
     (Forall (λ line, counter_line line = false) (Py.split "010" io_data) →
      ProcIO.get_process_io fs pid = (0, 0)) ∧
     (Exists (λ line, counter_line line = true
                      ∧ Py.split_ws line !! 1%nat ≫= Py.int = None)
        (Py.split "010" io_data) →
      ProcIO.get_process_io fs pid = (0, 0)) ∧
     (Py.contains "-" io_data = false →
      0 ≤ (ProcIO.get_process_io fs pid).1
      ∧ 0 ≤ (ProcIO.get_process_io fs pid).2)).
Proof.
  unfold ProcIO.get_process_io. split.
  - intros ->. done.
  - intros io_data ->. simpl. split_and!.
    + intros H. by rewrite scan_no_counter_line.
    + intros H. by rewrite scan_bad_field.
    + intros H.
      destruct (ProcIO.scan (Py.split "010" io_data) 0 0) as [r|] eqn:Hr;
        [|done].
      by apply (scan_nonneg _ 0 0 r (contains_split "-" "010" io_data H)).
Qed.

(** A process whose file is gone, one whose file has no counter line, one
    whose [wchar:] line is malformed, and one with the kernel's text. *)
Lemma get_process_io_total_witness :
  ProcIO.get_process_io Sample.proc_gone "100" = (0, 0)
  ∧ ProcIO.get_process_io Sample.proc_other "100" = (0, 0)
  ∧ ProcIO.get_process_io Sample.proc_malformed "100" = (0, 0)
  ∧ 0 ≤ (ProcIO.get_process_io Sample.proc_kernel "100").1
  ∧ 0 ≤ (ProcIO.get_process_io Sample.proc_kernel "100").2.
Proof.
  split_and!.
  - apply (get_process_io_total Sample.proc_gone "100"). reflexivity.
  - destruct (get_process_io_total Sample.proc_other "100") as [_ H].
    destruct (H _ eq_refl) as (H1 & _ & _). apply H1. repeat constructor.
  - destruct (get_process_io_total Sample.proc_malformed "100") as [_ H].
    destruct (H _ eq_refl) as (_ & H2 & _). apply H2.
    apply Exists_cons_tl, Exists_cons_hd. split; reflexivity.
  - destruct (get_process_io_total Sample.proc_kernel "100") as [_ H].
    destruct (H _ eq_refl) as (_ & _ & H3). apply H3. reflexivity.
  - destruct (get_process_io_total Sample.proc_kernel "100") as [_ H].
    destruct (H _ eq_refl) as (_ & _ & H3). apply H3. reflexivity.
Defined.

Example get_process_io_kernel :
  ProcIO.get_process_io Sample.proc_kernel "100" = (4096, 512).
Proof. reflexivity. Qed.

(** C9, as stated, fails: a counter line with a minus sign is read as a
    negative number and returned. *)
Lemma get_process_io_negative :
  ProcIO.get_process_io Sample.proc_negative "100" = (-5, 3)
  ∧ ¬ (0 ≤ (ProcIO.get_process_io Sample.proc_negative "100").1).
Proof. split; [reflexivity|]. vm_compute. intros H. by apply H. Qed.

(** ** The terminal program *)

Lemma cli_visit_printed w st conn :
  Cli.row_conn <$> Cli.printed (Cli.visit w st conn)
  = (Cli.row_conn <$> Cli.printed st) ++ filter cli_shown [conn].
Proof.
  unfold Cli.visit, cli_shown.
  destruct (String.eqb_spec (Cli.resolve_address (Net.remote conn)) "LOCALHOST")
    as [He|Hne].
  - rewrite filter_cons_False, filter_nil, app_nil_r by (by intros []). done.
  - rewrite filter_cons_True by done.
    destruct (negb _); [destruct (ProcIO.get_process_io _ _);
                        destruct (Cli.prev_io st !! _)|];
      simpl; by rewrite fmap_app.
Qed.

Lemma cli_visit_active w st conn :
  Cli.active_connections st = length (filter cli_active (Cli.printed st)) →
  Cli.active_connections (Cli.visit w st conn)
  = length (filter cli_active (Cli.printed (Cli.visit w st conn))).
Proof.
  intros Hst. unfold Cli.visit.
  destruct (String.eqb _ "LOCALHOST"); [done|].
  set (r := if negb _ then _ else _). destruct r as [[rx_rate tx_rate] st'] eqn:Hr.
  assert (Cli.printed st' = Cli.printed st
          ∧ Cli.active_connections st' = Cli.active_connections st) as [Hp Ha].
  { subst r. destruct (negb _); [|by simplify_eq].
    destruct (ProcIO.get_process_io _ _), (Cli.prev_io st !! _);
      simplify_eq; done. }
  simpl. rewrite Hp, Ha, filter_app, length_app, <- Hst.
  destruct (positive_rate rx_rate tx_rate) eqn:Hpos.
  - rewrite filter_cons_True by done. unfold positive_rate in Hpos.
    rewrite Hpos. simpl. lia.
  - rewrite filter_cons_False by (unfold cli_active; simpl; congruence).
    unfold positive_rate in Hpos. rewrite Hpos. simpl. lia.
Qed.

Lemma cli_loop w connections : ∀ st,
  Cli.active_connections st = length (filter cli_active (Cli.printed st)) →
  let st' := foldl (Cli.visit w) st connections in
  Cli.row_conn <$> Cli.printed st'
  = (Cli.row_conn <$> Cli.printed st) ++ filter cli_shown connections
  ∧ Cli.active_connections st' = length (filter cli_active (Cli.printed st')).
Proof.
  induction connections as [|conn connections IH]; intros st Hst; simpl.
  - by rewrite app_nil_r.
  - destruct (IH (Cli.visit w st conn)) as [Hrows Hactive].
    { by apply cli_visit_active. }
    split; [|done]. rewrite Hrows, cli_visit_printed, <- app_assoc.
    f_equal. by rewrite <- filter_app.
Qed.

(** What one pass of the terminal program shows. *)
Lemma cli_cycle_screen w st :
  let connections := Net.ss w (Cli.ss_calls st) in
  let screen := (Cli.cycle w st).1 in
  Cli.row_conn <$> Cli.rows screen = filter cli_shown connections
  ∧ Cli.summary screen
    = match connections with
      | [] => None
      | _ => Some (length connections,
                   length (filter cli_active (Cli.rows screen)))
      end.
Proof.
  unfold Cli.cycle. simpl.
  destruct (Net.ss w (Cli.ss_calls st)) as [|conn connections] eqn:Hss; [done|].
  set (st0 := Cli.Build_state _ _ _ _ _).
  destruct (cli_loop w (conn :: connections) st0) as [Hrows Hactive]; [done|].
  cbn zeta in Hrows, Hactive. cbn [fst Cli.rows Cli.summary].
  split; [exact Hrows|]. by rewrite Hactive.
Qed.

(** C1 at its failing input.  The terminal program subtracts without a
    clamp: when the counters of process 100 restart between two samples
    (1000 and 1000, then 5 and 7), the second pass prints the row with
    the rates -995 and -993. *)
Theorem cli_rate_negative_after_reset :
  let st1 := (Cli.cycle Sample.world_reset Cli.start).2 in
  let screen2 := (Cli.cycle Sample.world_reset st1).1 in
  Cli.prev_io st1 !! "100" = Some {| Net.rx := 1000; Net.tx := 1000 |}
  ∧ (λ r, (Net.pid (Cli.row_conn r), Cli.row_rx r, Cli.row_tx r)) <$> Cli.rows screen2
    = [("100", -995, -993)].
Proof. split; vm_compute; reflexivity. Qed.

(** C2 at its failing input.  The terminal program writes into the one
    dict it keeps: process 100, sampled in the first pass and absent from
    the connections of the second, is still in [prev_io] after it. *)
Theorem cli_prev_io_keeps_vanished :
  let st1 := (Cli.cycle Sample.world_vanish Cli.start).2 in
  let st2 := (Cli.cycle Sample.world_vanish st1).2 in
  Net.pid <$> Net.ss Sample.world_vanish (Cli.ss_calls st1) = ["200"]
  ∧ Cli.prev_io st2 !! "100" = Some {| Net.rx := 1000; Net.tx := 1000 |}
  ∧ Cli.prev_io st2 !! "200" = Some {| Net.rx := 30; Net.tx := 40 |}.
Proof. split_and!; vm_compute; reflexivity. Qed.

(** ** The window: resolving addresses *)

Ltac run_M :=
  unfold mbind, Gtk.M_bind, mret, Gtk.M_ret, Gtk.get_win in *; simpl in *.

Global Instance extends_preorder : PreOrder extends.
Proof.
  split.
  - intros s. by repeat split.
  - intros s1 s2 s3 (? & ? & ?) (? & ? & ?). repeat split; [congruence..|].
    set_solver.
Qed.

Lemma resolve_address_run addr s :
  Gtk.resolve_address addr s
  = (resolved_text (Gtk.win s) addr,
     if starts_lookup (Gtk.win s) addr then with_lookup addr s else s).
Proof.
  unfold Gtk.resolve_address, resolved_text, starts_lookup, special_address.
  destruct (String.eqb addr "0.0.0.0:*" || String.eqb addr "*:*"
            || String.eqb addr "[::]:*"); [done|].
  destruct (Py.startswith addr "127.0.0.1:" || Py.startswith addr "[::1]:")
    eqn:Hlo.
  { apply orb_true_iff in Hlo as [-> | ->]; simpl; by rewrite ?orb_true_r. }
  apply orb_false_elim in Hlo as [-> ->].
  destruct (Py.startswith addr "224.0.0.251:"); [done|].
  run_M. destruct (Gtk.resolve_hosts (Gtk.win s)); [|done]. simpl.
  destruct (Gtk.resolution_cache (Gtk.win s) !! addr) as [resolved|] eqn:Hc.
  { rewrite bool_decide_eq_false_2 by done. by simpl. }
  simpl. destruct (Py.contains ":" addr); [|done]. simpl.
  by destruct (bool_decide _).
Qed.

Lemma resolve_address_text addr s :
  (Gtk.resolve_address addr s).1 = resolved_text (Gtk.win s) addr.
Proof. by rewrite resolve_address_run. Qed.

(** The any-address forms resolve to "ANY" whatever the toggle. *)
Example resolve_any (s : Gtk.sys) :
  (Gtk.resolve_address "0.0.0.0:*" s).1 = "ANY"
  ∧ (Gtk.resolve_address "0.0.0.0:*" s).2 = s.
Proof. by rewrite resolve_address_run. Qed.

Lemma with_lookup_extends addr s : extends s (with_lookup addr s).
Proof. repeat split. simpl. set_solver. Qed.

Lemma resolve_address_extends addr s :
  extends s (Gtk.resolve_address addr s).2.
Proof.
  rewrite resolve_address_run. simpl.
  destruct (starts_lookup _ _); [apply with_lookup_extends|done].
Qed.

Lemma resolved_text_extends s s' addr :
  extends s s' → resolved_text (Gtk.win s') addr = resolved_text (Gtk.win s) addr.
Proof.
  intros (_ & Hset & _). unfold settings in Hset.
  injection Hset as _ _ Hhosts Hcache.
  unfold resolved_text. by rewrite Hhosts, Hcache.
Qed.

Lemma starts_lookup_fresh self addr :
  starts_lookup self addr = true →
  Gtk.ip_part_of addr ∉ Gtk.resolution_pending self.
Proof.
  unfold starts_lookup. intros [_ H]%andb_true_iff.
  by apply negb_true_iff, bool_decide_eq_false in H.
Qed.

(** While an IP component is pending, resolving more addresses starts no
    lookup for it. *)
Lemma resolve_each_pending addrs : ∀ s ip,
  ip ∈ Gtk.resolution_pending (Gtk.win s) →
  ∃ later, Gtk.started (resolve_each addrs s).2 = Gtk.started s ++ later
           ∧ Forall (λ t, t.1 ≠ ip) later.
Proof.
  induction addrs as [|addr addrs IH]; intros s ip Hip.
  - exists []. by rewrite app_nil_r.
  - cbn [resolve_each]. unfold mbind, Gtk.M_bind.
    rewrite resolve_address_run.
    destruct (starts_lookup (Gtk.win s) addr) eqn:Hstart.
    + destruct (IH (with_lookup addr s) ip) as (later & Hlater & Hne).
      { simpl. set_solver. }
      destruct (resolve_each addrs (with_lookup addr s)) as [rs s'].
      simpl in *. exists ((Gtk.ip_part_of addr, addr) :: later).
      split; [by rewrite Hlater, <- app_assoc|].
      constructor; [|done]. simpl. intros Heq.
      apply starts_lookup_fresh in Hstart. by rewrite Heq in Hstart.
    + destruct (IH s ip Hip) as (later & Hlater & Hne).
      destruct (resolve_each addrs s) as [rs s']. simpl in *. eauto.
Qed.

(** C5, as amended.  For an endpoint that is none of the special forms
    and holds a colon, with resolution enabled, no cache entry and its IP
    component not pending: the first [resolve_address] returns the raw
    endpoint and starts exactly one lookup, for that IP component; a
    second call right after returns the raw endpoint and changes nothing;
    and whatever endpoints are resolved next, no further lookup is
    started for that IP component. *)
Theorem resolve_twice_one_lookup (s : Gtk.sys) (addr : string) (others : list string) :
  special_address addr = false →
  Py.contains ":" addr = true →
  Gtk.resolve_hosts (Gtk.win s) = true →
  Gtk.resolution_cache (Gtk.win s) !! addr = None →
  Gtk.ip_part_of addr ∉ Gtk.resolution_pending (Gtk.win s) →
  let first := Gtk.resolve_address addr s in
  let second := Gtk.resolve_address addr first.2 in
  let rest := resolve_each others second.2 in
  first.1 = addr
  ∧ Gtk.started first.2 = Gtk.started s ++ [(Gtk.ip_part_of addr, addr)]
  ∧ Gtk.ip_part_of addr ∈ Gtk.resolution_pending (Gtk.win first.2)
  ∧ second.1 = addr
  ∧ second.2 = first.2
  ∧ ∃ later, Gtk.started rest.2 = Gtk.started first.2 ++ later
             ∧ Forall (λ t, t.1 ≠ Gtk.ip_part_of addr) later.
Proof.
  intros Hspecial Hcolon Hhosts Hcache Hfresh. cbn zeta.
  assert (starts_lookup (Gtk.win s) addr = true) as Hstart.
  { unfold starts_lookup. rewrite Hspecial, Hhosts, Hcolon.
    rewrite bool_decide_eq_true_2, bool_decide_eq_false_2 by done. done. }
  assert (resolved_text (Gtk.win s) addr = addr) as Htext.
  { unfold special_address in Hspecial.
    repeat (apply orb_false_elim in Hspecial as [Hspecial ?]).
    unfold resolved_text.
    repeat match goal with H : _ = false |- _ => rewrite H; clear H end.
    simpl. by rewrite Hhosts, Hcache. }
  rewrite (resolve_address_run addr s), Hstart. cbn [fst snd].
  assert (starts_lookup (Gtk.win (with_lookup addr s)) addr = false) as Hstop.
  { unfold starts_lookup. simpl.
    rewrite (bool_decide_eq_true_2 (_ ∈ _)) by set_solver.
    by rewrite andb_false_r. }
  rewrite (resolve_address_run addr (with_lookup addr s)), Hstop. cbn [fst snd].
  split_and!; [done|done|simpl; set_solver| |done|].
  - rewrite (resolved_text_extends s) by apply with_lookup_extends. done.
  - apply resolve_each_pending. simpl. set_solver.
Qed.

(** A fresh window resolving "93.184.216.34:443" twice, then two more
    endpoints, one of them on the same IP. *)
Lemma resolve_twice_one_lookup_witness :
  let first := Gtk.resolve_address "93.184.216.34:443" Gtk.init in
  let second := Gtk.resolve_address "93.184.216.34:443" first.2 in
  let rest := resolve_each ["93.184.216.34:80"; "10.0.0.1:22"] second.2 in
  first.1 = "93.184.216.34:443"
  ∧ Gtk.started first.2
    = (Gtk.started Gtk.init
       ++ [(Gtk.ip_part_of "93.184.216.34:443", "93.184.216.34:443")])
  ∧ Gtk.ip_part_of "93.184.216.34:443" ∈ Gtk.resolution_pending (Gtk.win first.2)
  ∧ second.1 = "93.184.216.34:443"
  ∧ second.2 = first.2
  ∧ ∃ later, Gtk.started rest.2 = Gtk.started first.2 ++ later
             ∧ Forall (λ t, t.1 ≠ Gtk.ip_part_of "93.184.216.34:443") later.
Proof.
  apply (resolve_twice_one_lookup Gtk.init "93.184.216.34:443"
           ["93.184.216.34:80"; "10.0.0.1:22"]).
  - reflexivity.
  - reflexivity.
  - reflexivity.
  - reflexivity.
  - simpl. apply not_elem_of_empty.
Defined.

(** C5, as stated, fails for a loopback endpoint: resolution is enabled,
    nothing is cached or pending, and the first call returns "LOCALHOST",
    not the raw endpoint, and starts no lookup.  It also fails for a text
    without a colon, which is returned with no lookup started. *)
Lemma resolve_loopback_no_lookup :
  Gtk.resolve_hosts (Gtk.win Gtk.init) = true
  ∧ Gtk.resolution_cache (Gtk.win Gtk.init) !! "127.0.0.1:5432" = None
  ∧ (Gtk.ip_part_of "127.0.0.1:5432" ∉ Gtk.resolution_pending (Gtk.win Gtk.init))
  ∧ (Gtk.resolve_address "127.0.0.1:5432" Gtk.init).1 = "LOCALHOST"
  ∧ (Gtk.resolve_address "127.0.0.1:5432" Gtk.init).1 ≠ "127.0.0.1:5432"
  ∧ Gtk.started (Gtk.resolve_address "127.0.0.1:5432" Gtk.init).2 = []
  ∧ Gtk.started (Gtk.resolve_address "example" Gtk.init).2 = [].
Proof.
  split_and!; try reflexivity.
  - simpl. apply not_elem_of_empty.
  - rewrite resolve_address_text. by vm_compute.
Qed.

(** ** The window: one sampling cycle *)

Global Instance calm_preorder : PreOrder calm.
Proof.
  split.
  - intros s. by repeat split.
  - intros s1 s2 s3 (E1 & ? & ? & ? & ?) (E2 & ? & ? & ? & ?).
    split; [by etrans|]. repeat split; congruence.
Qed.

Global Instance quiet_preorder : PreOrder quiet.
Proof.
  split.
  - intros s. by split.
  - intros s1 s2 s3 [C1 ?] [C2 ?]. split; [by etrans|congruence].
Qed.

Lemma quiet_extends s s' : quiet s s' → extends s s'.
Proof. by intros [[? _] _]. Qed.

Lemma resolve_address_quiet addr s : quiet s (Gtk.resolve_address addr s).2.
Proof.
  rewrite resolve_address_run. simpl.
  destruct (starts_lookup _ _); [|done].
  repeat split. simpl. set_solver.
Qed.

Lemma get_process_io_quiet w pid s : quiet s (Gtk.get_process_io w pid s).2.
Proof. by repeat split. Qed.

Lemma get_process_path_quiet w pid s : quiet s (Gtk.get_process_path w pid s).2.
Proof. by repeat split. Qed.

Lemma resolved_text_quiet s s' addr :
  quiet s s' → resolved_text (Gtk.win s') addr = resolved_text (Gtk.win s) addr.
Proof. intros H%quiet_extends. by apply resolved_text_extends. Qed.

Section Cycle.
Variable format_bytes : Z → string.
Variable w : Net.world.

Lemma get_row_data_run conn s :
  quiet s (Gtk.get_row_data format_bytes w conn s).2
  ∧ (Gtk.get_row_data format_bytes w conn s).1 !! 3%nat
    = Some (Py.truncate 30 (resolved_text (Gtk.win s) (Net.remote conn))).
Proof.
  unfold Gtk.get_row_data. run_M.
  pose proof (resolve_address_quiet (Net.local conn) s) as Q1.
  destruct (Gtk.resolve_address (Net.local conn) s) as [local_resolved s1].
  pose proof (resolve_address_quiet (Net.remote conn) s1) as Q2.
  pose proof (resolve_address_text (Net.remote conn) s1) as T2.
  destruct (Gtk.resolve_address (Net.remote conn) s1) as [remote_resolved s2].
  simpl in *. subst remote_resolved.
  rewrite (resolved_text_quiet s s1) by done.
  destruct (negb _).
  - pose proof (get_process_path_quiet w (Net.pid conn) s2) as Q3.
    destruct (Gtk.get_process_path w (Net.pid conn) s2) as [path s3].
    simpl in *. split; [|done]. by do 2 (etrans; [eassumption|]).
  - simpl. split; [|done]. by etrans.
Qed.

Lemma get_sort_key_quiet conn s :
  quiet s (Gtk.get_sort_key format_bytes w conn s).2.
Proof.
  unfold Gtk.get_sort_key. run_M.
  destruct (_ =? 5)%nat; [done|]. destruct (_ =? 6)%nat; [done|].
  pose proof (get_row_data_run conn s) as [Q _].
  by destruct (Gtk.get_row_data format_bytes w conn s).
Qed.

Lemma sort_keys_run connections : ∀ s,
  quiet s (Gtk.sort_keys format_bytes w connections s).2
  ∧ length (Gtk.sort_keys format_bytes w connections s).1 = length connections.
Proof.
  induction connections as [|conn connections IH]; intros s; [done|].
  cbn [Gtk.sort_keys]. run_M.
  pose proof (get_sort_key_quiet conn s) as Q1.
  destruct (Gtk.get_sort_key format_bytes w conn s) as [k s1].
  destruct (IH s1) as [Q2 Hlen].
  destruct (Gtk.sort_keys format_bytes w connections s1) as [ks s2].
  simpl in *. split; [by etrans|by rewrite Hlen].
Qed.

Lemma filter_localhost_run connections : ∀ s,
  quiet s (Gtk.filter_localhost connections s).2
  ∧ (Gtk.filter_localhost connections s).1
    = filter (gtk_shown (Gtk.win s)) connections.
Proof.
  induction connections as [|conn connections IH]; intros s; [done|].
  cbn [Gtk.filter_localhost]. run_M.
  pose proof (resolve_address_quiet (Net.remote conn) s) as Q1.
  pose proof (resolve_address_text (Net.remote conn) s) as T1.
  destruct (Gtk.resolve_address (Net.remote conn) s) as [resolved s1].
  destruct (IH s1) as [Q2 Hrest].
  destruct (Gtk.filter_localhost connections s1) as [rest s2].
  simpl in *. split; [by etrans|]. subst resolved rest.
  assert (filter (gtk_shown (Gtk.win s1)) connections
          = filter (gtk_shown (Gtk.win s)) connections) as ->.
  { apply list_filter_iff. intros c. unfold gtk_shown.
    by rewrite (resolved_text_quiet s s1). }
  destruct (String.eqb_spec (resolved_text (Gtk.win s) (Net.remote conn))
              "LOCALHOST"); simpl.
  - by rewrite filter_cons_False by (by intros []).
  - by rewrite filter_cons_True.
Qed.

End Cycle.

(** ** The model of [sorted] *)

Section SortFacts.
Context {A : Type} (before : Py.key → Py.key → bool).

Lemma insert_keyed_perm (x : Py.key * A) l :
  Py.insert_keyed before x l ≡ₚ x :: l.
Proof.
  induction l as [|y l IH]; simpl; [done|].
  destruct (before y.1 x.1); [|done].
  rewrite IH. apply Permutation_swap.
Qed.

Lemma sort_keyed_perm (l : list (Py.key * A)) : Py.sort_keyed before l ≡ₚ l.
Proof.
  induction l as [|x l IH]; simpl; [done|].
  by rewrite insert_keyed_perm, IH.
Qed.

(** Stability: the items of any one key come out in the order they went
    in.  It only takes [before] to be irreflexive. *)
Lemma insert_keyed_same_key (k : Py.key) (x : Py.key * A) l :
  (∀ a, before a a = false) →
  filter (λ y, y.1 = k) (Py.insert_keyed before x l)
  = filter (λ y, y.1 = k) (x :: l).
Proof.
  intros Hirr. induction l as [|y l IH]; simpl; [done|].
  destruct (before y.1 x.1) eqn:Hyx; [|done].
  rewrite (filter_cons _ y), IH, !(filter_cons _ x), !(filter_cons _ y).
  destruct (decide (x.1 = k)) as [Hx|]; [|done].
  destruct (decide (y.1 = k)) as [Hy|]; [|done].
  rewrite Hx, Hy, Hirr in Hyx. done.
Qed.

Lemma sort_keyed_stable (k : Py.key) (l : list (Py.key * A)) :
  (∀ a, before a a = false) →
  filter (λ y, y.1 = k) (Py.sort_keyed before l) = filter (λ y, y.1 = k) l.
Proof.
  intros Hirr. induction l as [|x l IH]; simpl; [done|].
  rewrite insert_keyed_same_key, !filter_cons by done. by rewrite IH.
Qed.

(** Order: on keys of one kind [P], where [before] is a strict total
    order, no item comes out after one that is [before] it. *)
Lemma insert_keyed_sorted (P : Py.key → Prop) (x : Py.key * A) l :
  (∀ a b, P a → P b → before a b = true → before b a = false) →
  (∀ a b c, P a → P b → P c →
     before b a = false → before c b = false → before c a = false) →
  P x.1 → Forall (λ y, P y.1) l →
  StronglySorted (λ a b, before b.1 a.1 = false) l →
  StronglySorted (λ a b, before b.1 a.1 = false) (Py.insert_keyed before x l).
Proof.
  intros Hasym Htrans Hx Hl Hs.
  induction Hs as [|y l Hs IH Hy]; simpl.
  - by repeat constructor.
  - apply Forall_cons in Hl as [HPy Hl].
    destruct (before y.1 x.1) eqn:Hyx.
    + constructor; [by apply IH|].
      rewrite insert_keyed_perm. constructor; [by apply Hasym|done].
    + constructor; [by constructor|].
      constructor; [done|].
      rewrite Forall_forall in Hy, Hl. apply Forall_forall. intros z Hz.
      apply (Htrans _ y.1); auto.
Qed.

Lemma sort_keyed_sorted (P : Py.key → Prop) (l : list (Py.key * A)) :
  (∀ a b, P a → P b → before a b = true → before b a = false) →
  (∀ a b c, P a → P b → P c →
     before b a = false → before c b = false → before c a = false) →
  Forall (λ y, P y.1) l →
  StronglySorted (λ a b, before b.1 a.1 = false) (Py.sort_keyed before l).
Proof.
  intros Hasym Htrans Hl. induction Hl as [|x l Hx Hl IH]; simpl.
  - constructor.
  - apply (insert_keyed_sorted P); auto. by rewrite sort_keyed_perm.
Qed.

End SortFacts.

(** Keys computed by one function [f] of the items. *)
Lemma sorted_perm {A} (keys : list Py.key) (items : list A) reverse :
  length keys = length items → Py.sorted keys items reverse ≡ₚ items.
Proof.
  intros Hlen. unfold Py.sorted. rewrite sort_keyed_perm.
  by rewrite snd_zip by lia.
Qed.

Lemma zip_fmap_key {A} (f : A → Py.key) (items : list A) :
  zip (f <$> items) items = (λ a, (f a, a)) <$> items.
Proof. induction items as [|a items IH]; [done|]. csimpl. by rewrite IH. Qed.

Lemma filter_keyed_snd {A} (g : Z → Py.key) `{!Inj (=) (=) g} (v : Z)
    (val : A → Z) (l : list (Py.key * A)) :
  Forall (λ y, y.1 = g (val y.2)) l →
  (filter (λ y, y.1 = g v) l).*2 = filter (λ a, val a = v) l.*2.
Proof.
  induction 1 as [|y l Hy _ IH]; [done|].
  rewrite fmap_cons, !filter_cons, <- IH.
  destruct (decide (y.1 = g v)) as [Hk|Hk]; rewrite Hy in Hk.
  - apply (inj g) in Hk. by rewrite decide_True.
  - rewrite decide_False; [done|]. intros Hv. apply Hk. by rewrite Hv.
Qed.

Lemma key_lt_irrefl a : Py.key_lt a a = false.
Proof.
  destruct a as [n|s]; simpl; [apply Z.ltb_irrefl|].
  unfold String.ltb. pose proof (String.compare_antisym s s) as H.
  by destruct (String.compare s s).
Qed.

Global Instance KInt_inj : Inj (=) (=) Py.KInt.
Proof. by intros m n [= ->]. Qed.

Lemma StronglySorted_with {A} (R : relation A) (inv : A → Prop) l :
  Forall inv l → StronglySorted R l →
  StronglySorted (λ a b, inv a ∧ inv b ∧ R a b) l.
Proof.
  intros Hinv Hs. induction Hs as [|x l Hs IH Hx]; [constructor|].
  apply Forall_cons in Hinv as [Hix Hil].
  constructor; [by apply IH|].
  rewrite Forall_forall in Hx, Hil. apply Forall_forall. auto.
Qed.

(** ** Sorting on a rate column *)

Section SortByRate.
Variable format_bytes : Z → string.
Variable w : Net.world.

Lemma sort_keys_rate connections s :
  (Gtk.sort_column (Gtk.win s) = 5 ∨ Gtk.sort_column (Gtk.win s) = 6)%nat →
  Gtk.sort_keys format_bytes w connections s
  = ((λ c, Py.KInt (rate_of (Gtk.sort_column (Gtk.win s)) c)) <$> connections, s).
Proof.
  intros Hcol. induction connections as [|conn connections IH]; [done|].
  cbn [Gtk.sort_keys]. unfold Gtk.get_sort_key. run_M.
  destruct Hcol as [H | H]; rewrite H in *; simpl; by rewrite IH.
Qed.

(** C8.  With the TX column (5) or the RX column (6) selected,
    [sort_connections] changes nothing in the window and returns the
    connections rearranged by the number they hold under ['tx_rate'],
    respectively ['rx_rate'] (0 when the key is not there), lowest first
    when ascending and highest first when descending; connections of
    equal rate keep the order they came in.  The formatting of the
    rates plays no part. *)
Theorem sort_by_rate_stable (s : Gtk.sys) (connections : list Net.connection) :
  (Gtk.sort_column (Gtk.win s) = 5 ∨ Gtk.sort_column (Gtk.win s) = 6)%nat →
  let rate := rate_of (Gtk.sort_column (Gtk.win s)) in
  let out := (Gtk.sort_connections format_bytes w connections s).1 in
  (Gtk.sort_connections format_bytes w connections s).2 = s
  ∧ out ≡ₚ connections
  ∧ StronglySorted
      (λ a b, if Gtk.sort_ascending (Gtk.win s)
              then rate a ≤ rate b else rate b ≤ rate a) out
  ∧ ∀ v, filter (λ c, rate c = v) out = filter (λ c, rate c = v) connections.
Proof.
  intros Hcol rate out.
  set (f := λ c, Py.KInt (rate c)).
  set (before := if negb (Gtk.sort_ascending (Gtk.win s))
                 then flip Py.key_lt else Py.key_lt).
  set (keyed := Py.sort_keyed before ((λ c, (f c, c)) <$> connections)).
  assert (Gtk.sort_connections format_bytes w connections s = (keyed.*2, s))
    as Hrun.
  { unfold Gtk.sort_connections. destruct connections as [|c cs]; [done|].
    unfold mbind, Gtk.M_bind. cbv beta iota.
    rewrite sort_keys_rate by done.
    unfold Py.sorted. by rewrite zip_fmap_key. }
  assert (keyed ≡ₚ (λ c, (f c, c)) <$> connections) as Hperm
    by apply sort_keyed_perm.
  assert (Forall (λ y, y.1 = Py.KInt (rate y.2)) keyed) as Hkeys.
  { rewrite Hperm. apply Forall_fmap, Forall_true. done. }
  assert (∀ a, before a a = false) as Hirr.
  { intros a. subst before. destruct (negb _); apply key_lt_irrefl. }
  subst out. rewrite Hrun. cbn [fst snd]. split_and!.
  - done.
  - rewrite Hperm, <- list_fmap_compose. by rewrite list_fmap_id.
  - apply (StronglySorted_fmap _ (λ a b : Py.key * Net.connection,
             a.1 = f a.2 ∧ b.1 = f b.2 ∧ before b.1 a.1 = false)).
    + intros a b (Ha & Hb & Hab). rewrite Ha, Hb in Hab. subst before f.
      simpl in Hab. destruct (Gtk.sort_ascending (Gtk.win s)); simpl in Hab;
        apply Z.ltb_ge in Hab; done.
    + apply StronglySorted_with; [done|].
      apply (sort_keyed_sorted before (λ k, ∃ n, k = Py.KInt n)).
      * intros a b [m ->] [n ->]. subst before.
        destruct (negb _); simpl; rewrite !Z.ltb_lt, Z.ltb_ge; lia.
      * intros a b c [m ->] [n ->] [p ->]. subst before.
        destruct (negb _); simpl; rewrite !Z.ltb_ge; lia.
      * apply Forall_fmap, Forall_true. intros c. simpl. by eexists.
  - intros v.
    rewrite <- (filter_keyed_snd Py.KInt v rate keyed) by done.
    unfold keyed. rewrite sort_keyed_stable by done.
    rewrite (filter_keyed_snd Py.KInt v rate).
    + f_equal. rewrite <- list_fmap_compose. by rewrite list_fmap_id.
    + apply Forall_fmap, Forall_true. done.
Qed.

End SortByRate.

(** Sorting on TX, ascending, rows whose TX rates format as "1.0KB/s",
    "900.0B/s" and "1.0KB/s", and on RX, descending, the same rows, whose
    RX rates are 10, 30 and 10. *)
Lemma sort_by_rate_stable_witness :
  (let s := Sample.sorting_on 5 true in
   let rate := rate_of (Gtk.sort_column (Gtk.win s)) in
   let out := (Gtk.sort_connections Sample.short_format Sample.world_reset
                 Sample.mixed_rated s).1 in
   (Gtk.sort_connections Sample.short_format Sample.world_reset
      Sample.mixed_rated s).2 = s
   ∧ out ≡ₚ Sample.mixed_rated
   ∧ StronglySorted
       (λ a b, if Gtk.sort_ascending (Gtk.win s)
               then rate a ≤ rate b else rate b ≤ rate a) out
   ∧ ∀ v, filter (λ c, rate c = v) out
          = filter (λ c, rate c = v) Sample.mixed_rated)
  ∧ (let s := Sample.sorting_on 6 false in
     let rate := rate_of (Gtk.sort_column (Gtk.win s)) in
     let out := (Gtk.sort_connections Sample.short_format Sample.world_reset
                   Sample.mixed_rated s).1 in
     (Gtk.sort_connections Sample.short_format Sample.world_reset
        Sample.mixed_rated s).2 = s
     ∧ out ≡ₚ Sample.mixed_rated
     ∧ StronglySorted
         (λ a b, if Gtk.sort_ascending (Gtk.win s)
                 then rate a ≤ rate b else rate b ≤ rate a) out
     ∧ ∀ v, filter (λ c, rate c = v) out
            = filter (λ c, rate c = v) Sample.mixed_rated).
Proof.
  split.
  - apply (sort_by_rate_stable Sample.short_format Sample.world_reset
             (Sample.sorting_on 5 true) Sample.mixed_rated).
    left. reflexivity.
  - apply (sort_by_rate_stable Sample.short_format Sample.world_reset
             (Sample.sorting_on 6 false) Sample.mixed_rated).
    right. reflexivity.
Defined.

(** The rows of [Sample.mixed_rated] by pid, with the number held under
    ['tx_rate'] and under ['rx_rate'], as the four sorts on a rate
    column return them; and [Sample.three_rated] on the protocol
    column, where all keys are equal. *)
Example sort_by_rate_order :
  let rates := λ c : Net.connection, (Net.pid c, Net.tx_rate c, Net.rx_rate c) in
  let sort := λ column ascending,
    rates <$> (Gtk.sort_connections Sample.short_format Sample.world_reset
                 Sample.mixed_rated (Sample.sorting_on column ascending)).1 in
  sort 5%nat true
  = [("2", Some 900, Some 30); ("1", Some 1024, Some 10); ("3", Some 1024, Some 10)]
  ∧ sort 5%nat false
    = [("1", Some 1024, Some 10); ("3", Some 1024, Some 10); ("2", Some 900, Some 30)]
  ∧ sort 6%nat true
    = [("1", Some 1024, Some 10); ("3", Some 1024, Some 10); ("2", Some 900, Some 30)]
  ∧ sort 6%nat false
    = [("2", Some 900, Some 30); ("1", Some 1024, Some 10); ("3", Some 1024, Some 10)]
  ∧ Net.pid <$> (Gtk.sort_connections Sample.short_format Sample.world_reset
                   Sample.three_rated (Sample.sorting_on 1 true)).1
    = ["1"; "2"; "3"].
Proof. split_and!; vm_compute; reflexivity. Qed.

(** ** The lookup threads and the semaphore *)

Lemma filter_insert_length {A} (P : A → Prop) `{!∀ x, Decision (P x)}
    (l : list A) (i : nat) (x y : A) :
  l !! i = Some x →
  (length (filter P (<[i:=y]> l)) + (if decide (P x) then 1 else 0)
   = length (filter P l) + (if decide (P y) then 1 else 0))%nat.
Proof.
  intros Hi. rewrite <- (take_drop_middle l i x Hi) at 2.
  rewrite insert_take_drop by eauto using lookup_lt_Some.
  rewrite !filter_app, !filter_cons, !length_app.
  destruct (decide (P x)), (decide (P y)); simpl; lia.
Qed.

Lemma holders_insert p i wk wk' (b b' : bool) :
  Gtk.workers p !! i = Some wk →
  Gtk.holds_permit wk = b → Gtk.holds_permit wk' = b' →
  (length (filter (λ x, Gtk.holds_permit x = true) (<[i:=wk']> (Gtk.workers p)))
   + (if b then 1 else 0)
   = Gtk.holders p + (if b' then 1 else 0))%nat.
Proof.
  intros Hi E1 E2. unfold Gtk.holders.
  pose proof (filter_insert_length (λ x, Gtk.holds_permit x = true)
                (Gtk.workers p) i wk wk' Hi) as H.
  destruct b, b'; repeat case_decide; try congruence; lia.
Qed.

Lemma step_gate p p' :
  Gtk.step p p' →
  (Gtk.permits p + Gtk.holders p = Gtk.permits p' + Gtk.holders p')%nat.
Proof.
  destruct 1 as [p ip addr|p i wk n Hi Hph Hn|p i wk hostname Hi Hph
                 |p i wk resolved Hi Hph];
    unfold Gtk.holders at 2; unfold Gtk.move; cbn [Gtk.workers Gtk.permits].
  - unfold Gtk.holders. rewrite filter_app, length_app. simpl. lia.
  - match goal with |- context [<[i:=?x]> _] =>
      pose proof (holders_insert p i wk x false true Hi) as H end.
    unfold Gtk.holds_permit at 1 in H. rewrite Hph in H.
    specialize (H eq_refl eq_refl). lia.
  - match goal with |- context [<[i:=?x]> _] =>
      pose proof (holders_insert p i wk x true true Hi) as H end.
    unfold Gtk.holds_permit at 1 in H. rewrite Hph in H.
    specialize (H eq_refl eq_refl). lia.
  - match goal with |- context [<[i:=?x]> _] =>
      pose proof (holders_insert p i wk x true false Hi) as H end.
    unfold Gtk.holds_permit at 1 in H. rewrite Hph in H.
    specialize (H eq_refl eq_refl). lia.
Qed.

Lemma in_flight_le_holders p : (Gtk.in_flight p ≤ Gtk.holders p)%nat.
Proof.
  unfold Gtk.in_flight, Gtk.holders.
  induction (Gtk.workers p) as [|wk ws IH]; [done|].
  rewrite !filter_cons.
  destruct (decide (Gtk.is_looking wk = true)) as [H1|H1],
    (decide (Gtk.holds_permit wk = true)) as [H2|H2]; simpl; try lia.
  exfalso. apply H2. unfold Gtk.is_looking in H1. unfold Gtk.holds_permit.
  by destruct (Gtk.at_phase wk).
Qed.

(** C6.  In every state that the lookup threads can reach from the
    initial semaphore of 5, at most 5 of them are inside the blocking
    call; the permits left and the threads between acquire and release
    always add up to 5; and a thread inside the call, whether the lookup
    succeeds or raises, goes on to post its result and give its permit
    back. *)
Theorem at_most_five_lookups (p : Gtk.pool) :
  Gtk.reachable p →
  (Gtk.in_flight p ≤ 5)%nat
  ∧ (Gtk.permits p + Gtk.holders p = 5)%nat
  ∧ ∀ i wk hostname,
      Gtk.workers p !! i = Some wk → Gtk.at_phase wk = Gtk.Looking →
      ∃ p1 p2,
        Gtk.step p p1 ∧ Gtk.step p1 p2
        ∧ Gtk.permits p2 = S (Gtk.permits p)
        ∧ Gtk.at_phase <$> Gtk.workers p2 !! i = Some Gtk.Finished
        ∧ Gtk.posted p2
          = Gtk.posted p
            ++ [Gtk.update_resolution_cache_cb (Gtk.full_addr wk)
                  (Gtk.resolved_name hostname (Gtk.full_addr wk))].
Proof.
  intros Hreach.
  assert (Gtk.permits p + Gtk.holders p = 5)%nat as Hgate.
  { revert p Hreach. unfold Gtk.reachable.
    apply (rtc_ind_r (λ p, Gtk.permits p + Gtk.holders p = 5)%nat); [done|].
    intros p1 p2 _ Hstep IH. by rewrite <- (step_gate _ _ Hstep). }
  split_and!; [|done|].
  - pose proof (in_flight_le_holders p). lia.
  - intros i wk hostname Hi Hph.
    pose proof (lookup_lt_Some _ _ _ Hi) as Hlt.
    eexists _, _. split_and!.
    + by apply (Gtk.step_lookup p i wk hostname).
    + eapply (Gtk.step_release _ i); simpl.
      * unfold Gtk.move. by apply list_lookup_insert_eq.
      * done.
    + done.
    + simpl. unfold Gtk.move.
      rewrite list_lookup_insert_eq; [done|]. by rewrite length_insert.
    + done.
Qed.

Lemma burst_reachable : Gtk.reachable Sample.burst.
Proof.
  unfold Gtk.reachable.
  eapply rtc_l; [apply (Gtk.step_start _ "10.0.0.1" "10.0.0.1:443")|].
  eapply rtc_l; [apply (Gtk.step_start _ "10.0.0.2" "10.0.0.2:443")|].
  eapply rtc_l; [apply (Gtk.step_start _ "10.0.0.3" "10.0.0.3:443")|].
  eapply rtc_l; [apply (Gtk.step_start _ "10.0.0.4" "10.0.0.4:443")|].
  eapply rtc_l; [apply (Gtk.step_start _ "10.0.0.5" "10.0.0.5:443")|].
  eapply rtc_l; [apply (Gtk.step_start _ "10.0.0.6" "10.0.0.6:443")|]; simpl.
  eapply rtc_l; [by eapply (Gtk.step_acquire _ 0)|]; simpl.
  eapply rtc_l; [by eapply (Gtk.step_acquire _ 1)|]; simpl.
  eapply rtc_l; [by eapply (Gtk.step_acquire _ 2)|]; simpl.
  eapply rtc_l; [by eapply (Gtk.step_acquire _ 3)|]; simpl.
  eapply rtc_l; [by eapply (Gtk.step_acquire _ 4)|]; simpl.
  exact (rtc_refl _ Sample.burst).
Defined.

(** A burst of six lookups: five hold the five permits, none is left for
    the sixth. *)
Lemma at_most_five_lookups_witness :
  (Gtk.in_flight Sample.burst ≤ 5)%nat
  ∧ (Gtk.permits Sample.burst + Gtk.holders Sample.burst = 5)%nat
  ∧ ∀ i wk hostname,
      Gtk.workers Sample.burst !! i = Some wk → Gtk.at_phase wk = Gtk.Looking →
      ∃ p1 p2,
        Gtk.step Sample.burst p1 ∧ Gtk.step p1 p2
        ∧ Gtk.permits p2 = S (Gtk.permits Sample.burst)
        ∧ Gtk.at_phase <$> Gtk.workers p2 !! i = Some Gtk.Finished
        ∧ Gtk.posted p2
          = Gtk.posted Sample.burst
            ++ [Gtk.update_resolution_cache_cb (Gtk.full_addr wk)
                  (Gtk.resolved_name hostname (Gtk.full_addr wk))].
Proof. apply (at_most_five_lookups Sample.burst). exact burst_reachable. Defined.

(** ** The sampling cycle of the window *)

Lemma length_substring_0 n s :
  (n ≤ String.length s)%nat → String.length (String.substring 0 n s) = n.
Proof.
  revert s. induction n as [|n IH]; intros [|c s] Hn; simpl in *;
    try done; try lia.
  rewrite IH; [done|lia].
Qed.

Lemma truncate_localhost s :
  Py.truncate 30 s = "LOCALHOST" → s = "LOCALHOST".
Proof.
  unfold Py.truncate. destruct (30 <? String.length s)%nat eqn:Hlen; [|done].
  apply Nat.ltb_lt in Hlen. intros H.
  assert (String.length (String.substring 0 30 s) = 30%nat) as Hsub
    by (apply length_substring_0; lia).
  by rewrite H in Hsub.
Qed.

Lemma attached_wider w prev lo hi lo' hi' c c' :
  (lo' ≤ lo)%nat → (hi ≤ hi')%nat →
  attached w prev lo hi c c' → attached w prev lo' hi' c c'.
Proof.
  unfold attached. intros ? ?. destruct (String.eqb _ _); [done|].
  intros (n & ? & ?). exists n. split; [lia|done].
Qed.

Lemma attached_remote w prev lo hi c c' :
  attached w prev lo hi c c' →
  Net.remote c' = Net.remote c ∧ Net.pid c' = Net.pid c
  ∧ 0 ≤ Gtk.get_rx_rate c' ∧ 0 ≤ Gtk.get_tx_rate c'.
Proof.
  unfold attached. destruct (String.eqb _ _); [by intros ->|].
  intros (n & _ & ->). destruct (prev !! Net.pid c); simpl; split_and!;
    try done; unfold Gtk.get_rx_rate, Gtk.get_tx_rate; simpl; lia.
Qed.

Lemma sampled_pids_cons c cs :
  sampled_pids (c :: cs)
  = (if String.eqb (Net.pid c) "N/A" then ∅ else {[Net.pid c]}) ∪ sampled_pids cs.
Proof.
  unfold sampled_pids. rewrite fmap_cons, filter_cons.
  destruct (String.eqb_spec (Net.pid c) "N/A") as [->|Hne].
  - rewrite decide_False by (by intros []). by rewrite (left_id_L ∅ (∪)).
  - by rewrite decide_True.
Qed.

Lemma sample_io_run (w : Net.world) connections : ∀ current_io s,
  let r := Gtk.sample_io w connections current_io s in
  quiet s r.2
  ∧ Gtk.started r.2 = Gtk.started s
  ∧ (Gtk.opened s ≤ Gtk.opened r.2)%nat
  ∧ Forall2 (attached w (Gtk.prev_io (Gtk.win s)) (Gtk.opened s) (Gtk.opened r.2))
      connections r.1.1
  ∧ dom r.1.2 = dom current_io ∪ sampled_pids connections.
Proof.
  induction connections as [|conn connections IH]; intros current_io s.
  { simpl. split_and!; try done. unfold sampled_pids. simpl.
    by rewrite (right_id_L ∅ (∪)). }
  cbn [Gtk.sample_io]. rewrite sampled_pids_cons. unfold attached at 1.
  destruct (String.eqb (Net.pid conn) "N/A") eqn:Hpid; run_M.
  - specialize (IH current_io s).
    destruct (Gtk.sample_io w connections current_io s) as [[rest cur] s'].
    simpl in *. destruct IH as (Q & Hst & Hle & Hall & Hdom).
    split_and!; try done.
    + constructor; [|done]. unfold attached. by rewrite Hpid.
    + by rewrite (left_id_L ∅ (∪)).
  - destruct (ProcIO.get_process_io (Net.proc w (Gtk.opened s)) (Net.pid conn))
      as [current_read current_write] eqn:Hio.
    simpl.
    match goal with |- context [Gtk.sample_io w connections ?c ?s1] =>
      specialize (IH c s1); destruct (Gtk.sample_io w connections c s1)
        as [[rest cur] s'] end.
    simpl in *. destruct IH as (Q & Hst & Hle & Hall & Hdom).
    split_and!.
    + etrans; [|exact Q]. by repeat split.
    + done.
    + lia.
    + constructor.
      * unfold attached. rewrite Hpid. exists (Gtk.opened s).
        split; [lia|]. rewrite Hio. simpl.
        by destruct (Gtk.prev_io (Gtk.win s) !! Net.pid conn).
      * eapply Forall2_impl; [exact Hall|]. intros c c'.
        apply attached_wider; lia.
    + rewrite Hdom, dom_insert_L, !(assoc_L (∪)).
      by rewrite (comm_L (∪) (dom current_io)).
Qed.

Section CycleRun.
Variable format_bytes : Z → string.
Variable w : Net.world.

Lemma sort_connections_run connections s :
  quiet s (Gtk.sort_connections format_bytes w connections s).2
  ∧ (Gtk.sort_connections format_bytes w connections s).1 ≡ₚ connections.
Proof.
  unfold Gtk.sort_connections. destruct connections as [|c cs]; [done|].
  unfold mbind, Gtk.M_bind. cbv beta iota.
  destruct (sort_keys_run format_bytes w (c :: cs) s) as [Q Hlen].
  destruct (Gtk.sort_keys format_bytes w (c :: cs) s) as [keys s1].
  simpl in Q, Hlen. simpl. split; [done|]. by apply sorted_perm.
Qed.

Lemma render_run sorted_connections : ∀ active_connections s,
  let r := Gtk.render format_bytes w sorted_connections active_connections s in
  calm s r.2
  ∧ r.1 = (active_connections + length (filter gtk_active sorted_connections))%nat
  ∧ ∃ rows,
      Gtk.row_widgets r.2 = Gtk.row_widgets s ++ rows
      ∧ Forall2 (λ row conn,
           row !! 3%nat
           = Some (Py.truncate 30 (resolved_text (Gtk.win s) (Net.remote conn))))
          rows sorted_connections.
Proof.
  induction sorted_connections as [|conn rest IH]; intros active_connections s.
  { simpl. split_and!; [done|lia|]. exists []. by rewrite app_nil_r. }
  cbn [Gtk.render]. unfold mbind, Gtk.M_bind.
  destruct (get_row_data_run format_bytes w conn s) as [[Q Hw] Hcell].
  destruct (Gtk.get_row_data format_bytes w conn s) as [row_data s1].
  simpl in Q, Hw, Hcell. unfold Gtk.attach_row. cbv beta iota.
  match goal with |- context [Gtk.render _ _ rest ?n ?s2] =>
    specialize (IH n s2); destruct (Gtk.render format_bytes w rest n s2)
      as [active s'] end.
  simpl in IH. destruct IH as (C & Hactive & rows & Hrows & Hcells).
  cbn [fst snd]. split_and!.
  - etrans; [exact Q|]. etrans; [|exact C]. by repeat split.
  - rewrite Hactive, filter_cons.
    destruct (decide (gtk_active conn)) as [Ha|Ha];
      unfold gtk_active, positive_rate in Ha.
    + rewrite Ha. simpl. lia.
    + apply not_true_is_false in Ha. rewrite Ha. simpl. lia.
  - exists (row_data :: rows). split.
    + rewrite Hrows, Hw. simpl. by rewrite <- app_assoc.
    + constructor; [done|].
      eapply Forall2_impl; [exact Hcells|]. intros row c. simpl.
      intros ->. do 2 f_equal. apply resolved_text_extends, Q.
Qed.

End CycleRun.

Lemma resolved_text_settings s s' addr :
  settings s' = settings s →
  resolved_text (Gtk.win s') addr = resolved_text (Gtk.win s) addr.
Proof.
  unfold settings. intros Hset. injection Hset as _ _ Hhosts Hcache.
  unfold resolved_text. by rewrite Hhosts, Hcache.
Qed.

Section CycleWhole.
Variable format_bytes : Z → string.
Variable w : Net.world.

(** What the sampling loop of a cycle hands on. *)
Lemma sampled_run s :
  let connections := Net.ss w (Gtk.ss_calls s) in
  ∃ hi, Forall2 (attached w (Gtk.prev_io (Gtk.win s)) (Gtk.opened s) hi)
          connections (sampled w s).1
  ∧ dom (sampled w s).2 = sampled_pids connections.
Proof.
  unfold sampled.
  destruct (sample_io_run w (Net.ss w (Gtk.ss_calls s)) ∅ (cycle_start w s))
    as (_ & _ & _ & Hall & Hdom).
  eexists. split; [exact Hall|].
  by rewrite Hdom, dom_empty_L, (left_id_L ∅ (∪)).
Qed.

(** One whole [update_connections]. *)
Lemma update_connections_run s :
  let s' := (Gtk.update_connections format_bytes w s).2 in
  let connections := Net.ss w (Gtk.ss_calls s) in
  ∃ shown,
    shown ≡ₚ filter (gtk_shown (Gtk.win s)) (sampled w s).1
    ∧ Gtk.prev_io (Gtk.win s') = (sampled w s).2
    ∧ settings s' = settings s
    ∧ Gtk.resolution_pending (Gtk.win s) ⊆ Gtk.resolution_pending (Gtk.win s')
    ∧ Forall2 (λ row conn,
         row !! 3%nat
         = Some (Py.truncate 30 (resolved_text (Gtk.win s) (Net.remote conn))))
        (Gtk.row_widgets s') shown
    ∧ Gtk.status s'
      = (if (0 <? length connections)%nat
         then Gtk.Summary (length connections) (length (filter gtk_active shown))
         else Gtk.Monitoring)
    ∧ Gtk.ss_calls s' = S (Gtk.ss_calls s)
    ∧ Gtk.idle s' = Gtk.idle s
    ∧ Gtk.timeouts s' = Gtk.timeouts s ++ [Gtk.update_connections_cb].
Proof.
  cbv zeta. unfold Gtk.update_connections, sampled, mbind, Gtk.M_bind.
  set (s0 := cycle_start w s).
  change (Gtk.clear_rows s) with (tt, (Gtk.clear_rows s).2). cbv beta iota.
  change (Gtk.get_connections w (Gtk.clear_rows s).2)
    with (Net.ss w (Gtk.ss_calls s), s0). cbv beta iota.
  destruct (sample_io_run w (Net.ss w (Gtk.ss_calls s)) ∅ s0)
    as (Q1 & _ & _ & Hall & _).
  destruct (Gtk.sample_io w (Net.ss w (Gtk.ss_calls s)) ∅ s0)
    as [[rated current_io] s1].
  cbn [fst snd] in *. apply Forall2_length in Hall.
  set (s2 := (Gtk.modify_win (Gtk.set_prev_io current_io) s1).2).
  change (Gtk.modify_win (Gtk.set_prev_io current_io) s1) with (tt, s2).
  cbv beta iota.
  destruct (filter_localhost_run rated s2) as [Q3 Hfiltered].
  destruct (Gtk.filter_localhost rated s2) as [filtered s3].
  destruct (sort_connections_run format_bytes w filtered s3) as [Q4 Hsorted].
  destruct (Gtk.sort_connections format_bytes w filtered s3) as [shown s4].
  destruct (render_run format_bytes w shown 0%nat s4)
    as (C5 & Hactive & rows & Hrows & Hcells).
  destruct (Gtk.render format_bytes w shown 0 s4) as [active s5].
  cbn [fst snd] in *.
  assert (settings s2 = settings s
          ∧ Gtk.resolution_pending (Gtk.win s) ⊆ Gtk.resolution_pending (Gtk.win s2)
          ∧ Gtk.ss_calls s2 = S (Gtk.ss_calls s) ∧ Gtk.idle s2 = Gtk.idle s
          ∧ Gtk.timeouts s2 = Gtk.timeouts s ∧ Gtk.row_widgets s2 = []
          ∧ Gtk.prev_io (Gtk.win s2) = current_io)
    as (Hset2 & Hpend2 & Hss2 & Hidle2 & Htime2 & Hrows2 & Hprev2).
  { destruct Q1 as [[(_ & Hset & Hpend) (Hss & _ & Hidle & Htime)] Hrw].
    subst s2 s0. unfold settings, cycle_start in *. simpl in *.
    injection Hset as -> -> -> ->. by repeat split. }
  assert (calm s2 s5 ∧ Gtk.row_widgets s4 = []) as [C Hrows4].
  { destruct Q3 as [C3 R3], Q4 as [C4 R4]. split; [|congruence].
    etrans; [exact C3|]. by etrans. }
  destruct C as [(Hprev & Hset & Hpend) (Hss & _ & Hidle & Htime)].
  assert (∀ addr, resolved_text (Gtk.win s2) addr = resolved_text (Gtk.win s) addr)
    as Htext2 by (intros; by apply resolved_text_settings).
  assert (∀ addr, resolved_text (Gtk.win s4) addr = resolved_text (Gtk.win s) addr)
    as Htext4.
  { intros addr. rewrite <- Htext2. apply resolved_text_quiet. by etrans. }
  exists shown. simpl. split_and!.
  - rewrite Hsorted, Hfiltered.
    rewrite (list_filter_iff (gtk_shown (Gtk.win s2)) (gtk_shown (Gtk.win s)));
      [done|].
    intros c. unfold gtk_shown. by rewrite Htext2.
  - by rewrite Hprev.
  - change (settings s5 = settings s). by rewrite Hset.
  - set_solver.
  - rewrite Hrows, Hrows4. simpl.
    eapply Forall2_impl; [exact Hcells|]. intros row c. simpl.
    by rewrite Htext4.
  - by rewrite Hall, Hactive.
  - by rewrite Hss.
  - by rewrite Hidle.
  - by rewrite Htime, Htime2.
Qed.

End CycleWhole.

Lemma attached_remotes w prev lo hi connections rated :
  Forall2 (attached w prev lo hi) connections rated →
  Net.remote <$> rated = Net.remote <$> connections
  ∧ Net.pid <$> rated = Net.pid <$> connections
  ∧ Forall (λ c, 0 ≤ Gtk.get_rx_rate c ∧ 0 ≤ Gtk.get_tx_rate c) rated.
Proof.
  induction 1 as [|c c' cs cs' Hc _ (IH1 & IH2 & IH3)]; [done|].
  apply attached_remote in Hc as (Hr & Hp & ? & ?). csimpl.
  rewrite Hr, Hp, IH1, IH2. split_and!; try done. by constructor.
Qed.

(** The window clamps where the terminal program does not: every
    connection leaves the sampling loop with its rates attached as
    [max(0, current - previous)] for a process sampled before, (0, 0)
    otherwise; so no rate is negative. *)
Lemma gtk_rates_clamped (w : Net.world) (s : Gtk.sys) :
  (∃ hi, Forall2 (attached w (Gtk.prev_io (Gtk.win s)) (Gtk.opened s) hi)
           (Net.ss w (Gtk.ss_calls s)) (sampled w s).1)
  ∧ Forall (λ c, 0 ≤ Gtk.get_rx_rate c ∧ 0 ≤ Gtk.get_tx_rate c) (sampled w s).1.
Proof.
  destruct (sampled_run w s) as (hi & Hall & _).
  split; [by exists hi|]. by apply attached_remotes in Hall as (_ & _ & ?).
Qed.

(** The window on a first and a second sample: no baseline, then the
    difference; and on a counter that wrapped: 0. *)
Example gtk_rates_two_samples :
  let first := Gtk.update_connections Sample.no_format Sample.world_download Gtk.init in
  let rates s := (λ c, (Net.rx_rate c, Net.tx_rate c)) <$> (sampled Sample.world_download s).1 in
  rates Gtk.init = [(Some 0, Some 0)]
  ∧ rates first.2 = [(Some 1024, Some 0)].
Proof. split; vm_compute; reflexivity. Qed.

Example gtk_rate_after_wrap :
  let first := Gtk.update_connections Sample.no_format Sample.world_wrap Gtk.init in
  Gtk.prev_io (Gtk.win first.2) !! "100" = Some {| Net.rx := 2 ^ 32 - 10; Net.tx := 0 |}
  ∧ (λ c, (Net.rx_rate c, Net.tx_rate c)) <$> (sampled Sample.world_wrap first.2).1
    = [(Some 0, Some 0)].
Proof. split; vm_compute; reflexivity. Qed.

(** The window rebuilds where the terminal program does not: after a
    cycle, [prev_io] holds exactly the pids of the connections of
    that cycle. *)
Lemma gtk_prev_io_rebuilt (format_bytes : Z → string) (w : Net.world) (s : Gtk.sys) :
  dom (Gtk.prev_io (Gtk.win (Gtk.update_connections format_bytes w s).2))
  = sampled_pids (Net.ss w (Gtk.ss_calls s)).
Proof.
  destruct (update_connections_run format_bytes w s) as (shown & _ & -> & _).
  by destruct (sampled_run w s) as (hi & _ & ->).
Qed.

(** C7.  Whatever the connections, the sort column and the direction:
    the window keeps exactly the connections whose remote endpoint does
    not resolve to "LOCALHOST", sorting only rearranges those, none of
    them resolves to "LOCALHOST" when the rows are drawn, and no row of a
    cycle shows "LOCALHOST" as its destination; the terminal program
    prints no row whose remote endpoint resolves to "LOCALHOST". *)
Theorem localhost_rows_never_shown (format_bytes : Z → string) (w : Net.world)
    (s : Gtk.sys) (st : Cli.state) (connections : list Net.connection) :
  let filtered := Gtk.filter_localhost connections s in
  let sorted := Gtk.sort_connections format_bytes w filtered.1 filtered.2 in
  filtered.1 = filter (gtk_shown (Gtk.win s)) connections
  ∧ sorted.1 ≡ₚ filtered.1
  ∧ Forall (λ conn,
       (Gtk.resolve_address (Net.remote conn) sorted.2).1 ≠ "LOCALHOST") sorted.1
  ∧ Forall (λ row, row !! 3%nat ≠ Some "LOCALHOST")
      (Gtk.row_widgets (Gtk.update_connections format_bytes w s).2)
  ∧ Forall (λ r, Cli.resolve_address (Net.remote (Cli.row_conn r)) ≠ "LOCALHOST")
      (Cli.rows (Cli.cycle w st).1).
Proof.
  cbv zeta.
  destruct (filter_localhost_run connections s) as [Q1 Hfiltered].
  destruct (Gtk.filter_localhost connections s) as [filtered s1].
  cbn [fst snd] in *.
  destruct (sort_connections_run format_bytes w filtered s1) as [Q2 Hsorted].
  destruct (Gtk.sort_connections format_bytes w filtered s1) as [sorted s2].
  cbn [fst snd] in *. split_and!; [done|done| | |].
  - rewrite Hsorted, Hfiltered. apply Forall_forall.
    intros c [Hc _]%list_elem_of_filter.
    rewrite resolve_address_text, (resolved_text_quiet s s2); [done|].
    by etrans.
  - destruct (update_connections_run format_bytes w s)
      as (shown & Hshown & _ & _ & _ & Hcells & _).
    assert (Forall (gtk_shown (Gtk.win s)) shown) as Hok.
    { rewrite Hshown. apply Forall_forall.
      by intros c [Hc _]%list_elem_of_filter. }
    eapply Forall2_Forall_l; [exact Hcells|].
    eapply Forall_impl; [exact Hok|]. intros c Hc row Hrow.
    rewrite Hrow. intros [= Heq]. by apply truncate_localhost in Heq.
  - destruct (cli_cycle_screen w st) as [Hrows _].
    apply Forall_forall. intros r Hr.
    assert (Cli.row_conn r ∈ Cli.row_conn <$> Cli.rows (Cli.cycle w st).1) as Hin
      by (by apply list_elem_of_fmap_2).
    rewrite Hrows in Hin. by apply list_elem_of_filter in Hin as [? _].
Qed.


(** A busy process on the loopback address, second sample: one
    connection in total, no row, none active, in both programs. *)
Example summary_counts_loopback :
  let s1 := (Gtk.update_connections Sample.no_format Sample.world_loopback Gtk.init).2 in
  let s2 := (Gtk.update_connections Sample.no_format Sample.world_loopback s1).2 in
  let st1 := (Cli.cycle Sample.world_loopback Cli.start).2 in
  let screen2 := (Cli.cycle Sample.world_loopback st1).1 in
  (Gtk.get_rx_rate <$> (sampled Sample.world_loopback s1).1) = [4096]
  ∧ Gtk.status s2 = Gtk.Summary 1 0
  ∧ Gtk.row_widgets s2 = []
  ∧ Cli.summary screen2 = Some (1%nat, 0%nat)
  ∧ Cli.rows screen2 = [].
Proof. split_and!; vm_compute; reflexivity. Qed.

(** ** Completions and the toggle *)

(** What the completion handler does: it writes the cache and runs a
    cycle; unless the full address itself is a member of the pending set,
    it removes nothing from that set. *)
Lemma update_resolution_cache_run (format_bytes : Z → string) (w : Net.world)
    (addr resolved : string) (s : Gtk.sys) :
  let s' := (Gtk.update_resolution_cache format_bytes w addr resolved s).2 in
  Gtk.resolution_cache (Gtk.win s') = <[addr := resolved]> (Gtk.resolution_cache (Gtk.win s))
  ∧ Gtk.ss_calls s' = S (Gtk.ss_calls s)
  ∧ (addr ∉ Gtk.resolution_pending (Gtk.win s) →
     Gtk.resolution_pending (Gtk.win s) ⊆ Gtk.resolution_pending (Gtk.win s')).
Proof.
  cbv zeta.
  unfold Gtk.update_resolution_cache, mbind, Gtk.M_bind, Gtk.get_win, mret,
    Gtk.M_ret.
  destruct (Gtk.modify_win
              (λ self, Gtk.set_cache (<[addr:=resolved]> (Gtk.resolution_cache self)) self) s)
    as [[] s1] eqn:Hs1.
  assert (Gtk.resolution_cache (Gtk.win s1)
          = <[addr:=resolved]> (Gtk.resolution_cache (Gtk.win s))
          ∧ Gtk.resolution_pending (Gtk.win s1) = Gtk.resolution_pending (Gtk.win s)
          ∧ Gtk.ss_calls s1 = Gtk.ss_calls s) as (Hc1 & Hp1 & Hss1).
  { unfold Gtk.modify_win in Hs1. by injection Hs1 as <-. }
  clear Hs1.
  destruct (bool_decide (addr ∈ Gtk.resolution_pending (Gtk.win s1))) eqn:Hin.
  - apply bool_decide_eq_true in Hin. rewrite Hp1 in Hin.
    destruct (Gtk.modify_win _ s1) as [[] s2] eqn:Hs2.
    assert (Gtk.resolution_cache (Gtk.win s2) = Gtk.resolution_cache (Gtk.win s1)
            ∧ Gtk.ss_calls s2 = Gtk.ss_calls s1) as (Hc2 & Hss2).
    { unfold Gtk.modify_win in Hs2. by injection Hs2 as <-. }
    destruct (update_connections_run format_bytes w s2)
      as (_ & _ & _ & Hset & _ & _ & _ & Hss & _).
    unfold settings in Hset. injection Hset as _ _ _ Hcache.
    split_and!; [by rewrite Hcache, Hc2|by rewrite Hss, Hss2, Hss1|done].
  - destruct (update_connections_run format_bytes w s1)
      as (_ & _ & _ & Hset & Hpend & _ & _ & Hss & _).
    unfold settings in Hset. injection Hset as _ _ _ Hcache.
    split_and!; [by rewrite Hcache|by rewrite Hss, Hss1|].
    intros _. by rewrite <- Hp1.
Qed.

(** C3 at its failing input.  A first cycle on a connection to
    93.184.216.34:443 starts the lookup of 93.184.216.34 and marks it
    pending.  When that lookup completes, the handler writes the cache
    and runs a cycle, which shows the resolved name; but it tests the full
    address, not the IP component, against the pending set, and the IP
    component stays pending. *)
Theorem completion_leaves_ip_pending :
  let w := Sample.world_reset in
  let s1 := (Gtk.update_connections Sample.no_format w Gtk.init).2 in
  let s2 := (Gtk.update_resolution_cache Sample.no_format w
               "93.184.216.34:443" "example.com:443" s1).2 in
  ("93.184.216.34", "93.184.216.34:443") ∈ Gtk.started s1
  ∧ "93.184.216.34" ∈ Gtk.resolution_pending (Gtk.win s1)
  ∧ Gtk.resolution_cache (Gtk.win s2) !! "93.184.216.34:443" = Some "example.com:443"
  ∧ (λ row, row !! 3%nat) <$> Gtk.row_widgets s2 = [Some "example.com:443"]
  ∧ "93.184.216.34" ∈ Gtk.resolution_pending (Gtk.win s2).
Proof.
  cbv zeta. split_and!.
  - apply (bool_decide_unpack _). by vm_compute.
  - apply (bool_decide_unpack _). by vm_compute.
  - by vm_compute.
  - by vm_compute.
  - apply (bool_decide_unpack _). by vm_compute.
Qed.

(** C4, as amended.  Enabling resolution leaves the cache, the pending
    set and [prev_io] as they are, starts no lookup and samples nothing
    during the call; but the call hands [delayed_refresh] to the main
    loop, and that callback empties [prev_io] and runs a cycle. *)
Theorem enable_schedules_refresh (format_bytes : Z → string) (w : Net.world)
    (s : Gtk.sys) :
  let s' := (Gtk.on_resolve_toggled true s).2 in
  Gtk.win s' = Gtk.set_resolve_hosts true (Gtk.win s)
  ∧ Gtk.resolution_cache (Gtk.win s') = Gtk.resolution_cache (Gtk.win s)
  ∧ Gtk.resolution_pending (Gtk.win s') = Gtk.resolution_pending (Gtk.win s)
  ∧ Gtk.prev_io (Gtk.win s') = Gtk.prev_io (Gtk.win s)
  ∧ Gtk.started s' = Gtk.started s
  ∧ Gtk.ss_calls s' = Gtk.ss_calls s
  ∧ Gtk.row_widgets s' = Gtk.row_widgets s
  ∧ Gtk.timeouts s' = Gtk.timeouts s
  ∧ Gtk.idle s' = Gtk.idle s ++ [Gtk.delayed_refresh_cb]
  ∧ Gtk.run format_bytes w Gtk.delayed_refresh_cb s'
    = (tt, (Gtk.update_connections format_bytes w
              (Gtk.modify_win (Gtk.set_prev_io ∅) s').2).2).
Proof.
  cbv zeta. split_and!; try reflexivity.
  unfold Gtk.run, Gtk.delayed_refresh, mbind, Gtk.M_bind.
  set (s' := (Gtk.on_resolve_toggled true s).2).
  change (Gtk.modify_win (Gtk.set_prev_io ∅) s')
    with (tt, (Gtk.modify_win (Gtk.set_prev_io ∅) s').2).
  cbv beta iota.
  by destruct (Gtk.update_connections format_bytes w _) as [[] s''].
Qed.

(** C4, as stated, fails: after a first cycle, enabling resolution puts
    [delayed_refresh] on the idle queue of the main loop, which was
    empty; a refresh is triggered by the call.  Once it has run, the
    counters map kept from the first cycle is gone: the second sample of
    process 100 is taken against no baseline. *)
Lemma enable_triggers_refresh :
  let w := Sample.world_reset in
  let s1 := (Gtk.update_connections Sample.no_format w Gtk.init).2 in
  let s2 := (Gtk.on_resolve_toggled true s1).2 in
  let s3 := (Gtk.run Sample.no_format w Gtk.delayed_refresh_cb s2).2 in
  Gtk.idle s1 = []
  ∧ Gtk.idle s2 = [Gtk.delayed_refresh_cb]
  ∧ Gtk.idle s2 ≠ Gtk.idle s1
  ∧ Gtk.prev_io (Gtk.win s1) !! "100" = Some {| Net.rx := 1000; Net.tx := 1000 |}
  ∧ Gtk.ss_calls s3 = S (Gtk.ss_calls s2)
  ∧ Gtk.prev_io (Gtk.win s3) !! "100" = Some {| Net.rx := 5; Net.tx := 7 |}.
Proof. cbv zeta. split_and!; by vm_compute. Qed.

(** * Further properties of the code *)

(** ** Resolution switched off, cache hits, cold starts *)

(** X1.  While resolution is switched off, [resolve_address] of the
    window changes nothing (no lookup, no pending mark) and answers
    exactly as the [resolve_address] of the terminal program: the special
    forms by their names, any other endpoint raw. *)
Theorem resolve_while_disabled (s : Gtk.sys) (addr : string) :
  Gtk.resolve_hosts (Gtk.win s) = false →
  Gtk.resolve_address addr s = (Cli.resolve_address addr, s).
Proof.
  intros Hoff. rewrite resolve_address_run.
  unfold starts_lookup, resolved_text, Cli.resolve_address. rewrite Hoff.
  rewrite andb_false_r. simpl.
  by repeat (destruct (_ || _) || destruct (Py.startswith _ _)).
Qed.

Lemma resolve_while_disabled_witness :
  Gtk.resolve_address "93.184.216.34:443" Sample.disabled
  = (Cli.resolve_address "93.184.216.34:443", Sample.disabled).
Proof. apply (resolve_while_disabled Sample.disabled). reflexivity. Defined.

Lemma modify_win_then (f : Gtk.window → Gtk.window) {A} (k : Gtk.M A) s :
  (Gtk.modify_win f;; k) s = k (Gtk.modify_win f s).2.
Proof. done. Qed.

Section Handlers.
Variable format_bytes : Z → string.
Variable w : Net.world.

(** The completion handler is a cycle run on a window that differs in
    its cache and, at most, its pending set. *)
Lemma update_resolution_cache_unfold addr resolved s :
  ∃ s1,
    (Gtk.update_resolution_cache format_bytes w addr resolved s).2
    = (Gtk.update_connections format_bytes w s1).2
    ∧ settings s1
      = (Gtk.sort_column (Gtk.win s), Gtk.sort_ascending (Gtk.win s),
         Gtk.resolve_hosts (Gtk.win s),
         <[addr:=resolved]> (Gtk.resolution_cache (Gtk.win s)))
    ∧ Gtk.idle s1 = Gtk.idle s
    ∧ Gtk.timeouts s1 = Gtk.timeouts s.
Proof.
  unfold Gtk.update_resolution_cache, mbind, Gtk.M_bind, mret, Gtk.M_ret,
    Gtk.get_win, Gtk.modify_win.
  cbv beta iota. cbn [Gtk.win Gtk.set_cache Gtk.resolution_pending].
  destruct (bool_decide _); eexists; (split; [reflexivity|done]).
Qed.

(** The whole effect of the completion handler outside the grid. *)
Lemma update_resolution_cache_frame addr resolved s :
  let s' := (Gtk.update_resolution_cache format_bytes w addr resolved s).2 in
  Gtk.resolve_hosts (Gtk.win s') = Gtk.resolve_hosts (Gtk.win s)
  ∧ Gtk.sort_column (Gtk.win s') = Gtk.sort_column (Gtk.win s)
  ∧ Gtk.sort_ascending (Gtk.win s') = Gtk.sort_ascending (Gtk.win s)
  ∧ Gtk.idle s' = Gtk.idle s
  ∧ Gtk.timeouts s' = Gtk.timeouts s ++ [Gtk.update_connections_cb].
Proof.
  cbv zeta.
  destruct (update_resolution_cache_unfold addr resolved s)
    as (s1 & -> & Hset1 & Hidle1 & Htime1).
  destruct (update_connections_run format_bytes w s1)
    as (_ & _ & _ & Hset & _ & _ & _ & _ & Hidle & Htime).
  rewrite Hset1 in Hset. unfold settings in Hset.
  injection Hset as Hcol Hasc Hhosts _.
  by rewrite Hhosts, Hcol, Hasc, Hidle, Htime, Hidle1, Htime1.
Qed.

(** X2.  Once a lookup has completed, the value it delivered is what
    [resolve_address] returns for that endpoint, with no further lookup:
    a failed lookup, which delivers the raw endpoint, is not retried. *)
Theorem completion_then_resolve (s : Gtk.sys) (addr resolved : string) :
  special_address addr = false →
  Gtk.resolve_hosts (Gtk.win s) = true →
  let s' := (Gtk.update_resolution_cache format_bytes w addr resolved s).2 in
  Gtk.resolve_address addr s' = (resolved, s').
Proof.
  intros Hspecial Hon. cbv zeta.
  destruct (update_resolution_cache_run format_bytes w addr resolved s)
    as (Hcache & _ & _).
  destruct (update_resolution_cache_frame addr resolved s) as (Hhosts & _).
  rewrite resolve_address_run.
  unfold starts_lookup, resolved_text. rewrite Hhosts, Hon, Hcache.
  rewrite lookup_insert_eq.
  rewrite (bool_decide_eq_false_2 (_ = None)) by done.
  unfold special_address in Hspecial.
  repeat (apply orb_false_elim in Hspecial as [Hspecial ?]).
  repeat match goal with H : _ = false |- _ => rewrite H; clear H end.
  by rewrite andb_false_r.
Qed.

Lemma on_header_clicked_unfold column_index s :
  ∃ s1,
    (Gtk.on_header_clicked format_bytes w column_index s).2
    = (Gtk.update_connections format_bytes w s1).2
    ∧ settings s1
      = (column_index,
         if (Gtk.sort_column (Gtk.win s) =? column_index)%nat
         then negb (Gtk.sort_ascending (Gtk.win s)) else true,
         Gtk.resolve_hosts (Gtk.win s), Gtk.resolution_cache (Gtk.win s))
    ∧ Gtk.idle s1 = Gtk.idle s
    ∧ Gtk.timeouts s1 = Gtk.timeouts s.
Proof.
  unfold Gtk.on_header_clicked, mbind, Gtk.M_bind, Gtk.get_win, Gtk.modify_win.
  cbv beta iota.
  destruct (Nat.eqb_spec (Gtk.sort_column (Gtk.win s)) column_index) as [Heq|Hne];
    eexists; (split; [reflexivity|]); unfold settings; simpl;
    by rewrite ?Heq.
Qed.

(** X3.  A click on a header selects that column; it flips the direction
    when the column was already selected and sets it to ascending
    otherwise; the toggle and the cache are untouched.  A second click on
    the same header flips the direction again. *)
Theorem header_click (s : Gtk.sys) (column_index : nat) :
  let s1 := (Gtk.on_header_clicked format_bytes w column_index s).2 in
  let s2 := (Gtk.on_header_clicked format_bytes w column_index s1).2 in
  Gtk.sort_column (Gtk.win s1) = column_index
  ∧ Gtk.sort_ascending (Gtk.win s1)
    = (if (Gtk.sort_column (Gtk.win s) =? column_index)%nat
       then negb (Gtk.sort_ascending (Gtk.win s)) else true)
  ∧ Gtk.resolve_hosts (Gtk.win s1) = Gtk.resolve_hosts (Gtk.win s)
  ∧ Gtk.resolution_cache (Gtk.win s1) = Gtk.resolution_cache (Gtk.win s)
  ∧ Gtk.sort_column (Gtk.win s2) = column_index
  ∧ Gtk.sort_ascending (Gtk.win s2) = negb (Gtk.sort_ascending (Gtk.win s1)).
Proof.
  assert (∀ s, settings (Gtk.on_header_clicked format_bytes w column_index s).2
               = (column_index,
                  if (Gtk.sort_column (Gtk.win s) =? column_index)%nat
                  then negb (Gtk.sort_ascending (Gtk.win s)) else true,
                  Gtk.resolve_hosts (Gtk.win s), Gtk.resolution_cache (Gtk.win s)))
    as Hclick.
  { clear s. intros s.
    destruct (on_header_clicked_unfold column_index s) as (s1 & -> & <- & _).
    by destruct (update_connections_run format_bytes w s1)
      as (_ & _ & _ & Hset & _). }
  cbv zeta. pose proof (Hclick s) as H1.
  pose proof (Hclick (Gtk.on_header_clicked format_bytes w column_index s).2) as H2.
  unfold settings in H1, H2.
  injection H1 as Hc1 Ha1 Hh1 Hk1. injection H2 as Hc2 Ha2 _ _.
  split_and!; try done. by rewrite Ha2, Hc1, Nat.eqb_refl.
Qed.

End Handlers.

Lemma completion_then_resolve_witness :
  let s' := (Gtk.update_resolution_cache Sample.no_format Sample.world_reset
               "93.184.216.34:443" "example.org:443" Gtk.init).2 in
  Gtk.resolve_address "93.184.216.34:443" s' = ("example.org:443", s').
Proof.
  apply (completion_then_resolve Sample.no_format Sample.world_reset Gtk.init);
    reflexivity.
Defined.

(** X4.  Switching resolution off and on again forgets every resolved
    name and every pending mark, and queues one delayed refresh per
    switch; so the next [resolve_address] of any ordinary endpoint starts
    a lookup, even for an IP whose earlier lookup has not come back. *)
Theorem reenable_starts_cold (s : Gtk.sys) (addr : string) :
  special_address addr = false →
  Py.contains ":" addr = true →
  let s' := (Gtk.on_resolve_toggled true (Gtk.on_resolve_toggled false s).2).2 in
  Gtk.resolution_cache (Gtk.win s') = ∅
  ∧ Gtk.resolution_pending (Gtk.win s') = ∅
  ∧ Gtk.resolve_hosts (Gtk.win s') = true
  ∧ Gtk.idle s' = Gtk.idle s ++ [Gtk.delayed_refresh_cb; Gtk.delayed_refresh_cb]
  ∧ Gtk.started s' = Gtk.started s
  ∧ Gtk.started (Gtk.resolve_address addr s').2
    = Gtk.started s ++ [(Gtk.ip_part_of addr, addr)].
Proof.
  intros Hspecial Hcolon. cbv zeta. split_and!; try reflexivity.
  - simpl. by rewrite <- app_assoc.
  - rewrite resolve_address_run. unfold starts_lookup.
    rewrite Hspecial, Hcolon. simpl.
    rewrite bool_decide_eq_true_2 by apply lookup_empty.
    rewrite bool_decide_eq_false_2 by apply not_elem_of_empty. done.
Qed.

Lemma reenable_starts_cold_witness :
  let s := (Gtk.update_connections Sample.no_format Sample.world_reset Gtk.init).2 in
  let s' := (Gtk.on_resolve_toggled true (Gtk.on_resolve_toggled false s).2).2 in
  Gtk.resolution_cache (Gtk.win s') = ∅
  ∧ Gtk.resolution_pending (Gtk.win s') = ∅
  ∧ Gtk.resolve_hosts (Gtk.win s') = true
  ∧ Gtk.idle s' = Gtk.idle s ++ [Gtk.delayed_refresh_cb; Gtk.delayed_refresh_cb]
  ∧ Gtk.started s' = Gtk.started s
  ∧ Gtk.started (Gtk.resolve_address "93.184.216.34:443" s').2
    = Gtk.started s
      ++ [(Gtk.ip_part_of "93.184.216.34:443", "93.184.216.34:443")].
Proof.
  apply (reenable_starts_cold
           (Gtk.update_connections Sample.no_format Sample.world_reset Gtk.init).2
           "93.184.216.34:443"); reflexivity.
Defined.

(** ** Refreshes and timers *)

Lemma sampled_no_baseline (w : Net.world) (s : Gtk.sys) :
  Gtk.prev_io (Gtk.win s) = ∅ →
  Forall (λ c, Net.rx_rate c = Some 0 ∧ Net.tx_rate c = Some 0) (sampled w s).1.
Proof.
  intros Hprev. destruct (sampled_run w s) as (hi & Hall & _).
  rewrite Hprev in Hall. eapply Forall2_Forall_r; [exact Hall|].
  apply Forall_true. intros c c'. unfold attached.
  destruct (String.eqb _ _); [by intros ->|].
  intros (n & _ & ->). by rewrite lookup_empty.
Qed.

Lemma no_rate_no_activity (l : list Net.connection) :
  Forall (λ c, Net.rx_rate c = Some 0 ∧ Net.tx_rate c = Some 0) l →
  filter gtk_active l = [].
Proof.
  induction 1 as [|c l [Hrx Htx] _ IH]; [done|].
  rewrite filter_cons_False; [done|].
  unfold gtk_active, positive_rate, Gtk.get_rx_rate, Gtk.get_tx_rate.
  by rewrite Hrx, Htx.
Qed.

Section Refresh.
Variable format_bytes : Z → string.
Variable w : Net.world.

Lemma cycle_without_baseline s :
  Gtk.prev_io (Gtk.win s) = ∅ →
  Gtk.status (Gtk.update_connections format_bytes w s).2
  = (if (0 <? length (Net.ss w (Gtk.ss_calls s)))%nat
     then Gtk.Summary (length (Net.ss w (Gtk.ss_calls s))) 0
     else Gtk.Monitoring).
Proof.
  intros Hprev.
  destruct (update_connections_run format_bytes w s)
    as (shown & Hshown & _ & _ & _ & _ & -> & _).
  rewrite Hshown, no_rate_no_activity; [done|].
  apply Forall_forall. intros c [_ Hc]%list_elem_of_filter.
  pose proof (sampled_no_baseline w s Hprev) as Hall.
  rewrite Forall_forall in Hall. auto.
Qed.

(** X5.  A forced refresh, from the menu or after the toggle, measures
    against no baseline: the cycle it runs reports no active connection
    whatever the counters did, and leaves the counters of that cycle as
    the new baseline.  The menu entry does nothing while there is no
    window. *)
Theorem refresh_reports_no_activity (s : Gtk.sys) :
  let total := length (Net.ss w (Gtk.ss_calls s)) in
  let quiet_status :=
    if (0 <? total)%nat then Gtk.Summary total 0 else Gtk.Monitoring in
  let s' := (Gtk.run format_bytes w Gtk.delayed_refresh_cb s).2 in
  Gtk.status s' = quiet_status
  ∧ dom (Gtk.prev_io (Gtk.win s')) = sampled_pids (Net.ss w (Gtk.ss_calls s))
  ∧ Gtk.on_refresh format_bytes w (Some s) = Some s'
  ∧ Gtk.on_refresh format_bytes w None = None.
Proof.
  cbv zeta.
  assert ((Gtk.run format_bytes w Gtk.delayed_refresh_cb s).2
          = (Gtk.update_connections format_bytes w
               (Gtk.modify_win (Gtk.set_prev_io ∅) s).2).2) as Hrun.
  { unfold Gtk.run, Gtk.delayed_refresh, mbind, Gtk.M_bind, mret, Gtk.M_ret.
    destruct (Gtk.modify_win (Gtk.set_prev_io ∅) s) as [[] s0].
    cbn [snd]. by destruct (Gtk.update_connections format_bytes w s0) as [[] ?]. }
  rewrite Hrun. split_and!; [| |done..].
  - by rewrite cycle_without_baseline.
  - by rewrite gtk_prev_io_rebuilt.
Qed.

(** X6.  Every path into a cycle arms exactly one more timer of
    [update_connections] and none of them disarms one: the callbacks of
    the main loop and a header click each leave one more timer than they
    found, and a timer that fires is replaced by one.  The idle queue is
    not written by any of them. *)
Theorem every_cycle_arms_one_timer (s : Gtk.sys) (cb : Gtk.callback)
    (column_index : nat) :
  let armed := λ s', Gtk.timeouts s' in
  armed (Gtk.run format_bytes w cb s).2 = armed s ++ [Gtk.update_connections_cb]
  ∧ Gtk.idle (Gtk.run format_bytes w cb s).2 = Gtk.idle s
  ∧ armed (Gtk.on_header_clicked format_bytes w column_index s).2
    = armed s ++ [Gtk.update_connections_cb]
  ∧ armed (Gtk.timeout_fires format_bytes w s).2
    = match armed s with
      | [] => []
      | _ :: rest => rest ++ [Gtk.update_connections_cb]
      end
  ∧ length (armed (Gtk.timeout_fires format_bytes w s).2) = length (armed s).
Proof.
  cbv zeta.
  assert (∀ cb s, Gtk.timeouts (Gtk.run format_bytes w cb s).2
                  = Gtk.timeouts s ++ [Gtk.update_connections_cb]
                  ∧ Gtk.idle (Gtk.run format_bytes w cb s).2 = Gtk.idle s)
    as Hrun.
  { clear. intros [addr resolved| |] s; simpl.
    - by destruct (update_resolution_cache_frame format_bytes w addr resolved s)
        as (_ & _ & _ & ? & ?).
    - unfold Gtk.delayed_refresh, mbind, Gtk.M_bind, mret, Gtk.M_ret.
      destruct (update_connections_run format_bytes w
                  (Gtk.modify_win (Gtk.set_prev_io ∅) s).2)
        as (_ & _ & _ & _ & _ & _ & _ & _ & Hidle & Htime).
      destruct (Gtk.modify_win (Gtk.set_prev_io ∅) s) as [[] s0] eqn:Hs0.
      unfold Gtk.modify_win in Hs0. injection Hs0 as <-.
      by destruct (Gtk.update_connections format_bytes w _) as [[] ?].
    - by destruct (update_connections_run format_bytes w s)
        as (_ & _ & _ & _ & _ & _ & _ & _ & ? & ?). }
  assert (Gtk.timeouts (Gtk.timeout_fires format_bytes w s).2
          = match Gtk.timeouts s with
            | [] => []
            | _ :: rest => rest ++ [Gtk.update_connections_cb]
            end) as Hfire.
  { unfold Gtk.timeout_fires. destruct (Gtk.timeouts s) as [|cb' rest] eqn:Ht.
    - done.
    - by rewrite (proj1 (Hrun cb' _)). }
  split_and!.
  - apply Hrun.
  - apply Hrun.
  - destruct (on_header_clicked_unfold format_bytes w column_index s)
      as (s1 & -> & _ & _ & <-).
    by destruct (update_connections_run format_bytes w s1)
      as (_ & _ & _ & _ & _ & _ & _ & _ & _ & ?).
  - done.
  - rewrite Hfire. destruct (Gtk.timeouts s); [done|].
    rewrite length_app. simpl. lia.
Qed.

(** X7.  A row of the grid has the eight cells of the eight headers,
    each of them determined: the process cell is [program(pid)], or the
    program alone when the pid is ['N/A'], cut to 30 characters; the
    source and destination cells are the resolved local and remote
    addresses, cut to 30 characters; the protocol and state cells are
    the fields of the connection; the rate cells are the formatted
    numbers held under ['tx_rate'] and ['rx_rate'], 0 when absent; the
    path cell is ['N/A'] without a pid, and else what the [cmdline] file
    of the process gives.  One file is opened, and only with a pid. *)
Theorem row_data_shape (conn : Net.connection) (s : Gtk.sys) :
  let owned := negb (String.eqb (Net.pid conn) "N/A") in
  let prog_pid :=
    Py.truncate 30
      (if owned then Net.program conn +:+ "(" +:+ Net.pid conn +:+ ")"
       else Net.program conn) in
  let source := Py.truncate 30 (resolved_text (Gtk.win s) (Net.local conn)) in
  let destination :=
    Py.truncate 30 (resolved_text (Gtk.win s) (Net.remote conn)) in
  let path :=
    if owned
    then cmdline_text (Net.pid conn)
           (Net.proc w (Gtk.opened s) ("/proc/" +:+ Net.pid conn +:+ "/cmdline"))
    else "N/A" in
  let r := Gtk.get_row_data format_bytes w conn s in
  r.1 = [prog_pid; Net.protocol conn; source; destination; Net.state conn;
         format_bytes (default 0 (Net.tx_rate conn));
         format_bytes (default 0 (Net.rx_rate conn)); path]
  ∧ (String.length prog_pid ≤ 30)%nat
  ∧ (String.length source ≤ 30)%nat
  ∧ (String.length destination ≤ 30)%nat
  ∧ Gtk.opened r.2 = (if owned then S (Gtk.opened s) else Gtk.opened s).
Proof.
  assert (∀ x, (String.length (Py.truncate 30 x) ≤ 30)%nat) as Htrunc.
  { intros x. unfold Py.truncate.
    destruct (30 <? String.length x)%nat eqn:Hlen.
    - apply Nat.ltb_lt in Hlen. rewrite length_substring_0; lia.
    - apply Nat.ltb_ge in Hlen. done. }
  assert (∀ addr s0, Gtk.opened (if starts_lookup (Gtk.win s0) addr
                                 then with_lookup addr s0 else s0)
                     = Gtk.opened s0) as Hclock.
  { intros addr s0. by destruct (starts_lookup _ _). }
  cbv zeta. unfold Gtk.get_row_data, mbind, Gtk.M_bind, mret, Gtk.M_ret.
  rewrite (resolve_address_run (Net.local conn) s).
  set (s1 := if starts_lookup _ _ then _ else s).
  assert (extends s s1) as Hext.
  { subst s1. destruct (starts_lookup _ _); [apply with_lookup_extends|done]. }
  assert (Gtk.opened s1 = Gtk.opened s) as Hs1 by apply Hclock.
  rewrite (resolve_address_run (Net.remote conn) s1).
  rewrite (resolved_text_extends s s1) by done.
  set (s2 := if starts_lookup _ _ then _ else s1).
  assert (Gtk.opened s2 = Gtk.opened s) as Hs2.
  { subst s2. by rewrite Hclock. }
  destruct (negb (String.eqb (Net.pid conn) "N/A")).
  - unfold Gtk.get_process_path, Gtk.read_file, mbind, Gtk.M_bind, mret,
      Gtk.M_ret, cmdline_text.
    cbn [fst snd Gtk.opened]. rewrite Hs2. by split_and!.
  - cbn [fst snd]. by split_and!.
Qed.

End Refresh.

(** X8.  [get_row_color] gives no color exactly to the rates that the
    cycle does not count as active; green is for traffic both ways. *)
Theorem row_color_marks_activity (rx_rate tx_rate : Z) :
  (Gtk.get_row_color rx_rate tx_rate = None ↔ positive_rate rx_rate tx_rate = false)
  ∧ (Gtk.get_row_color rx_rate tx_rate = Some "#00AA00" ↔ 0 < rx_rate ∧ 0 < tx_rate)
  ∧ (Gtk.get_row_color rx_rate tx_rate = Some "#0066CC" ↔ 0 < rx_rate ∧ tx_rate ≤ 0)
  ∧ (Gtk.get_row_color rx_rate tx_rate = Some "#CC0000" ↔ rx_rate ≤ 0 ∧ 0 < tx_rate).
Proof.
  unfold Gtk.get_row_color, positive_rate.
  destruct (Z.ltb_spec 0 rx_rate), (Z.ltb_spec 0 tx_rate); simpl;
    split_and!; split; try done; try lia; intros [? ?]; lia.
Qed.

(** ** More on the lookup threads *)

Lemma gate_invariant p :
  Gtk.reachable p → (Gtk.permits p + Gtk.holders p = 5)%nat.
Proof.
  revert p. unfold Gtk.reachable.
  apply (rtc_ind_r (λ p, Gtk.permits p + Gtk.holders p = 5)%nat); [done|].
  intros p1 p2 _ Hstep IH. by rewrite <- (step_gate _ _ Hstep).
Qed.





(** X10.  The semaphore never leaves the lookup threads stuck: in every
    reachable state with a thread that has not finished, some thread can
    take its next step (without a new thread being started). *)
Theorem lookups_never_stuck (p : Gtk.pool) :
  Gtk.reachable p →
  Exists (λ wk, is_finished wk = false) (Gtk.workers p) →
  ∃ p', Gtk.step p p' ∧ length (Gtk.workers p') = length (Gtk.workers p).
Proof.
  intros Hreach%gate_invariant Hex.
  assert (∀ i wk, Gtk.workers p !! i = Some wk → Gtk.holds_permit wk = true →
            ∃ p', Gtk.step p p' ∧ length (Gtk.workers p') = length (Gtk.workers p))
    as Hholder.
  { intros i wk Hi Hh. unfold Gtk.holds_permit in Hh.
    destruct (Gtk.at_phase wk) as [| |resolved|] eqn:Hph; try done.
    - eexists. split; [by apply (Gtk.step_lookup p i wk None)|].
      simpl. unfold Gtk.move. by rewrite length_insert.
    - eexists. split; [by apply (Gtk.step_release p i wk resolved)|].
      simpl. unfold Gtk.move. by rewrite length_insert. }
  apply Exists_exists in Hex as (wk & Hin & Hwk).
  apply list_elem_of_lookup in Hin as [i Hi].
  unfold is_finished in Hwk.
  destruct (Gtk.at_phase wk) as [| |resolved|] eqn:Hph; try done.
  - destruct (Gtk.permits p) as [|n] eqn:Hn.
    + assert (Gtk.holders p ≠ 0)%nat as Hsome by lia.
      unfold Gtk.holders in Hsome.
      destruct (filter _ (Gtk.workers p)) as [|wk' ?] eqn:Hf; [done|].
      assert (wk' ∈ filter (λ wk, Gtk.holds_permit wk = true) (Gtk.workers p))
        as Hin' by (rewrite Hf; left).
      apply list_elem_of_filter in Hin' as [Hh Hin'].
      apply list_elem_of_lookup in Hin' as [j Hj]. eauto.
    + eexists. split; [by apply (Gtk.step_acquire p i wk n)|].
      simpl. unfold Gtk.move. by rewrite length_insert.
  - apply (Hholder i wk Hi). unfold Gtk.holds_permit. by rewrite Hph.
  - apply (Hholder i wk Hi). unfold Gtk.holds_permit. by rewrite Hph.
Qed.

Lemma lookups_never_stuck_witness :
  ∃ p', Gtk.step Sample.burst p'
        ∧ length (Gtk.workers p') = length (Gtk.workers Sample.burst).
Proof.
  apply (lookups_never_stuck Sample.burst).
  - exact burst_reachable.
  - apply Exists_cons_hd. reflexivity.
Defined.

(** ** More on the terminal program *)

Lemma cli_sampled_pids_cons c cs :
  cli_sampled_pids (c :: cs)
  = (if negb (String.eqb (Cli.resolve_address (Net.remote c)) "LOCALHOST")
        && negb (String.eqb (Net.pid c) "N/A")
     then {[Net.pid c]} else ∅) ∪ cli_sampled_pids cs.
Proof.
  unfold cli_sampled_pids, cli_shown. rewrite filter_cons.
  destruct (String.eqb_spec (Cli.resolve_address (Net.remote c)) "LOCALHOST")
    as [He|Hne].
  - rewrite decide_False by (by intros []). simpl.
    by rewrite (left_id_L ∅ (∪)).
  - rewrite decide_True by done. rewrite fmap_cons, filter_cons. simpl.
    destruct (String.eqb_spec (Net.pid c) "N/A") as [Hp|Hp]; simpl.
    + rewrite decide_False by (by intros []). by rewrite (left_id_L ∅ (∪)).
    + by rewrite decide_True.
Qed.

Lemma cli_visit_prev_io w st conn :
  dom (Cli.prev_io (Cli.visit w st conn))
  = dom (Cli.prev_io st)
    ∪ (if negb (String.eqb (Cli.resolve_address (Net.remote conn)) "LOCALHOST")
          && negb (String.eqb (Net.pid conn) "N/A")
       then {[Net.pid conn]} else ∅).
Proof.
  unfold Cli.visit.
  destruct (String.eqb (Cli.resolve_address (Net.remote conn)) "LOCALHOST");
    simpl; [by rewrite (right_id_L ∅ (∪))|].
  destruct (String.eqb (Net.pid conn) "N/A"); simpl;
    [by rewrite (right_id_L ∅ (∪))|].
  destruct (ProcIO.get_process_io _ _), (Cli.prev_io st !! _); simpl;
    rewrite dom_insert_L; apply (comm_L (∪)).
Qed.

Lemma cli_loop_prev_io w connections : ∀ st,
  dom (Cli.prev_io (foldl (Cli.visit w) st connections))
  = dom (Cli.prev_io st) ∪ cli_sampled_pids connections.
Proof.
  induction connections as [|conn connections IH]; intros st; simpl.
  - unfold cli_sampled_pids. simpl. by rewrite (right_id_L ∅ (∪)).
  - by rewrite IH, cli_visit_prev_io, cli_sampled_pids_cons, <- (assoc_L (∪)).
Qed.

(** X11.  The terminal program only ever adds to [prev_io]: after a pass
    its keys are the keys it had plus the pids of the connections shown
    in that pass.  No pass removes a key, and the pid of a connection to
    the loopback address is not sampled. *)
Theorem cli_prev_io_grows (w : Net.world) (st : Cli.state) :
  dom (Cli.prev_io (Cli.cycle w st).2)
  = dom (Cli.prev_io st) ∪ cli_sampled_pids (Net.ss w (Cli.ss_calls st)).
Proof.
  unfold Cli.cycle.
  destruct (Net.ss w (Cli.ss_calls st)) as [|conn connections] eqn:Hss.
  - simpl. unfold cli_sampled_pids. simpl. by rewrite (right_id_L ∅ (∪)).
  - cbn [snd]. by rewrite cli_loop_prev_io.
Qed.

(** X12.  Within one pass of the terminal program, the second shown
    connection of a process is measured against the sample taken for the
    first one in that same pass, whatever the previous pass left. *)
Theorem cli_same_pid_in_one_pass (w : Net.world) (st : Cli.state)
    (c1 c2 : Net.connection) :
  cli_shown c1 → cli_shown c2 →
  Net.pid c1 ≠ "N/A" → Net.pid c2 = Net.pid c1 →
  let first := ProcIO.get_process_io (Net.proc w (Cli.opened st)) (Net.pid c1) in
  let second := ProcIO.get_process_io (Net.proc w (S (Cli.opened st))) (Net.pid c1) in
  ∃ row1,
    Cli.printed (Cli.visit w (Cli.visit w st c1) c2)
    = Cli.printed st
      ++ [row1; {| Cli.row_conn := c2; Cli.row_rx := second.1 - first.1;
                   Cli.row_tx := second.2 - first.2 |}].
Proof.
  intros Hs1 Hs2 Hp1 Hp2. cbv zeta. unfold cli_shown in *.
  apply String.eqb_neq in Hs1, Hs2, Hp1.
  unfold Cli.visit at 2. rewrite Hs1, Hp1. simpl negb. cbv iota.
  destruct (ProcIO.get_process_io (Net.proc w (Cli.opened st)) (Net.pid c1))
    as [r1 t1] eqn:Hio1.
  set (rates := match Cli.prev_io st !! Net.pid c1 with
                | Some p => _ | None => _ end).
  destruct rates as [rx1 tx1]. cbv beta iota.
  unfold Cli.visit. rewrite Hs2, Hp2, Hp1. simpl.
  destruct (ProcIO.get_process_io (Net.proc w (S (Cli.opened st))) (Net.pid c1))
    as [r2 t2] eqn:Hio2.
  rewrite lookup_insert_eq. simpl. eexists. by rewrite <- app_assoc.
Qed.

Lemma cli_same_pid_in_one_pass_witness :
  let w := Sample.world_two_sockets in
  ∃ row1,
    Cli.printed (Cli.visit w (Cli.visit w Cli.start (Sample.conn "93.184.216.34:443" "100"))
                   (Sample.conn "93.184.216.34:80" "100"))
    = Cli.printed Cli.start
      ++ [row1; {| Cli.row_conn := Sample.conn "93.184.216.34:80" "100";
                   Cli.row_rx := 1500 - 1000; Cli.row_tx := 1200 - 1000 |}].
Proof.
  apply (cli_same_pid_in_one_pass Sample.world_two_sockets Cli.start
           (Sample.conn "93.184.216.34:443" "100")
           (Sample.conn "93.184.216.34:80" "100")).
  - by vm_compute.
  - by vm_compute.
  - by vm_compute.
  - reflexivity.
Defined.

(** ** More on strings *)

Lemma str_app_cons a s t : String a s +:+ t = String a (s +:+ t).
Proof. done. Qed.

Lemma str_app_nil_r s : s +:+ "" = s.
Proof. induction s as [|a s IH]; [done|]. by rewrite str_app_cons, IH. Qed.

Lemma str_app_assoc s t u : (s +:+ t) +:+ u = s +:+ (t +:+ u).
Proof. induction s as [|a s IH]; [done|]. by rewrite !str_app_cons, IH. Qed.

Lemma str_length_app s t :
  String.length (s +:+ t) = (String.length s + String.length t)%nat.
Proof. induction s as [|a s IH]; [done|]. rewrite str_app_cons. simpl. by rewrite IH. Qed.

Lemma contains_app c s t :
  Py.contains c (s +:+ t) = Py.contains c s || Py.contains c t.
Proof.
  induction s as [|a s IH]; [done|]. rewrite str_app_cons. simpl.
  by rewrite IH, orb_assoc.
Qed.

Lemma startswith_app p s : Py.startswith (p +:+ s) p = true.
Proof.
  unfold Py.startswith. induction p as [|a p IH]; [by destruct s|].
  rewrite str_app_cons. simpl. by destruct (ascii_dec a a).
Qed.

Lemma rev_app_app s : ∀ t u,
  String.rev_app s (t +:+ u) = String.rev_app s t +:+ u.
Proof.
  induction s as [|a s IH]; intros t u; [done|]. simpl.
  by rewrite <- IH, str_app_cons.
Qed.

Lemma rev_cons a s : String.rev (String a s) = String.rev s +:+ String a "".
Proof. unfold String.rev. simpl. by rewrite <- rev_app_app. Qed.

Lemma rev_str_app s t : String.rev (s +:+ t) = String.rev t +:+ String.rev s.
Proof.
  induction s as [|a s IH]; [by rewrite str_app_nil_r|].
  by rewrite str_app_cons, !rev_cons, IH, str_app_assoc.
Qed.

Lemma rev_rev s : String.rev (String.rev s) = s.
Proof.
  induction s as [|a s IH]; [done|].
  by rewrite rev_cons, rev_str_app, IH.
Qed.

Lemma rev_length s : String.length (String.rev s) = String.length s.
Proof.
  induction s as [|a s IH]; [done|].
  rewrite rev_cons, str_length_app, IH. simpl. lia.
Qed.

Lemma replace_length a b s : String.length (Py.replace a b s) = String.length s.
Proof. induction s as [|c s IH]; simpl; congruence. Qed.

Lemma replace_contains a b s : a ≠ b → Py.contains a (Py.replace a b s) = false.
Proof.
  intros Hne. induction s as [|c s IH]; [done|]. simpl. rewrite IH, orb_false_r.
  destruct (Ascii.eqb_spec c a) as [->|Hc].
  - by apply Ascii.eqb_neq.
  - by apply Ascii.eqb_neq.
Qed.

Lemma rcut_None sep s : Py.contains sep s = false → Py.rcut sep s = None.
Proof.
  induction s as [|c s IH]; [done|]. simpl.
  intros [Hc Hs]%orb_false_elim. by rewrite IH, Hc.
Qed.

Lemma rcut_app sep a b :
  Py.contains sep b = false →
  Py.rcut sep (a +:+ String sep b) = Some (a, b).
Proof.
  intros Hb. induction a as [|c a IH].
  - change ("" +:+ String sep b) with (String sep b). simpl.
    by rewrite rcut_None, Ascii.eqb_refl.
  - rewrite str_app_cons. simpl. by rewrite IH.
Qed.

Lemma rcut_length sep s a b :
  Py.rcut sep s = Some (a, b) →
  String.length s = (String.length a + 1 + String.length b)%nat.
Proof.
  revert a b. induction s as [|c s IH]; intros a b; [done|]. simpl.
  destruct (Py.rcut sep s) as [[a' b']|].
  - intros [= <- <-]. rewrite (IH a' b'); [|done]. simpl. lia.
  - destruct (Ascii.eqb c sep); [|done]. intros [= <- <-]. simpl. lia.
Qed.

Lemma rcut_Some sep s :
  Py.contains sep s = true → is_Some (Py.rcut sep s).
Proof.
  induction s as [|c s IH]; [done|]. simpl.
  destruct (Py.rcut sep s) as [[a b]|]; [by eexists|].
  destruct (Ascii.eqb c sep); [by eexists|]. simpl. intros H.
  by destruct (IH H).
Qed.

Lemma slice_1_m1_length s : (String.length (Py.slice_1_m1 s) ≤ String.length s)%nat.
Proof.
  destruct s as [|c s]; [done|]. simpl. rewrite rev_length.
  pose proof (rev_length s) as Hrev.
  destruct (String.rev s) as [|d r]; simpl in *; lia.
Qed.

Lemma slice_1_m1_brackets a b x : Py.slice_1_m1 (String a (x +:+ String b "")) = x.
Proof.
  simpl. rewrite rev_str_app. change (String.rev (String b "")) with (String b "").
  rewrite str_app_cons. change ("" +:+ String.rev x) with (String.rev x).
  apply rev_rev.
Qed.

(** ** The IP component and the resolved name *)

Lemma ip_part_of_shorter addr :
  Py.contains ":" addr = true →
  (String.length (Gtk.ip_part_of addr) < String.length addr)%nat.
Proof.
  intros [[a b] Hcut]%rcut_Some. unfold Gtk.ip_part_of, Py.rsplit1.
  rewrite Hcut. simpl. apply rcut_length in Hcut.
  destruct (_ && _); [pose proof (slice_1_m1_length a)|]; lia.
Qed.

(** X13.  The IP component of an endpoint is what stands before its
    last colon, without the brackets of an IPv6 address: "ip:port" gives
    "ip" and "[ip]:port" gives "ip", whatever the port. *)
Theorem ip_part_of_endpoint (ip port : string) :
  Py.contains ":" port = false →
  (Py.startswith ip "[" && Py.endswith ip "]" = false →
   Gtk.ip_part_of (ip +:+ ":" +:+ port) = ip)
  ∧ Gtk.ip_part_of ("[" +:+ ip +:+ "]:" +:+ port) = ip.
Proof.
  intros Hport. split.
  - intros Hplain. unfold Gtk.ip_part_of, Py.rsplit1.
    change (":" +:+ port) with (String ":" port).
    rewrite rcut_app by done. simpl. by rewrite Hplain.
  - unfold Gtk.ip_part_of, Py.rsplit1.
    change ("[" +:+ ip +:+ "]:" +:+ port)
      with (String "[" (ip +:+ String "]" (String ":" port))).
    replace (String "[" (ip +:+ String "]" (String ":" port)))
      with ((String "[" (ip +:+ String "]" "")) +:+ String ":" port).
    2:{ rewrite str_app_cons, str_app_assoc. done. }
    rewrite rcut_app by done. simpl head. simpl default.
    assert (Py.startswith (String "[" (ip +:+ String "]" "")) "[" = true) as ->.
    { unfold Py.startswith. simpl. by destruct (ip +:+ String "]" ""). }
    assert (Py.endswith (String "[" (ip +:+ String "]" "")) "]" = true) as ->.
    { unfold Py.endswith.
      change (String "[" (ip +:+ String "]" ""))
        with (String "[" ip +:+ String "]" "").
      rewrite rev_str_app. change (String.rev (String "]" "")) with (String "]" "").
      apply (startswith_app (String "]" "")). }
    simpl andb. cbv iota. apply slice_1_m1_brackets.
Qed.

Lemma ip_part_of_endpoint_witness :
  Gtk.ip_part_of ("93.184.216.34" +:+ ":" +:+ "443") = "93.184.216.34"
  ∧ Gtk.ip_part_of ("[" +:+ "2001:db8::1" +:+ "]:" +:+ "443") = "2001:db8::1".
Proof.
  split.
  - apply (ip_part_of_endpoint "93.184.216.34" "443"); reflexivity.
  - apply (ip_part_of_endpoint "2001:db8::1" "443"). reflexivity.
Defined.

(** X14.  The name a lookup thread delivers keeps the port of the
    endpoint: "host:port" when the lookup gave a host, the raw endpoint
    when it raised. *)
Theorem resolved_name_keeps_port (ip port : string) (hostname : string) :
  Py.contains ":" port = false →
  Gtk.resolved_name (Some hostname) (ip +:+ ":" +:+ port) = hostname +:+ ":" +:+ port
  ∧ Gtk.resolved_name None (ip +:+ ":" +:+ port) = ip +:+ ":" +:+ port.
Proof.
  intros Hport. split; [|done]. unfold Gtk.resolved_name, Py.rsplit1.
  change (":" +:+ port) with (String ":" port). by rewrite rcut_app.
Qed.

Lemma resolved_name_keeps_port_witness :
  Gtk.resolved_name (Some "example.com") ("93.184.216.34" +:+ ":" +:+ "443")
  = "example.com" +:+ ":" +:+ "443"
  ∧ Gtk.resolved_name None ("93.184.216.34" +:+ ":" +:+ "443")
    = "93.184.216.34" +:+ ":" +:+ "443".
Proof. apply (resolved_name_keeps_port "93.184.216.34" "443" "example.com"). reflexivity. Defined.

(** X15.  The pending set is keyed on the IP component, the cache on
    the whole endpoint, and a completion does not clear the pending
    mark: once the lookup started for one endpoint has completed, another
    endpoint on the same IP is still returned raw and still starts no
    lookup. *)
Theorem second_port_stays_raw (format_bytes : Z → string) (w : Net.world)
    (s : Gtk.sys) (addr1 addr2 resolved : string) :
  special_address addr1 = false → special_address addr2 = false →
  Py.contains ":" addr1 = true →
  Gtk.ip_part_of addr2 = Gtk.ip_part_of addr1 → addr2 ≠ addr1 →
  Gtk.resolve_hosts (Gtk.win s) = true →
  Gtk.resolution_cache (Gtk.win s) !! addr1 = None →
  Gtk.resolution_cache (Gtk.win s) !! addr2 = None →
  addr1 ∉ Gtk.resolution_pending (Gtk.win s) →
  let s1 := (Gtk.resolve_address addr1 s).2 in
  let s2 := (Gtk.update_resolution_cache format_bytes w addr1 resolved s1).2 in
  Gtk.resolve_address addr2 s2 = (addr2, s2).
Proof.
  intros Hsp1 Hsp2 Hcolon Hip Hne Hon Hc1 Hc2 Hfull. cbv zeta.
  pose proof (ip_part_of_shorter addr1 Hcolon) as Hshort.
  assert (Gtk.ip_part_of addr1 ≠ addr1) as Hipne.
  { intros Heq. rewrite Heq in Hshort. lia. }
  set (s1 := (Gtk.resolve_address addr1 s).2).
  assert (Gtk.ip_part_of addr1 ∈ Gtk.resolution_pending (Gtk.win s1)
          ∧ (addr1 ∉ Gtk.resolution_pending (Gtk.win s1))
          ∧ Gtk.resolution_cache (Gtk.win s1) = Gtk.resolution_cache (Gtk.win s)
          ∧ Gtk.resolve_hosts (Gtk.win s1) = true) as (Hin1 & Hout1 & Hk1 & Hon1).
  { subst s1. rewrite resolve_address_run. cbn [snd].
    destruct (starts_lookup (Gtk.win s) addr1) eqn:Hstart.
    - simpl. split_and!; [|intros [Heq%elem_of_singleton|?]%elem_of_union|..];
        try done.
      by apply elem_of_union_l, elem_of_singleton.
    - split_and!; try done. unfold starts_lookup in Hstart.
      rewrite Hsp1, Hon, Hcolon in Hstart.
      rewrite (bool_decide_eq_true_2 (_ = None)) in Hstart by done.
      simpl in Hstart. apply negb_false_iff in Hstart.
      by apply bool_decide_eq_true in Hstart. }
  destruct (update_resolution_cache_run format_bytes w addr1 resolved s1)
    as (Hk2 & _ & Hpend2).
  destruct (update_resolution_cache_frame format_bytes w addr1 resolved s1)
    as (Hon2 & _).
  specialize (Hpend2 Hout1).
  rewrite resolve_address_run. unfold starts_lookup, resolved_text.
  rewrite Hon2, Hon1, Hk2, Hk1, lookup_insert_ne, Hc2, Hip by done.
  rewrite (bool_decide_eq_true_2 (_ ∈ _)) by (by apply Hpend2).
  unfold special_address in Hsp2.
  repeat (apply orb_false_elim in Hsp2 as [Hsp2 ?]).
  repeat match goal with H : _ = false |- _ => rewrite H; clear H end.
  by rewrite andb_false_r.
Qed.

Lemma second_port_stays_raw_witness :
  let s1 := (Gtk.resolve_address "93.184.216.34:443" Gtk.init).2 in
  let s2 := (Gtk.update_resolution_cache Sample.no_format Sample.world_reset
               "93.184.216.34:443" "example.com:443" s1).2 in
  Gtk.resolve_address "93.184.216.34:80" s2 = ("93.184.216.34:80", s2).
Proof.
  apply (second_port_stays_raw Sample.no_format Sample.world_reset Gtk.init
           "93.184.216.34:443" "93.184.216.34:80" "example.com:443");
    try reflexivity.
  - discriminate.
  - simpl. apply not_elem_of_empty.
Defined.

(** ** The command line of a process *)

(** X16.  [get_process_path] never returns an empty text: it is "N/A"
    when the file cannot be read, "[pid]" when the command line is empty
    or blank, and otherwise the command line with every NUL replaced by a
    space, so with no NUL left.  It opens one file. *)
Theorem process_path_never_blank (w : Net.world) (pid : string) (s : Gtk.sys) :
  let r := Gtk.get_process_path w pid s in
  r.1 ≠ ""
  ∧ Gtk.opened r.2 = S (Gtk.opened s)
  ∧ (Net.proc w (Gtk.opened s) ("/proc/" +:+ pid +:+ "/cmdline") = None →
     r.1 = "N/A")
  ∧ (∀ text, Net.proc w (Gtk.opened s) ("/proc/" +:+ pid +:+ "/cmdline") = Some text →
       (Py.strip text = "" → r.1 = "[" +:+ pid +:+ "]")
       ∧ (Py.strip text ≠ "" →
          r.1 = Py.replace "000" " " (Py.strip text)
          ∧ Py.contains "000" r.1 = false
          ∧ String.length r.1 = String.length (Py.strip text))).
Proof.
  cbv zeta. unfold Gtk.get_process_path, Gtk.read_file, mbind, Gtk.M_bind,
    mret, Gtk.M_ret.
  cbn [fst snd Gtk.opened].
  destruct (Net.proc w (Gtk.opened s) ("/proc/" +:+ pid +:+ "/cmdline"))
    as [text|]; [|by split_and!].
  destruct (String.eqb_spec (Py.strip text) "") as [He|Hne].
  - split_and!; try done. intros ? [= <-]. by split.
  - split_and!; try done.
    + intros Hblank. apply Hne.
      destruct (Py.strip text); [done|discriminate].
    + intros ? [= <-]. split; [done|]. intros _.
      split_and!; [done|by apply replace_contains|apply replace_length].
Qed.

(** ** Reading the counters back *)

Lemma digit_char_plain c d :
  Py.digit c = Some d →
  Py.isspace c = false ∧ Ascii.eqb c "-" = false ∧ Ascii.eqb c "+" = false
  ∧ Ascii.eqb c "_" = false.
Proof.
  unfold Py.digit. intros (n & Hn & _)%fmap_Some. revert Hn.
  destruct c as [[] [] [] [] [] [] [] []]; try done; by intros _.
Qed.

Lemma all_digits_spaceless s : all_digits s = true → spaceless s = true.
Proof.
  induction s as [|c s IH]; [done|]. simpl.
  intros [[d Hd]%bool_decide_eq_true Hs]%andb_true_iff.
  apply digit_char_plain in Hd as (-> & _). simpl. auto.
Qed.

Lemma spaceless_app s t : spaceless (s +:+ t) = spaceless s && spaceless t.
Proof.
  induction s as [|c s IH]; [done|]. rewrite str_app_cons. simpl.
  by rewrite IH, andb_assoc.
Qed.

Lemma spaceless_rev s : spaceless (String.rev s) = spaceless s.
Proof.
  induction s as [|c s IH]; [done|].
  rewrite rev_cons, spaceless_app, IH. simpl.
  by rewrite andb_true_r, andb_comm.
Qed.

Lemma lstrip_spaceless s : spaceless s = true → Py.lstrip s = s.
Proof.
  destruct s as [|c s]; [done|]. simpl.
  intros [Hc _]%andb_true_iff. apply negb_true_iff in Hc. by rewrite Hc.
Qed.

Lemma strip_spaceless s : spaceless s = true → Py.strip s = s.
Proof.
  intros Hs. unfold Py.strip, Py.rstrip. rewrite (lstrip_spaceless s) by done.
  rewrite lstrip_spaceless by (by rewrite spaceless_rev). apply rev_rev.
Qed.

Lemma pretty_N_char_digit d :
  (d < 10)%N → Py.digit (pretty_N_char d) = Some (Z.of_N d).
Proof.
  intros Hd.
  assert (d = 0 ∨ d = 1 ∨ d = 2 ∨ d = 3 ∨ d = 4 ∨ d = 5 ∨ d = 6 ∨ d = 7
          ∨ d = 8 ∨ d = 9)%N as Hcases by lia.
  repeat (destruct Hcases as [->|Hcases]; [done|]). by subst.
Qed.

Lemma digits_pretty_go x :
  (0 < x)%N →
  ∃ m, ∀ acc b s,
    Py.digits acc b (pretty_N_go x s) = Py.digits (acc * m + Z.of_N x) true s.
Proof.
  induction (N.lt_wf_0 x) as [x _ IH]. intros Hx.
  assert (Py.digit (pretty_N_char (x `mod` 10)) = Some (Z.of_N (x `mod` 10)))
    as Hd by (apply pretty_N_char_digit, N.mod_lt; lia).
  pose proof (digit_char_plain _ _ Hd) as (_ & _ & _ & Hus).
  assert (Z.of_N x = 10 * Z.of_N (x `div` 10) + Z.of_N (x `mod` 10)) as Hdm.
  { rewrite (N.div_mod x 10) at 1 by lia.
    by rewrite N2Z.inj_add, N2Z.inj_mul. }
  revert Hd Hdm. generalize (Z.of_N (x `mod` 10)). intros r Hd Hdm.
  destruct (decide (x `div` 10 = 0)%N) as [Hz|Hnz].
  - exists 10. intros acc b s.
    rewrite pretty_N_go_step, Hz, pretty_N_go_0 by done. simpl.
    rewrite Hus, Hd. f_equal. rewrite Hz in Hdm. clear -Hdm.
    change (Z.of_N 0) with 0 in Hdm. lia.
  - destruct (IH (x `div` 10)%N) as [m Hm].
    { apply N.div_lt; lia. }
    { by apply N.neq_0_lt_0. }
    exists (10 * m). intros acc b s.
    rewrite pretty_N_go_step, Hm by done. simpl.
    rewrite Hus, Hd. f_equal. revert Hdm.
    generalize (Z.of_N (x `div` 10)) (Z.of_N x). clear. intros q z ->. lia.
Qed.

Lemma all_digits_pretty_go x : ∀ s,
  all_digits s = true → all_digits (pretty_N_go x s) = true.
Proof.
  induction (N.lt_wf_0 x) as [x _ IH]. intros s Hs.
  destruct (decide (x = 0)%N) as [->|Hx]; [done|].
  rewrite pretty_N_go_step by lia. apply IH.
  - apply N.div_lt; lia.
  - simpl. rewrite Hs, pretty_N_char_digit by (apply N.mod_lt; lia).
    by rewrite bool_decide_eq_true_2 by eauto.
Qed.

Lemma pretty_N_go_nonempty x s : (0 < x)%N → pretty_N_go x s ≠ "".
Proof.
  revert s. induction (N.lt_wf_0 x) as [x _ IH]. intros s Hx.
  rewrite pretty_N_go_step by done.
  destruct (decide (x `div` 10 = 0)%N) as [->|Hnz]; [done|].
  apply IH; [apply N.div_lt; lia|by apply N.neq_0_lt_0].
Qed.

Lemma all_digits_pretty (n : N) :
  all_digits (pretty n) = true ∧ pretty n ≠ "".
Proof.
  unfold pretty, pretty_N. destruct (decide (n = 0)%N) as [->|Hn]; [done|].
  split; [by apply all_digits_pretty_go|apply pretty_N_go_nonempty; lia].
Qed.

(** [int] reads back what a decimal print wrote. *)
Lemma int_pretty (n : N) : Py.int (pretty n) = Some (Z.of_N n).
Proof.
  destruct (all_digits_pretty n) as [Hall Hne].
  unfold Py.int. rewrite strip_spaceless by by apply all_digits_spaceless.
  destruct (pretty n) as [|c rest] eqn:Hp; [done|].
  pose proof Hall as [[d Hd]%bool_decide_eq_true _]%andb_true_iff.
  apply digit_char_plain in Hd as (_ & -> & -> & _).
  rewrite <- Hp. unfold pretty, pretty_N.
  destruct (decide (n = 0)%N) as [->|Hn]; [done|].
  destruct (digits_pretty_go n ltac:(lia)) as [m Hm]. by rewrite Hm.
Qed.

Lemma split_app sep a b :
  Py.contains sep a = false →
  Py.split sep (a +:+ String sep b) = a :: Py.split sep b.
Proof.
  induction a as [|c a IH]; intros Ha.
  - change ("" +:+ String sep b) with (String sep b). simpl.
    by rewrite Ascii.eqb_refl.
  - simpl in Ha. apply orb_false_elim in Ha as [Hc Ha].
    rewrite str_app_cons. simpl. by rewrite Hc, IH.
Qed.

Lemma split_ws_word s :
  spaceless s = true → s ≠ "" → Py.split_ws s = [s].
Proof.
  induction s as [|c s IH]; [done|]. intros Hs _.
  simpl in Hs. apply andb_true_iff in Hs as [Hc Hs]. apply negb_true_iff in Hc.
  cbn [Py.split_ws]. rewrite Hc. destruct s as [|c' s']; [done|].
  pose proof Hs as [Hc' _]%andb_true_iff. apply negb_true_iff in Hc'.
  rewrite Hc', IH by done. done.
Qed.

Lemma split_ws_two a b :
  spaceless a = true → a ≠ "" → spaceless b = true → b ≠ "" →
  Py.split_ws (a +:+ String " " b) = [a; b].
Proof.
  intros Ha Hane Hb Hbne. induction a as [|c a IH]; [done|].
  simpl in Ha. apply andb_true_iff in Ha as [Hc Ha]. apply negb_true_iff in Hc.
  rewrite str_app_cons. cbn [Py.split_ws]. rewrite Hc.
  destruct a as [|c' a'].
  - change ("" +:+ String " " b) with (String " " b).
    change (Py.isspace " ") with true. cbv iota.
    cbn [Py.split_ws]. change (Py.isspace " ") with true. cbv iota.
    by rewrite split_ws_word.
  - rewrite str_app_cons.
    pose proof Ha as [Hc' _]%andb_true_iff. apply negb_true_iff in Hc'.
    rewrite Hc'. rewrite <- str_app_cons, IH by done. done.
Qed.

Lemma counter_field (name : string) (n : N) :
  spaceless name = true → name ≠ "" →
  Py.split_ws (name +:+ String " " (pretty n)) !! 1%nat ≫= Py.int
  = Some (Z.of_N n).
Proof.
  intros Hs Hne. destruct (all_digits_pretty n) as [Hall Hp].
  rewrite split_ws_two by auto using all_digits_spaceless. simpl.
  apply int_pretty.
Qed.

Lemma no_newline_in_digits s :
  all_digits s = true → Py.contains "010" s = false.
Proof.
  induction s as [|c s IH]; [done|]. simpl.
  intros [[d Hd]%bool_decide_eq_true Hs]%andb_true_iff.
  rewrite IH, orb_false_r by done.
  unfold Py.digit in Hd. apply fmap_Some in Hd as (n & Hn & _). revert Hn.
  by destruct c as [[] [] [] [] [] [] [] []].
Qed.

Lemma pretty_N_go_length (k : nat) : ∀ x s,
  (x < 10 ^ N.of_nat k)%N →
  (String.length (pretty_N_go x s) ≤ String.length s + k)%nat.
Proof.
  induction k as [|k IH]; intros x s Hx.
  - change (10 ^ N.of_nat 0)%N with 1%N in Hx.
    assert (x = 0%N) as -> by lia. rewrite pretty_N_go_0. lia.
  - destruct (decide (x = 0)%N) as [->|Hnz]; [rewrite pretty_N_go_0; lia|].
    rewrite pretty_N_go_step by (by apply N.neq_0_lt_0).
    etrans; [apply IH|simpl; lia].
    apply N.Div0.div_lt_upper_bound.
    by rewrite Nat2N.inj_succ, N.pow_succ_r' in Hx.
Qed.

Lemma pretty_64_bits (n : N) :
  (n < 2 ^ 64)%N → (String.length (pretty n) ≤ 20)%nat.
Proof.
  intros Hn. unfold pretty, pretty_N.
  destruct (decide (n = 0)%N) as [->|_]; [simpl; lia|].
  apply (pretty_N_go_length 20 n "").
  eapply N.lt_trans; [exact Hn|]. by vm_compute.
Qed.

(** X17.  [get_process_io] reads back the counters of a file in the
    kernel's layout: for two counters of 64 bits, as the kernel holds
    them, printed in decimal on the [rchar:] and [wchar:] lines and
    followed by any lines that are not counter lines, it returns exactly
    these two numbers.  A counter of 64 bits is printed with at most 20
    digits, far below the number of digits at which [int] gives up. *)
Theorem get_process_io_reads_back (fs : ProcIO.files) (pid : string)
    (rchar wchar : N) (rest : string) :
  (rchar < 2 ^ 64)%N → (wchar < 2 ^ 64)%N →
  fs (ProcIO.io_path pid) = Some (kernel_io rchar wchar rest) →
  Forall (λ line, counter_line line = false) (Py.split "010" rest) →
  ProcIO.get_process_io fs pid = (Z.of_N rchar, Z.of_N wchar)
  ∧ (String.length (pretty rchar) ≤ 20)%nat
  ∧ (String.length (pretty wchar) ≤ 20)%nat.
Proof.
  intros Hrchar Hwchar Hfile Hrest.
  split; [|by split; apply pretty_64_bits].
  unfold ProcIO.get_process_io. rewrite Hfile.
  cbn [mbind option_bind]. unfold kernel_io.
  destruct (all_digits_pretty rchar) as [Hr _].
  destruct (all_digits_pretty wchar) as [Hw _].
  change ("rchar: " +:+ pretty rchar +:+ String "010"
            ("wchar: " +:+ pretty wchar +:+ String "010" rest))
    with (("rchar:" +:+ String " " (pretty rchar)) +:+ String "010"
            (("wchar:" +:+ String " " (pretty wchar)) +:+ String "010" rest)).
  rewrite !split_app
    by (rewrite contains_app; simpl; by rewrite no_newline_in_digits).
  cbn [ProcIO.scan].
  rewrite (startswith_app "rchar:"), (counter_field "rchar:") by done.
  cbn [mbind option_bind].
  assert (Py.startswith ("wchar:" +:+ String " " (pretty wchar)) "rchar:" = false)
    as -> by done.
  rewrite (startswith_app "wchar:"), (counter_field "wchar:") by done.
  cbn [mbind option_bind]. by rewrite scan_no_counter_line.
Qed.

Lemma get_process_io_reads_back_witness :
  ProcIO.get_process_io
    (Sample.at_path "/proc/100/io" (kernel_io 4096 512 "syscr: 12
syscw: 7
")) "100"
  = (Z.of_N 4096, Z.of_N 512)
  ∧ (String.length (pretty 4096%N) ≤ 20)%nat
  ∧ (String.length (pretty 512%N) ≤ 20)%nat.
Proof.
  apply (get_process_io_reads_back _ "100" 4096 512 "syscr: 12
syscw: 7
").
  - reflexivity.
  - reflexivity.
  - reflexivity.
  - repeat constructor.
Defined.

(** ** Reading the output of [ss] *)

Lemma token_spec s : token s = true ↔ spaceless s = true ∧ s ≠ "".
Proof.
  unfold token. rewrite andb_true_iff, bool_decide_eq_true. done.
Qed.

Lemma token_cons c w :
  Py.isspace c = false → spaceless w = true → token (String c w) = true.
Proof.
  intros Hc Hw. apply token_spec. simpl. by rewrite Hc, Hw.
Qed.

Lemma split_ws_tokens s : Forall (λ w, token w = true) (Py.split_ws s).
Proof.
  induction s as [|c s IH]; [constructor|].
  cbn [Py.split_ws]. destruct (Py.isspace c) eqn:Hc; [done|].
  destruct s as [|c' s']; [by repeat constructor; apply token_cons|].
  destruct (Py.isspace c') eqn:Hc'.
  - constructor; [by apply token_cons|done].
  - destruct (Py.split_ws (String c' s')) as [|w ws].
    + repeat constructor. by apply token_cons.
    + inversion IH as [|? ? Hw Hws]; subst. constructor; [|done].
      apply token_spec in Hw as [Hw _]. by apply token_cons.
Qed.

Lemma digit_run_digits s : all_digits (Ss.digit_run s) = true.
Proof.
  induction s as [|c s IH]; [done|]. simpl.
  case_bool_decide as Hc; [|done]. simpl.
  by rewrite bool_decide_eq_true_2, IH.
Qed.

Lemma search_pid_cons c part :
  Ss.search_pid (String c part)
  = match Ss.digit_run <$> Ss.after "pid=" (String c part) with
    | Some (String d ds) => Some (String d ds)
    | _ => Ss.search_pid part
    end.
Proof. done. Qed.

Lemma search_pid_digits part ds :
  Ss.search_pid part = Some ds → all_digits ds = true ∧ ds ≠ "".
Proof.
  induction part as [|c part IH]; [done|]. rewrite search_pid_cons.
  destruct (Ss.after "pid=" (String c part)) as [t|]; [|exact IH].
  cbn [fmap option_fmap option_map]. pose proof (digit_run_digits t) as Ht.
  destruct (Ss.digit_run t) as [|d r]; [exact IH|].
  by intros [= <-].
Qed.

Lemma quoted_run_spaceless s r :
  Ss.quoted_run s = Some r → spaceless s = true → spaceless r = true.
Proof.
  revert r. induction s as [|a s IH]; [done|]. intros r. simpl.
  destruct (Ascii.eqb a Ss.dquote); [by intros [= <-]|].
  intros (r' & Hr & ->)%fmap_Some [Ha Hs]%andb_true_iff.
  simpl. rewrite Ha. eauto.
Qed.

Lemma search_quoted_token part name :
  Ss.search_quoted part = Some name → spaceless part = true →
  token name = true.
Proof.
  induction part as [|a part IH]; [done|]. simpl.
  intros H [Ha Hs]%andb_true_iff.
  destruct (Ascii.eqb a Ss.dquote); [|by apply IH].
  destruct (Ss.quoted_run part) as [[|b n]|] eqn:E; [by apply IH| |by apply IH].
  injection H as <-. apply token_spec. split; [|done].
  by apply (quoted_run_spaceless part).
Qed.

Lemma digits_token ds : all_digits ds = true → ds ≠ "" → token ds = true.
Proof. intros. apply token_spec. auto using all_digits_spaceless. Qed.

Lemma owner_shape parts :
  Forall (λ w, token w = true) parts →
  token (Ss.owner parts).1 = true
  ∧ ((Ss.owner parts).2 = "N/A"
     ∨ all_digits (Ss.owner parts).2 = true ∧ (Ss.owner parts).2 ≠ "").
Proof.
  intros Hparts. unfold Ss.owner.
  destruct (find _ parts) as [part|] eqn:Hfind; [|by split; [|left]].
  apply find_some in Hfind as [Hin _].
  rewrite Forall_forall in Hparts.
  apply list_elem_of_In, Hparts, token_spec in Hin as [Hpart _].
  cbn [fst snd]. split.
  - destruct (Ss.search_quoted part) as [name|] eqn:E; [|done].
    by apply (search_quoted_token part).
  - destruct (Ss.search_pid part) as [ds|] eqn:E; [|by left].
    right. by apply (search_pid_digits part).
Qed.

Lemma guess_ssh_shape h ps_lines : ∀ pid program n,
  let r := Ss.guess_ssh h ps_lines pid program n in
  (r.1.1 = pid ∨ token r.1.1 = true)
  ∧ (r.1.2 = program ∧ r.1.1 = pid ∨ r.1.2 = "ssh")
  ∧ (n ≤ r.2 ≤ n + length ps_lines)%nat.
Proof.
  induction ps_lines as [|line rest IH]; intros pid program n.
  { simpl. split_and!; auto; lia. }
  cbn [Ss.guess_ssh length].
  assert (∀ m, (m = n ∨ m = S n) →
    let r := Ss.guess_ssh h rest pid program m in
    (r.1.1 = pid ∨ token r.1.1 = true)
    ∧ (r.1.2 = program ∧ r.1.1 = pid ∨ r.1.2 = "ssh")
    ∧ (n ≤ r.2 ≤ n + S (length rest))%nat) as Hskip.
  { intros m Hm. destruct (IH pid program m) as (? & ? & ?).
    split_and!; auto; lia. }
  destruct (_ && _); [|by apply Hskip; left].
  pose proof (split_ws_tokens line) as Htok.
  destruct (Py.split_ws line) as [|w0 [|possible_pid ws]];
    [by apply Hskip; left..|].
  apply Forall_cons in Htok as [_ [Hpid _]%Forall_cons].
  destruct (Ss.read_activity h n possible_pid) as [found|];
    [|by apply Hskip; right].
  case_bool_decide as Hne.
  - cbn [fst snd]. destruct found; split_and!; auto; lia.
  - destruct (IH (if found then possible_pid else pid)
                 (if found then "ssh" else program) (S n)) as (H1 & H2 & H3).
    cbv zeta. destruct found; split_and!; try lia.
    + destruct H1 as [->| ->]; auto.
    + destruct H2 as [[-> _]| ->]; auto.
    + done.
    + done.
Qed.

Local Ltac use_tokens :=
  repeat match goal with
         | H : token ?x = true |- context [token ?x] => rewrite H
         end.

Lemma parse_line_run h line st :
  match (Ss.parse_line h line st).1 with
  | None => (Ss.parse_line h line st).2 = st
  | Some c =>
      parsed c
      ∧ ((Ss.parse_line h line st).2 = st
         ∨ port_22 c = true
           ∧ Ss.ps_runs (Ss.parse_line h line st).2 = S (Ss.ps_runs st)
           ∧ (Ss.opened st ≤ Ss.opened (Ss.parse_line h line st).2)%nat)
  end.
Proof.
  unfold Ss.parse_line. destruct (String.eqb _ ""); [done|].
  pose proof (split_ws_tokens line) as Htok.
  pose proof (owner_shape _ Htok) as [Hprog Hpid].
  destruct (Py.split_ws line)
    as [|protocol [|state [|recv_q [|send_q [|local_addr [|remote_addr more]]]]]];
    try done.
  destruct (Ss.owner _) as [program pid]. cbn [fst snd] in Hprog, Hpid.
  repeat (apply Forall_cons in Htok as [? Htok]).
  destruct (String.eqb_spec pid "N/A") as [->|Hne]; cbn [andb].
  - destruct (Py.endswith remote_addr ":22") eqn:Hport.
    + destruct (Ss.ps h (Ss.ps_runs st)) as [stdout|].
      * pose proof (guess_ssh_shape h (Py.split "010" stdout) "N/A" program
                      (Ss.opened st)) as (Hg1 & Hg2 & Hg3).
        cbv zeta in Hg1, Hg2, Hg3.
        destruct (Ss.guess_ssh _ _ _ _ _) as [[pid' program'] n].
        cbn [fst snd] in *. split; [|right; split_and!; [done|done|simpl; lia]].
        unfold parsed, all_tokens, port_22; cbn [Net.protocol Net.state Net.local Net.remote Net.program Net.pid
          Net.rx_rate Net.tx_rate].
        assert (token pid' = true) as Hpid' by (by destruct Hg1 as [->|]).
        assert (token program' = true) as Hprog'
          by (by destruct Hg2 as [[-> _]| ->]).
        split_and!; [by use_tokens|done|done|].
        destruct Hg2 as [[_ ->]| ->]; auto.
      * cbn [fst snd]. split; [|right; split_and!; [done|done|done]].
        unfold parsed, all_tokens, port_22; cbn [Net.protocol Net.state Net.local Net.remote Net.program Net.pid
          Net.rx_rate Net.tx_rate].
        split_and!; [by use_tokens|done|done|auto].
    + cbn [fst snd]. split; [|by left].
      unfold parsed, all_tokens, port_22; cbn [Net.protocol Net.state Net.local Net.remote Net.program Net.pid
          Net.rx_rate Net.tx_rate].
      split_and!; [by use_tokens|done|done|auto].
  - cbn [fst snd]. split; [|by left]. destruct Hpid as [?|[Hds Hnil]]; [done|].
    unfold parsed, all_tokens, port_22; cbn [Net.protocol Net.state Net.local Net.remote Net.program Net.pid
          Net.rx_rate Net.tx_rate].
    split_and!; [|done|done|auto].
    pose proof (digits_token _ Hds Hnil). by use_tokens.
Qed.

Lemma parse_lines_run h lines : ∀ st,
  let r := Ss.parse_lines h lines st in
  Forall parsed r.1
  ∧ (Ss.ps_runs st ≤ Ss.ps_runs r.2
     ≤ Ss.ps_runs st + length (filter (λ c, port_22 c = true) r.1))%nat
  ∧ (Ss.opened st ≤ Ss.opened r.2)%nat
  ∧ (Ss.ps_runs r.2 = Ss.ps_runs st → r.2 = st).
Proof.
  induction lines as [|line rest IH]; intros st.
  { simpl. split_and!; [constructor|lia..|done]. }
  cbn [Ss.parse_lines]. pose proof (parse_line_run h line st) as Hline.
  destruct (Ss.parse_line h line st) as [conn st1]. cbn [fst snd] in Hline.
  destruct (IH st1) as (Hall & Hps & Hopen & Hsame). cbv zeta in *.
  destruct (Ss.parse_lines h rest st1) as [connections st2].
  cbn [fst snd] in *.
  destruct conn as [c|];
    [change (option_list (Some c) ++ connections) with (c :: connections)
    |change (option_list None ++ connections) with connections].
  - destruct Hline as [Hc [->|(Hport & Hrun & Hle)]].
    + split_and!; [by constructor|lia| |done|done].
      rewrite filter_cons. destruct (decide _); simpl; lia.
    + split_and!; [by constructor|lia| |lia|lia].
      rewrite filter_cons_True by done. simpl. lia.
  - subst st1. split_and!; try done; lia.
Qed.

(** X18.  Whatever [ss], [ps] and the files hold, every connection that
    [get_connections] returns has six fields that are neither empty
    nor contain whitespace and carries no rate yet; its pid is ['N/A'],
    or decimal digits taken from the process field, or the guess made
    for a remote port 22, which comes with the program name ['ssh']. *)
Theorem connections_are_parsed (stdout : option string) (h : Ss.host)
    (st : Ss.calls) :
  Forall parsed (Ss.get_connections stdout h st).1.
Proof.
  unfold Ss.get_connections. destruct stdout as [text|]; [|constructor].
  by destruct (parse_lines_run h (tail (Py.split "010" (Py.strip text))) st)
    as (Hall & _).
Qed.

(** X19.  [get_connections] runs [ps] at most once for each connection
    to port 22 that it returns, and never otherwise; it opens no file
    without having run [ps], and the two counts never go down. *)
Theorem ps_only_for_port_22 (stdout : option string) (h : Ss.host)
    (st : Ss.calls) :
  let r := Ss.get_connections stdout h st in
  (Ss.ps_runs st ≤ Ss.ps_runs r.2
   ≤ Ss.ps_runs st + length (filter (λ c, port_22 c = true) r.1))%nat
  ∧ (Ss.opened st ≤ Ss.opened r.2)%nat
  ∧ (Ss.ps_runs r.2 = Ss.ps_runs st → r.2 = st).
Proof.
  unfold Ss.get_connections. destruct stdout as [text|].
  - by destruct (parse_lines_run h (tail (Py.split "010" (Py.strip text))) st)
      as (_ & ?).
  - simpl. split_and!; [lia..|done].
Qed.

(** ** A line of [ss] read back *)

Lemma lstrip_blank s : Py.lstrip s = "" → Py.split_ws s = [].
Proof.
  induction s as [|c s IH]; [done|]. cbn [Py.lstrip Py.split_ws].
  by destruct (Py.isspace c).
Qed.

Lemma lstrip_head s c t : Py.lstrip s = String c t → Py.isspace c = false.
Proof.
  induction s as [|a s IH]; [done|]. cbn [Py.lstrip].
  destruct (Py.isspace a) eqn:Ha; [done|]. by intros [= <- _].
Qed.

Lemma lstrip_app_word u c v :
  Py.isspace c = false → Py.lstrip (u +:+ String c v) ≠ "".
Proof.
  intros Hc. induction u as [|a u IH].
  - change ("" +:+ String c v) with (String c v). simpl. by rewrite Hc.
  - rewrite str_app_cons. cbn [Py.lstrip]. by destruct (Py.isspace a).
Qed.

Lemma strip_blank s : Py.strip s = "" → Py.split_ws s = [].
Proof.
  intros Hs. apply lstrip_blank.
  destruct (Py.lstrip s) as [|c t] eqn:Ht; [done|]. exfalso.
  pose proof (lstrip_head _ _ _ Ht) as Hc.
  unfold Py.strip, Py.rstrip in Hs. rewrite Ht in Hs.
  apply (f_equal String.length) in Hs. rewrite rev_length in Hs.
  rewrite rev_cons in Hs.
  pose proof (lstrip_app_word (String.rev t) c "" Hc) as Hne.
  by destruct (Py.lstrip _).
Qed.

Lemma split_ws_app a t :
  token a = true → Py.split_ws (a +:+ String " " t) = a :: Py.split_ws t.
Proof.
  intros [Ha Hne]%token_spec. induction a as [|c a IH]; [done|]. clear Hne.
  simpl in Ha. apply andb_true_iff in Ha as [Hc Ha]. apply negb_true_iff in Hc.
  rewrite str_app_cons. cbn [Py.split_ws]. rewrite Hc.
  destruct a as [|c' a'].
  - change ("" +:+ String " " t) with (String " " t).
    change (Py.isspace " ") with true. cbv iota.
    cbn [Py.split_ws]. by change (Py.isspace " ") with true.
  - rewrite str_app_cons.
    pose proof Ha as [Hc' _]%andb_true_iff. apply negb_true_iff in Hc'.
    rewrite Hc'. rewrite <- str_app_cons, IH by done. done.
Qed.

Lemma spaced_cons a b fields :
  spaced (a :: b :: fields) = a +:+ String " " (spaced (b :: fields)).
Proof. done. Qed.

Lemma split_ws_spaced fields :
  Forall (λ f, token f = true) fields → Py.split_ws (spaced fields) = fields.
Proof.
  induction 1 as [|a fields Ha _ IH]; [done|].
  destruct fields as [|b fields].
  - apply token_spec in Ha as [? ?]. by apply split_ws_word.
  - by rewrite spaced_cons, split_ws_app, IH.
Qed.

Lemma find_first {A} (f : A → bool) (pre : list A) (x : A) (post : list A) :
  Forall (λ y, f y = false) pre → f x = true →
  find f (pre ++ x :: post) = Some x.
Proof.
  intros Hpre Hx. induction Hpre as [|y pre Hy _ IH]; simpl.
  - by rewrite Hx.
  - by rewrite Hy.
Qed.

Lemma quoted_run_app name rest :
  Py.contains Ss.dquote name = false →
  Ss.quoted_run (name +:+ String Ss.dquote rest) = Some name.
Proof.
  induction name as [|c name IH]; [done|]. simpl.
  intros [Hc Hname]%orb_false_elim. by rewrite Hc, IH.
Qed.

Lemma search_quoted_none s :
  Py.contains Ss.dquote s = false → Ss.search_quoted s = None.
Proof.
  induction s as [|c s IH]; [done|]. simpl.
  intros [Hc Hs]%orb_false_elim. rewrite Hc. auto.
Qed.

Lemma after_Some p : ∀ s t, Ss.after p s = Some t → s = p +:+ t.
Proof.
  induction p as [|a p IH]; intros [|b s] t; simpl; try done.
  - by intros [= <-].
  - by intros [= <-].
  - destruct (Ascii.eqb_spec a b) as [<-|]; [|done].
    intros H%IH. by rewrite H.
Qed.

Lemma search_pid_none s : Py.contains "=" s = false → Ss.search_pid s = None.
Proof.
  induction s as [|c s IH]; [done|]. intros Hs. rewrite search_pid_cons.
  destruct (Ss.after "pid=" (String c s)) as [t|] eqn:Ht.
  - apply after_Some in Ht. rewrite Ht in Hs. by rewrite contains_app in Hs.
  - simpl in Hs. apply orb_false_elim in Hs as [_ Hs]. simpl. auto.
Qed.

Lemma after_behind_plain c a t :
  Py.contains "=" (String c a) = false →
  Ss.after "pid=" (String c a +:+ ("pid=" +:+ t)) = None.
Proof.
  intros H. destruct a as [|c1 [|c2 [|c3 a]]]; simpl in H |- *;
    repeat (apply orb_false_elim in H as [? H]);
    repeat (case_match; try done).
Qed.

Lemma search_pid_skip a t :
  Py.contains "=" a = false →
  Ss.search_pid (a +:+ ("pid=" +:+ t)) = Ss.search_pid ("pid=" +:+ t).
Proof.
  induction a as [|c a IH]; [done|]. intros Ha.
  rewrite str_app_cons, search_pid_cons, <- str_app_cons.
  rewrite after_behind_plain by done. simpl in Ha.
  apply orb_false_elim in Ha as [_ Ha]. simpl. auto.
Qed.

Lemma digit_run_app ds more :
  all_digits ds = true → Ss.digit_run more = "" →
  Ss.digit_run (ds +:+ more) = ds.
Proof.
  intros Hds Hmore. induction ds as [|c ds IH]; [done|].
  simpl in Hds. apply andb_true_iff in Hds as [Hc Hds].
  rewrite str_app_cons. simpl. by rewrite Hc, IH.
Qed.

Lemma digits_not_na ds : all_digits ds = true → String.eqb ds "N/A" = false.
Proof.
  destruct ds as [|c ds]; [done|]. simpl.
  intros [[d Hd]%bool_decide_eq_true _]%andb_true_iff.
  destruct (Ascii.eqb_spec c "N") as [->|]; done.
Qed.

Lemma users_field_token name pid more :
  token name = true → spaceless more = true →
  token (users_field name pid more) = true.
Proof.
  intros [Hname _]%token_spec Hmore. apply token_spec. split; [|done].
  unfold users_field. destruct (all_digits_pretty pid) as [Hpid _].
  apply all_digits_spaceless in Hpid.
  rewrite spaceless_app. change (spaceless "users:((") with true. cbn [andb].
  change (spaceless (String Ss.dquote ?y)) with (spaceless y).
  rewrite spaceless_app, Hname. cbn [andb].
  change (spaceless (String Ss.dquote ?y)) with (spaceless y).
  by rewrite !spaceless_app, Hpid, Hmore.
Qed.

Lemma users_field_quoted name pid more :
  name ≠ "" → Py.contains Ss.dquote name = false →
  Ss.search_quoted (users_field name pid more) = Some name.
Proof.
  intros Hne Hname. unfold users_field.
  change ("users:((" +:+ String Ss.dquote ?x)
    with (String "u" (String "s" (String "e" (String "r" (String "s"
           (String ":" (String "(" (String "(" (String Ss.dquote x))))))))).
  cbn [Ss.search_quoted]. rewrite quoted_run_app by done.
  simpl. by destruct name.
Qed.

Lemma users_field_pid name pid more :
  Py.contains "=" name = false → Ss.digit_run more = "" →
  Ss.search_pid (users_field name pid more) = Some (pretty pid).
Proof.
  intros Hname Hmore. destruct (all_digits_pretty pid) as [Hpid Hne].
  assert (users_field name pid more
          = ("users:((" +:+ String Ss.dquote (name +:+ String Ss.dquote ","))
            +:+ ("pid=" +:+ (pretty pid +:+ more))) as ->.
  { unfold users_field. rewrite (str_app_assoc "users:(("), (str_app_cons Ss.dquote).
    by rewrite (str_app_assoc name). }
  rewrite search_pid_skip.
  - change ("pid=" +:+ ?x) with (String "p" ("id=" +:+ x)).
    rewrite search_pid_cons.
    change (Ss.after "pid=" (String "p" ("id=" +:+ ?x))) with (Some x).
    cbn [fmap option_fmap option_map]. rewrite digit_run_app by done.
    by destruct (pretty pid).
  - rewrite contains_app. simpl. rewrite contains_app, Hname. done.
Qed.

Lemma users_field_owner fields name pid more others :
  Forall (λ f, token f = true ∧ Py.startswith f "users:((" = false) fields →
  token name = true →
  Py.contains Ss.dquote name = false → Py.contains "=" name = false →
  Ss.digit_run more = "" →
  Ss.owner (fields ++ users_field name pid more :: others)
  = (name, pretty pid).
Proof.
  intros Hfields [_ Hne]%token_spec Hq Heq Hrun. unfold Ss.owner.
  rewrite (find_first _ fields).
  - by rewrite users_field_quoted, users_field_pid.
  - eapply Forall_impl; [exact Hfields|]. by intros f [_ ?].
  - apply (startswith_app "users:((").
Qed.

(** X20.  A line as [ss] prints it is read back: for six fields, then
    the process field with a name in double quotes and a pid in decimal,
    then any further fields, [get_connections] makes the connection of
    the first, second, fifth and sixth field with that name and that
    pid, and runs no [ps].  (The fields hold no whitespace and do not
    start like a process field; the name holds no double quote and no
    equals sign; what follows the pid does not start with a digit.) *)
Theorem ss_line_reads_back (h : Ss.host) (st : Ss.calls)
    (protocol state recv_q send_q local_addr remote_addr name more : string)
    (pid : N) (others : list string) :
  Forall (λ f, token f = true ∧ Py.startswith f "users:((" = false)
    [protocol; state; recv_q; send_q; local_addr; remote_addr] →
  token name = true →
  Py.contains Ss.dquote name = false → Py.contains "=" name = false →
  spaceless more = true → Ss.digit_run more = "" →
  Forall (λ f, token f = true) others →
  Ss.parse_line h
    (spaced ([protocol; state; recv_q; send_q; local_addr; remote_addr]
             ++ users_field name pid more :: others)) st
  = (Some {| Net.protocol := protocol; Net.state := state;
             Net.local := local_addr; Net.remote := remote_addr;
             Net.program := name; Net.pid := pretty pid;
             Net.rx_rate := None; Net.tx_rate := None |}, st).
Proof.
  intros Hfields Hname Hq Heq Hmore Hrun Hothers.
  pose proof (users_field_owner _ name pid more others Hfields Hname Hq Heq Hrun)
    as Howner.
  set (fields := [protocol; state; recv_q; send_q; local_addr; remote_addr]) in *.
  assert (Py.split_ws (spaced (fields ++ users_field name pid more :: others))
          = fields ++ users_field name pid more :: others) as Hparts.
  { apply split_ws_spaced, Forall_app. split.
    - eapply Forall_impl; [exact Hfields|]. by intros f [? _].
    - constructor; [by apply users_field_token|done]. }
  unfold Ss.parse_line.
  destruct (String.eqb_spec (Py.strip (spaced (fields ++ users_field name pid more :: others))) "")
    as [Hblank|_].
  { apply strip_blank in Hblank. by rewrite Hparts in Hblank. }
  rewrite Hparts, Howner. subst fields. cbn [app].
  destruct (all_digits_pretty pid) as [Hpid _].
  by rewrite (digits_not_na _ Hpid).
Qed.

Lemma ss_line_reads_back_witness :
  Ss.parse_line {| Ss.ps := λ _, None; Ss.files := λ _, Sample.proc_gone |}
    (spaced (["tcp"; "ESTAB"; "0"; "0"; "192.168.1.5:54321"; "93.184.216.34:443"]
             ++ users_field "firefox" 1234 ",fd=56))" :: ["uid:1000"]))
    {| Ss.ps_runs := 0; Ss.opened := 0 |}
  = (Some {| Net.protocol := "tcp"; Net.state := "ESTAB";
             Net.local := "192.168.1.5:54321"; Net.remote := "93.184.216.34:443";
             Net.program := "firefox"; Net.pid := pretty 1234%N;
             Net.rx_rate := None; Net.tx_rate := None |},
     {| Ss.ps_runs := 0; Ss.opened := 0 |}).
Proof.
  apply (ss_line_reads_back _ _ "tcp" "ESTAB" "0" "0" "192.168.1.5:54321"
           "93.184.216.34:443" "firefox" ",fd=56))" 1234 ["uid:1000"]);
    try reflexivity; repeat constructor.
Defined.

(** X21.  A blank in the program name hides the owner: the process
    field is cut at the blank, its first part holds no closing double
    quote and no pid, and the connection is returned with program and
    pid ['N/A'], whatever the rest of the line holds.  (Remote port not
    22, for which the guess would be tried.) *)
Theorem blank_in_name_hides_owner (h : Ss.host) (st : Ss.calls)
    (protocol state recv_q send_q local_addr remote_addr word : string)
    (others : list string) :
  Forall (λ f, token f = true ∧ Py.startswith f "users:((" = false)
    [protocol; state; recv_q; send_q; local_addr; remote_addr] →
  Py.endswith remote_addr ":22" = false →
  spaceless word = true →
  Py.contains Ss.dquote word = false → Py.contains "=" word = false →
  Forall (λ f, token f = true) others →
  Ss.parse_line h
    (spaced ([protocol; state; recv_q; send_q; local_addr; remote_addr]
             ++ ("users:((" +:+ String Ss.dquote word) :: others)) st
  = (Some {| Net.protocol := protocol; Net.state := state;
             Net.local := local_addr; Net.remote := remote_addr;
             Net.program := "N/A"; Net.pid := "N/A";
             Net.rx_rate := None; Net.tx_rate := None |}, st).
Proof.
  intros Hfields Hport Hword Hq Heq Hothers.
  set (fields := [protocol; state; recv_q; send_q; local_addr; remote_addr]) in *.
  set (part := "users:((" +:+ String Ss.dquote word).
  assert (Ss.owner (fields ++ part :: others) = ("N/A", "N/A")) as Howner.
  { unfold Ss.owner. rewrite (find_first _ fields).
    - assert (Ss.search_quoted part = None) as ->.
      { subst part.
        change ("users:((" +:+ String Ss.dquote ?x)
          with (String "u" (String "s" (String "e" (String "r" (String "s"
                 (String ":" (String "(" (String "(" (String Ss.dquote x))))))))).
        cbn [Ss.search_quoted]. simpl.
        assert (Ss.quoted_run word = None) as ->.
        { clear -Hq. induction word as [|c word IH]; [done|]. simpl in *.
          apply orb_false_elim in Hq as [-> Hq]. by rewrite IH. }
        by apply search_quoted_none. }
      rewrite search_pid_none; [done|].
      subst part. rewrite contains_app. simpl. by rewrite Heq.
    - eapply Forall_impl; [exact Hfields|]. by intros f [_ ?].
    - apply (startswith_app "users:(("). }
  assert (Py.split_ws (spaced (fields ++ part :: others))
          = fields ++ part :: others) as Hparts.
  { apply split_ws_spaced, Forall_app. split.
    - eapply Forall_impl; [exact Hfields|]. by intros f [? _].
    - constructor; [|done]. apply token_spec. split; [|done].
      subst part. rewrite spaceless_app.
      change (spaceless "users:((") with true. cbn [andb].
      by change (spaceless (String Ss.dquote ?y)) with (spaceless y). }
  unfold Ss.parse_line.
  destruct (String.eqb_spec (Py.strip (spaced (fields ++ part :: others))) "")
    as [Hblank|_].
  { apply strip_blank in Hblank. by rewrite Hparts in Hblank. }
  rewrite Hparts, Howner. subst fields. cbn [app].
  by rewrite Hport.
Qed.

Lemma blank_in_name_hides_owner_witness :
  Ss.parse_line {| Ss.ps := λ _, None; Ss.files := λ _, Sample.proc_gone |}
    (spaced (["udp"; "UNCONN"; "0"; "0"; "0.0.0.0:5353"; "0.0.0.0:*"]
             ++ ("users:((" +:+ String Ss.dquote "Web")
                :: ["Content" +:+ String Ss.dquote ",pid=99,fd=3))"]))
    {| Ss.ps_runs := 0; Ss.opened := 0 |}
  = (Some {| Net.protocol := "udp"; Net.state := "UNCONN";
             Net.local := "0.0.0.0:5353"; Net.remote := "0.0.0.0:*";
             Net.program := "N/A"; Net.pid := "N/A";
             Net.rx_rate := None; Net.tx_rate := None |},
     {| Ss.ps_runs := 0; Ss.opened := 0 |}).
Proof.
  apply (blank_in_name_hides_owner _ _ "udp" "UNCONN" "0" "0" "0.0.0.0:5353"
           "0.0.0.0:*" "Web" ["Content" +:+ String Ss.dquote ",pid=99,fd=3))"]);
    try reflexivity; repeat constructor.
Defined.

(** X22.  The guess for an ownerless connection to port 22 is never
    taken from a line of [ps] that starts with [root]: when the loop
    over the output of [ps] leaves a pid, the program is ['ssh'] and
    the pid is the second field of a line that holds [ssh], does not
    start with [root], and whose file under [/proc] showed a positive
    [read_bytes]. *)
Theorem ssh_guess_is_a_ps_line (h : Ss.host) (ps_lines : list string)
    (program : string) (n : nat) :
  let r := Ss.guess_ssh h ps_lines "N/A" program n in
  r.1.1 = "N/A"
  ∨ r.1.2 = "ssh"
    ∧ ∃ line k,
        line ∈ ps_lines
        ∧ Ss.has "ssh" line = true ∧ Py.startswith line "root" = false
        ∧ Py.split_ws line !! 1%nat = Some r.1.1
        ∧ Ss.read_activity h k r.1.1 = Some true.
Proof.
  revert program n. induction ps_lines as [|line rest IH]; intros program n.
  { by left. }
  assert (∀ program m,
    let r := Ss.guess_ssh h rest "N/A" program m in
    r.1.1 = "N/A"
    ∨ r.1.2 = "ssh"
      ∧ ∃ line' k,
          line' ∈ line :: rest
          ∧ Ss.has "ssh" line' = true ∧ Py.startswith line' "root" = false
          ∧ Py.split_ws line' !! 1%nat = Some r.1.1
          ∧ Ss.read_activity h k r.1.1 = Some true) as Hrest.
  { intros program' m. destruct (IH program' m) as [?|(? & l & k & ? & ?)];
      [by left|right]. split; [done|]. exists l, k. split; [by right|done]. }
  cbn [Ss.guess_ssh]. destruct (Ss.has "ssh" line) eqn:Hssh; [|apply Hrest].
  destruct (Py.startswith line "root") eqn:Hroot; [apply Hrest|]. cbn [negb andb].
  destruct (Py.split_ws line) as [|w0 [|possible_pid ws]] eqn:Hparts;
    [apply Hrest..|].
  destruct (Ss.read_activity h n possible_pid) as [found|] eqn:Hread;
    [|apply Hrest].
  case_bool_decide as Hne.
  - destruct found; [|done]. right. split; [done|].
    exists line, n. cbn [fst snd]. rewrite Hparts.
    split_and!; [by left|done..].
  - assert ((if found then possible_pid else "N/A") = "N/A") as ->.
    { by destruct (decide ((if found then possible_pid else "N/A") = "N/A")). }
    apply Hrest.
Qed.

Lemma split_plain sep s : Py.contains sep s = false → Py.split sep s = [s].
Proof.
  induction s as [|c s IH]; [done|]. simpl.
  intros [-> Hs]%orb_false_elim. by rewrite IH.
Qed.

(** X23.  The first line of the output is never read as a connection:
    an output of one line, or none, gives no connection and runs
    nothing, whatever that line holds. *)
Theorem first_line_is_not_read (text : string) (h : Ss.host) (st : Ss.calls) :
  Py.contains "010" (Py.strip text) = false →
  Ss.get_connections (Some text) h st = ([], st).
Proof.
  intros Hline. unfold Ss.get_connections. by rewrite split_plain.
Qed.

Lemma first_line_is_not_read_witness :
  Ss.get_connections
    (Some "tcp ESTAB 0 0 192.168.1.5:54321 93.184.216.34:443
")
    {| Ss.ps := λ _, None; Ss.files := λ _, Sample.proc_gone |}
    {| Ss.ps_runs := 0; Ss.opened := 0 |}
  = ([], {| Ss.ps_runs := 0; Ss.opened := 0 |}).
Proof. apply first_line_is_not_read. reflexivity. Defined.

(** ** The texts of a rate *)

Lemma tenths_whole n : PyFloat.tenths n 1 = 10 * n.
Proof. unfold PyFloat.tenths. by rewrite Z.div_1_r, Z.mod_1_r. Qed.

Lemma format_1f_whole n : PyFloat.format_1f n 1 = pretty n +:+ ".0".
Proof.
  unfold PyFloat.format_1f. rewrite tenths_whole. cbv zeta.
  rewrite (Z.mul_comm 10), Z.div_mul, Z.mod_mul by done.
  by destruct n.
Qed.

Lemma format_loop_alike units : ∀ num den,
  GtkOut.format_loop units num den = CliOut.format_loop units num den +:+ "/s".
Proof.
  induction units as [|unit rest IH]; intros num den; simpl.
  - by rewrite !str_app_assoc.
  - destruct (num <? 1024 * den); [by rewrite !str_app_assoc|apply IH].
Qed.

(** X24.  Both programs print a rate as the same text: [format_bytes]
    of the window gives what the terminal program prints in a rate
    cell, its own [format_bytes] followed by [/s]. *)
Theorem rates_print_alike (bytes_val : Z) :
  GtkOut.format_bytes bytes_val = CliOut.format_bytes bytes_val +:+ "/s".
Proof. apply format_loop_alike. Qed.

(** X25.  Below 1024 a rate is printed as the number itself with one
    zero decimal and the unit B; this includes the negative rates,
    which keep their sign. *)
Theorem format_bytes_below_1024 (bytes_val : Z) :
  - 2 ^ 53 < bytes_val → bytes_val < 1024 →
  CliOut.format_bytes bytes_val = pretty bytes_val +:+ ".0B"
  ∧ GtkOut.format_bytes bytes_val = pretty bytes_val +:+ ".0B/s".
Proof.
  intros _ Hlt.
  assert (CliOut.format_bytes bytes_val = pretty bytes_val +:+ ".0B") as Hcli.
  { unfold CliOut.format_bytes. cbn [CliOut.format_loop].
    destruct (Z.ltb_spec bytes_val (1024 * 1)); [|lia].
    by rewrite format_1f_whole, str_app_assoc. }
  split; [done|].
  unfold GtkOut.format_bytes. rewrite format_loop_alike.
  fold (CliOut.format_bytes bytes_val). by rewrite Hcli, str_app_assoc.
Qed.

Lemma format_bytes_below_1024_witness :
  CliOut.format_bytes (-995) = pretty (-995) +:+ ".0B"
  ∧ GtkOut.format_bytes (-995) = pretty (-995) +:+ ".0B/s".
Proof. apply (format_bytes_below_1024 (-995)); lia. Defined.

Lemma tenths_round_up n den :
  0 < den → 20479 * den ≤ 20 * n → n < 1024 * den →
  PyFloat.tenths n den = 10240.
Proof.
  intros Hden Hlo Hhi. unfold PyFloat.tenths.
  assert ((10 * n) `div` den = 10239) as Hq.
  { symmetry. apply (Z.div_unique_pos _ _ _ (10 * n - 10239 * den)); lia. }
  assert ((10 * n) `mod` den = 10 * n - 10239 * den) as Hr.
  { rewrite Z.mod_eq, Hq by lia. lia. }
  rewrite Hq, Hr. cbv zeta.
  destruct (Z.ltb_spec (2 * (10 * n - 10239 * den)) den); [lia|].
  by destruct (Z.ltb_spec den (2 * (10 * n - 10239 * den))).
Qed.

Lemma format_1f_round_up n den :
  0 < den → 20479 * den ≤ 20 * n → n < 1024 * den →
  PyFloat.format_1f n den = "1024.0".
Proof.
  intros Hden Hlo Hhi. unfold PyFloat.format_1f.
  rewrite Z.abs_eq by lia. rewrite tenths_round_up by done.
  by destruct (Z.ltb_spec n 0); [lia|].
Qed.

(** X26.  A rate just below the next unit is printed as 1024.0 of its
    own unit: from 1023.95 of a unit on, the number is rounded to
    1024.0 while the unit stays.  (With the unit B the rate is a whole
    number below 1024.) *)
Theorem format_bytes_shows_1024 (bytes_val k : Z) (unit : string) :
  (k, unit) ∈ [(1, "KB"); (2, "MB"); (3, "GB")] →
  20479 * 1024 ^ k ≤ 20 * bytes_val → bytes_val < 1024 ^ (k + 1) →
  GtkOut.format_bytes bytes_val = "1024.0" +:+ unit +:+ "/s"
  ∧ CliOut.format_bytes bytes_val = "1024.0" +:+ unit.
Proof.
  intros Hk Hlo Hhi.
  assert (CliOut.format_bytes bytes_val = "1024.0" +:+ unit) as Hcli.
  { unfold CliOut.format_bytes. cbn [CliOut.format_loop].
    repeat (apply elem_of_cons in Hk as [[= -> ->]|Hk]);
      [| | |by apply elem_of_nil in Hk].
    - change (1024 ^ 1) with 1024 in Hlo. change (1024 ^ (1 + 1)) with 1048576 in Hhi.
      destruct (Z.ltb_spec bytes_val (1024 * 1)); [lia|].
      destruct (Z.ltb_spec bytes_val (1024 * (1024 * 1))); [|lia].
      rewrite format_1f_round_up; [done|lia..].
    - change (1024 ^ 2) with 1048576 in Hlo.
      change (1024 ^ (2 + 1)) with 1073741824 in Hhi.
      destruct (Z.ltb_spec bytes_val (1024 * 1)); [lia|].
      destruct (Z.ltb_spec bytes_val (1024 * (1024 * 1))); [lia|].
      destruct (Z.ltb_spec bytes_val (1024 * (1024 * (1024 * 1)))); [|lia].
      rewrite format_1f_round_up; [done|lia..].
    - change (1024 ^ 3) with 1073741824 in Hlo.
      change (1024 ^ (3 + 1)) with 1099511627776 in Hhi.
      destruct (Z.ltb_spec bytes_val (1024 * 1)); [lia|].
      destruct (Z.ltb_spec bytes_val (1024 * (1024 * 1))); [lia|].
      destruct (Z.ltb_spec bytes_val (1024 * (1024 * (1024 * 1)))); [lia|].
      destruct (Z.ltb_spec bytes_val (1024 * (1024 * (1024 * (1024 * 1))))); [|lia].
      rewrite format_1f_round_up; [done|lia..]. }
  split; [|done].
  unfold GtkOut.format_bytes. rewrite format_loop_alike.
  fold (CliOut.format_bytes bytes_val). by rewrite Hcli, str_app_assoc.
Qed.

Lemma format_bytes_shows_1024_witness :
  GtkOut.format_bytes 1048575 = "1024.0" +:+ "KB" +:+ "/s"
  ∧ CliOut.format_bytes 1048575 = "1024.0" +:+ "KB".
Proof.
  apply (format_bytes_shows_1024 1048575 1 "KB"); [|by vm_compute..].
  apply elem_of_cons. by left.
Defined.

(** ** The cells of a row of the terminal program *)

Lemma blanks_length n : String.length (CliOut.blanks n) = n.
Proof. induction n as [|n IH]; [done|]. simpl. by rewrite IH. Qed.

Lemma ljust_length width s :
  String.length (CliOut.ljust width s) = (width `max` String.length s)%nat.
Proof. unfold CliOut.ljust. rewrite str_length_app, blanks_length. lia. Qed.

Lemma ljust_shorten keep limit s :
  (keep ≤ limit)%nat →
  String.length (CliOut.ljust limit (CliOut.shorten keep limit s)) = limit.
Proof.
  intros Hkeep. rewrite ljust_length. unfold CliOut.shorten.
  destruct (Nat.ltb_spec limit (String.length s)); [|lia].
  rewrite length_substring_0; lia.
Qed.

(** X27.  In a row of the terminal program the local, remote and
    program cells always take exactly the 20, 25 and 20 characters of
    their columns: a longer text is cut to one character less and
    padded.  The protocol and state cells take 8 and 12 characters, or
    the length of a longer text.  The two rate cells are padded to 11
    characters, where the cells of the header take 12. *)
Theorem row_cells_widths (conn : Net.connection) (rx_rate tx_rate : Z) :
  String.length <$> CliOut.print_table_row conn rx_rate tx_rate
  = [8 `max` String.length (Net.protocol conn);
     12 `max` String.length (Net.state conn); 20; 25; 20;
     11 `max` String.length (CliOut.format_bytes rx_rate +:+ "/s");
     11 `max` String.length (CliOut.format_bytes tx_rate +:+ "/s")]%nat
  ∧ String.length <$> CliOut.print_table_header
    = [8; 12; 20; 25; 20; 12; 12]%nat.
Proof.
  split; [|done]. unfold CliOut.print_table_row. cbv zeta.
  cbn [fmap list_fmap]. rewrite !ljust_shorten by lia.
  by rewrite !ljust_length.
Qed.
